(** * Content resolution with fallback, and the form and webhook handlers

    A shallow embedding of the API route handlers of the church website
    (Next.js route handlers written in TypeScript):

    - [Events.GET]          the events route            (api/events)
    - [TenantSettings.GET]  api/tenant-settings/route.ts
    - [GivingPage.GET]      api/giving-page/route.ts
    - [StripeWebhook.POST]  api/webhooks/stripe/route.ts
    - [Contact.POST]        api/contact/route.ts
    - [PlannedVisits.POST]  api/planned-visits/route.ts

    Each handler is a function of a [World]: the environment variables, the
    clock and the answers of the remote services it talks to (the database
    client, the payment processor, and [createServerSupabaseClient] of
    [lib/supabase]).  An awaited remote call either resolves to a value or
    throws; [try]/[catch] blocks are written out with [try_catch], and the
    handlers that write carry a log of the operations they send.

    Strings are sequences of code units below 256; numbers in JSON values
    are rationals. *)

From Stdlib Require Import String Ascii List ZArith Bool Arith Lia DecimalString.
From Stdlib Require QArith.
Import ListNotations.

Set Warnings "-register-all".

Local Open Scope string_scope.
Local Open Scope list_scope.

(** ** JavaScript values and helpers *)

Module Js.

(** A thrown value, as far as the [catch] blocks look at it:
    [e.message], [e.code] and [e instanceof Error]. *)
Record Exception : Type := mkException {
  exn_message : string;
  exn_code : option string;
  instanceof_Error : bool
}.

(** [new Error(msg)], [new TypeError(msg)], ... *)
Definition Error_ (msg : string) : Exception :=
  {| exn_message := msg; exn_code := None; instanceof_Error := true |}.

(** The result of evaluating a call: it returns a value or throws. *)
Inductive Outcome (A : Type) : Type :=
| Returned (a : A)
| Thrown (e : Exception).
Arguments Returned {A} a.
Arguments Thrown {A} e.

Definition bind {A B} (c : Outcome A) (k : A -> Outcome B) : Outcome B :=
  match c with
  | Returned a => k a
  | Thrown e => Thrown e
  end.

(** [try { body } catch (e) { handler e }] *)
Definition try_catch {A} (body : Outcome A) (handler : Exception -> A) : A :=
  match body with
  | Returned a => a
  | Thrown e => handler e
  end.

(** Truthiness of a string: it is not empty. *)
Definition truthy (s : string) : bool :=
  negb (String.eqb s "").

(** Truthiness of a value of type [string | null | undefined]. *)
Definition truthy_opt (s : option string) : bool :=
  match s with
  | Some s => truthy s
  | None => false
  end.

(** [s || d] for [s : string | null | undefined]. *)
Definition or_default (s : option string) (d : string) : string :=
  match s with
  | Some s => if truthy s then s else d
  | None => d
  end.

(** The string held by a value that a guard has found truthy. *)
Definition value (s : option string) : string := or_default s "".

(** [s || null] *)
Definition or_null (s : option string) : option string :=
  match s with
  | Some s => if truthy s then Some s else None
  | None => None
  end.

(** [s.includes(sub)] *)
Fixpoint includes (s sub : string) : bool :=
  if String.prefix sub s then true
  else match s with
       | EmptyString => false
       | String _ rest => includes rest sub
       end.

(** [c.toLowerCase()] on one code unit: A-Z, and the capital letters of
    the Latin-1 block (U+00C0..U+00DE without the multiplication sign). *)
Definition lower_unit (c : ascii) : ascii :=
  let n := nat_of_ascii c in
  if (Nat.leb 65 n && Nat.leb n 90)
     || (Nat.leb 192 n && Nat.leb n 222 && negb (Nat.eqb n 215))
  then ascii_of_nat (n + 32)
  else c.

Fixpoint toLowerCase (s : string) : string :=
  match s with
  | EmptyString => EmptyString
  | String c rest => String (lower_unit c) (toLowerCase rest)
  end.

(** [s.toUpperCase()] on a string of ASCII letters (currency codes). *)
Definition upper_unit (c : ascii) : ascii :=
  let n := nat_of_ascii c in
  if Nat.leb 97 n && Nat.leb n 122 then ascii_of_nat (n - 32) else c.

Fixpoint toUpperCase (s : string) : string :=
  match s with
  | EmptyString => EmptyString
  | String c rest => String (upper_unit c) (toUpperCase rest)
  end.

(** [s.split('')] *)
Definition split_units (s : string) : list ascii := list_ascii_of_string s.

Definition charCodeAt0 (c : ascii) : nat := nat_of_ascii c.

(** Template literal interpolation of a non-negative integer. *)
Definition nat_to_string (n : nat) : string :=
  NilZero.string_of_uint (Nat.to_uint n).

(** [a || b] for two values of type [string | undefined]. *)
Definition or_opt (a b : option string) : option string :=
  if truthy_opt a then a else b.

(** JSON values; an object lists its keys in the order JavaScript
    enumerates them. *)
Inductive Json : Type :=
| JNull
| JBool (b : bool)
| JNum (n : QArith_base.Q)
| JStr (s : string)
| JArr (items : list Json)
| JObj (fields : list (string * Json)).

Definition Object : Type := list (string * Json).

(** An array index: the canonical decimal text of an integer below
    [2^32 - 1].  JavaScript enumerates the keys that are array indices
    first, in ascending order, and the other keys after them in the order
    of their creation. *)
Definition array_index (k : string) : option N :=
  match NilEmpty.uint_of_string k with
  | Some u =>
      let n := N.of_uint u in
      if String.eqb (NilZero.string_of_uint (N.to_uint n)) k
         && (n <? 4294967295)%N
      then Some n
      else None
  | None => None
  end.


(** [k in o], for own keys. *)
Definition has_key (o : Object) (k : string) : bool :=
  existsb (fun kv => String.eqb (fst kv) k) o.

(** [o[k] = v] on an own key: the value changes, the place does not. *)
Fixpoint obj_update (o : Object) (k : string) (v : Json) : Object :=
  match o with
  | [] => []
  | (k', v') :: rest =>
      if String.eqb k' k then (k', v) :: rest else (k', v') :: obj_update rest k v
  end.

(** A new array index goes before the first key that is a larger index or
    no index at all. *)
Fixpoint obj_insert_index (o : Object) (n : N) (k : string) (v : Json) : Object :=
  match o with
  | [] => [(k, v)]
  | (k', v') :: rest =>
      match array_index k' with
      | Some n' =>
          if (n' <? n)%N then (k', v') :: obj_insert_index rest n k v
          else (k, v) :: o
      | None => (k, v) :: o
      end
  end.

(** [o[k] = v] *)
Definition obj_set (o : Object) (k : string) (v : Json) : Object :=
  if has_key o k then obj_update o k v
  else match array_index k with
       | Some n => obj_insert_index o n k v
       | None => o ++ [(k, v)]
       end.

Fixpoint obj_lookup (o : Object) (k : string) : option Json :=
  match o with
  | [] => None
  | (k', v) :: rest => if String.eqb k' k then Some v else obj_lookup rest k
  end.

(** The object literal [{ ...a, ...b }]: the own keys of [b] are set on a
    copy of [a], one after the other. *)
Definition spread (a b : Object) : Object :=
  fold_left (fun acc kv => obj_set acc (fst kv) (snd kv)) b a.

(** A value of type [string | null] as JSON. *)
Definition opt_str (s : option string) : Json :=
  match s with
  | Some s => JStr s
  | None => JNull
  end.

(** Truthiness of a JSON value that may be absent ([undefined]). *)
Definition truthy_json (v : option Json) : bool :=
  match v with
  | None => false
  | Some JNull => false
  | Some (JBool b) => b
  | Some (JNum n) => negb (QArith_base.Qeq_bool n (QArith_base.inject_Z 0))
  | Some (JStr s) => truthy s
  | Some (JArr _) => true
  | Some (JObj _) => true
  end.

(** [v === true || v === 'true' || v === 1] *)
Definition is_yes (v : option Json) : bool :=
  match v with
  | Some (JBool true) => true
  | Some (JStr s) => String.eqb s "true"
  | Some (JNum n) => QArith_base.Qeq_bool n (QArith_base.inject_Z 1)
  | _ => false
  end.

(** [a || b] on strings. *)
Definition or_str (a b : string) : string := if truthy a then a else b.

(** [s.split(' ')[0]] *)
Fixpoint first_word (s : string) : string :=
  match s with
  | EmptyString => EmptyString
  | String c rest =>
      if Ascii.eqb c " "%char then EmptyString else String c (first_word rest)
  end.

(** [s.split(' ').slice(1).join(' ')] *)
Fixpoint after_first_space (s : string) : string :=
  match s with
  | EmptyString => EmptyString
  | String c rest =>
      if Ascii.eqb c " "%char then rest else after_first_space rest
  end.

(** The names a plain object inherits from [Object.prototype]. *)
Definition inherited_names : list string :=
  [ "constructor"; "__defineGetter__"; "__defineSetter__"; "hasOwnProperty";
    "__lookupGetter__"; "__lookupSetter__"; "isPrototypeOf";
    "propertyIsEnumerable"; "toString"; "valueOf"; "__proto__";
    "toLocaleString" ].

(** Template literal interpolation of an integer. *)
Definition Z_to_string (z : Z) : string :=
  NilZero.string_of_int (Z.to_int z).

(** [Number.MAX_SAFE_INTEGER], [2^53 - 1]. *)
Definition MAX_SAFE_INTEGER : Z := 9007199254740991.

(** A safe integer: an integer of magnitude at most [2^53 - 1].  On these
    the comparison and the subtraction of doubles are those of the
    integers. *)
Record SafeInteger : Type := mkSafe {
  int_value : Z;
  int_safe : (Z.abs int_value <=? MAX_SAFE_INTEGER)%Z = true
}.

(** What the arithmetic of a handler reads in a numeric field of a parsed
    body: the safe integer the field holds, or NaN when the field is
    missing ([undefined]).  A field that holds a number with a fraction, a
    number beyond the safe integers or a value of another type is outside
    the model. *)
Inductive Number : Type :=
| Int (n : SafeInteger)
| NaN.

(** [g > 1]; every comparison with NaN is false. *)
Definition greater_than_one (g : Number) : bool :=
  match g with
  | Int n => (1 <? int_value n)%Z
  | NaN => false
  end.

(** [Math.max(0, g - 1)] as [JSON.stringify] writes it: NaN, which
    [NaN - 1] and [Math.max] pass on, is written [null]. *)
Definition max_0_minus_1 (g : Number) : Json :=
  match g with
  | Int n => JNum (QArith_base.inject_Z (Z.max 0 (int_value n - 1)))
  | NaN => JNull
  end.

(** Template literal interpolation of a number. *)
Definition Number_to_string (g : Number) : string :=
  match g with
  | Int n => Z_to_string (int_value n)
  | NaN => "NaN"
  end.

End Js.

Import Js.

Notation "x <- c ;; k" := (Js.bind c (fun x => k))
  (at level 61, c at next level, right associativity).

(** ** Handlers that write: the operations sent to the database are logged *)

Module Effect.

Section WithOps.

Variable Op : Type.

(** A computation that may throw and that appends the operations it sends
    to a log. *)
Definition Eff (A : Type) : Type := list Op -> Outcome A * list Op.

Definition ret {A} (a : A) : Eff A := fun log => (Returned a, log).

Definition throw {A} (e : Exception) : Eff A := fun log => (Thrown e, log).

Definition bind {A B} (c : Eff A) (k : A -> Eff B) : Eff B :=
  fun log =>
    match c log with
    | (Returned a, log') => k a log'
    | (Thrown e, log') => (Thrown e, log')
    end.

(** A call with no effect on the database. *)
Definition lift {A} (o : Outcome A) : Eff A := fun log => (o, log).

(** Sending [op]; [answer] is what the awaited call resolves to. *)
Definition send {A} (op : Op) (answer : Outcome A) : Eff A :=
  fun log => (answer, log ++ [op]).

(** [try { body } catch (e) { handler e }] *)
Definition catch {A} (body : Eff A) (handler : Exception -> Eff A) : Eff A :=
  fun log =>
    match body log with
    | (Returned a, log') => (Returned a, log')
    | (Thrown e, log') => handler e log'
    end.

(** A handler whose whole body sits in a [try] with a [catch] that answers:
    the response and the operations sent. *)
Definition handle {A} (body : Eff A) (handler : Exception -> A) : A * list Op :=
  match body [] with
  | (Returned a, log) => (a, log)
  | (Thrown e, log) => (handler e, log)
  end.

End WithOps.

Arguments ret {Op A} a.
Arguments throw {Op A} e.
Arguments bind {Op A B} c k.
Arguments lift {Op A} o.
Arguments send {Op A} op answer.
Arguments catch {Op A} body handler.
Arguments handle {Op A} body handler.

End Effect.

Notation "x <~ c ;; k" := (Effect.bind c (fun x => k))
  (at level 61, c at next level, right associativity).

(** ** HTTP responses *)

Module Http.

Record Response (B : Type) : Type := mkResponse { status : Z; body : B }.
Arguments mkResponse {B} status body.
Arguments status {B} r.
Arguments body {B} r.

(** [NextResponse.json(b)] *)
Definition json {B} (b : B) : Response B := mkResponse 200 b.

(** [NextResponse.json(b, { status })] *)
Definition json_with {B} (b : B) (st : Z) : Response B := mkResponse st b.

End Http.

(** ** The database client *)

Module Supabase.

Record PostgrestError : Type :=
  mkError { message : string; code : string }.

(** What an awaited query builder resolves to: [{ data, error: null }] or
    [{ data: null, error }]. *)
Inductive PostgrestResponse (A : Type) : Type :=
| PgData (d : option A)
| PgError (e : PostgrestError).
Arguments PgData {A} d.
Arguments PgError {A} e.

Definition data {A} (r : PostgrestResponse A) : option A :=
  match r with
  | PgData d => d
  | PgError _ => None
  end.

Definition error {A} (r : PostgrestResponse A) : option PostgrestError :=
  match r with
  | PgData _ => None
  | PgError e => Some e
  end.

(** An awaited query: it resolves to a response, or throws. *)
Definition Query (A : Type) : Type := Outcome (PostgrestResponse A).

(** The writes and reads a handler sends:
    [from(table).insert(rows)], [from(table).update(values).eq(column, value)]
    and [from(table).select(..).eq(column, value)]. *)
Inductive DbOp : Type :=
| Insert (table : string) (rows : list Object)
| Update (table : string) (values : Object) (column value : string)
| Select (table : string) (column value : string).

Definition table_of (op : DbOp) : string :=
  match op with
  | Insert t _ => t
  | Update t _ _ _ => t
  | Select t _ _ => t
  end.

End Supabase.

Import Supabase.

(** ** The events route *)

Module Events.

(** A row of the [events] table. *)
Record EventRow : Type := mkRow {
  row_id : string;
  row_name : string;
  row_event_date : string;
  row_location : option string;
  row_description : option string;
  row_capacity : option Z
}.

(** A row of the [event_images] table. *)
Record EventImage : Type := mkImage {
  image_id : string;
  event_id : string;
  url : string;
  alt_text : option string;
  sort_order : Z
}.

(** An event in frontend format. *)
Record EventData : Type := mkEvent {
  id : string;
  name : string;
  event_date : string;
  location : string;
  description : string;
  capacity : option Z;
  primary_image : option EventImage;
  gradient : string;
  type : string
}.

Record EventsBody : Type := mkBody {
  events : list EventData;
  source : string;
  message : string
}.

Definition defaultEvents : list EventData :=
  [ mkEvent "default-1" "Sunday Worship Experience" "2024-01-28T09:00:00"
      "Main Sanctuary"
      "Join us for an inspiring worship experience with contemporary music and biblical teaching."
      (Some 200%Z) None "from-blue-800 to-indigo-900" "worship";
    mkEvent "default-2" "Midweek Connection" "2024-01-31T19:00:00"
      "Fellowship Hall"
      "Dive deeper into God's word through interactive Bible study and fellowship."
      (Some 50%Z) None "from-purple-800 to-pink-900" "study";
    mkEvent "default-3" "Youth Ignite Night" "2024-02-02T19:00:00"
      "Youth Center"
      "High-energy youth service with games, worship, and relevant messages for teens."
      (Some 100%Z) None "from-green-800 to-teal-900" "youth";
    mkEvent "default-4" "Community Outreach" "2024-02-05T10:00:00"
      "Community Center"
      "Join us as we serve our community with love and compassion through various outreach programs."
      (Some 150%Z) None "from-orange-800 to-red-900" "outreach" ].

Definition gradients : list string :=
  [ "from-blue-800 to-indigo-900";
    "from-purple-800 to-pink-900";
    "from-green-800 to-teal-900";
    "from-orange-800 to-red-900";
    "from-teal-800 to-cyan-900";
    "from-rose-800 to-pink-900" ].

(** [id.split('').reduce((a, b) => a + b.charCodeAt(0), 0)] *)
Definition id_hash (id : string) : nat :=
  fold_left (fun a b => a + charCodeAt0 b) (split_units id) 0.

Definition getEventGradient (name id : string) : string :=
  let hash := id_hash id in
  nth (hash mod length gradients) gradients "".

Definition getEventType (name : string) (description : option string) : string :=
  let content := toLowerCase (name ++ " " ++ or_default description "") in
  if includes content "worship" || includes content "service" || includes content "sunday"
  then "worship"
  else if includes content "youth" || includes content "teen" || includes content "young"
  then "youth"
  else if includes content "study" || includes content "bible" || includes content "prayer"
  then "study"
  else if includes content "outreach" || includes content "community" || includes content "serve"
  then "outreach"
  else if includes content "conference" || includes content "seminar" || includes content "retreat"
  then "conference"
  else "event".

(** The plain object [imagesByEvent], from event id to the images of that
    event in the order received.  Reading [acc[k]] finds the own keys, which
    the reducer has written, and behind them the members that every plain
    object inherits from [Object.prototype]. *)
Definition ImagesByEvent : Type := list (string * list EventImage).

Fixpoint obj_get {V} (o : list (string * V)) (k : string) : option V :=
  match o with
  | [] => None
  | (k', v) :: rest => if String.eqb k' k then Some v else obj_get rest k
  end.

(** [acc[k] = acc[k] ++ [img]] on an existing key. *)
Fixpoint obj_push (o : ImagesByEvent) (k : string) (img : EventImage)
  : ImagesByEvent :=
  match o with
  | [] => []
  | (k', v) :: rest =>
      if String.eqb k' k then (k', v ++ [img]) :: rest
      else (k', v) :: obj_push rest k img
  end.

(** Whether [k] names a member inherited from [Object.prototype]: a
    function, or the prototype itself under [__proto__].  Each of them is
    truthy and none has a [push]. *)
Definition inherited (k : string) : bool :=
  existsb (String.eqb k) inherited_names.

(** The reducer: [if (!acc[k]) acc[k] = []; acc[k].push(img); return acc].
    When [k] is no own key and names an inherited member, [acc[k]] is that
    member: nothing is assigned and the call of [push] throws a
    [TypeError]. *)
Definition group_step (acc : ImagesByEvent) (img : EventImage)
  : Outcome ImagesByEvent :=
  let k := event_id img in
  match obj_get acc k with
  | Some _ => Returned (obj_push acc k img)
  | None =>
      if inherited k
      then Thrown (Error_ "acc[img.event_id].push is not a function")
      else Returned (obj_push (acc ++ [(k, [])]) k img)
  end.

(** [images.reduce(..., {})] *)
Definition imagesByEvent (images : list EventImage) : Outcome ImagesByEvent :=
  fold_left (fun acc img => a <- acc ;; group_step a img) images (Returned []).

(** The [Map] from event id to its primary image. *)
Definition ImageMap : Type := list (string * option EventImage).

(** [imageMap.set(eventId, imagesByEvent[eventId][0])] for every key. *)
Definition fill_imageMap (byEvent : ImagesByEvent) : ImageMap :=
  map (fun kv => (fst kv, hd_error (snd kv))) byEvent.

Definition build_imageMap (images : option (list EventImage))
  : Outcome ImageMap :=
  match images with
  | Some (i :: rest) =>
      byEvent <- imagesByEvent (i :: rest) ;;
      Returned (fill_imageMap byEvent)
  | _ => Returned []
  end.

(** [imageMap.get(id) || null] *)
Definition imageMap_get (m : ImageMap) (k : string) : option EventImage :=
  match obj_get m k with
  | Some (Some img) => Some img
  | _ => None
  end.

Definition transform (imageMap : ImageMap) (event : EventRow) : EventData :=
  {| id := row_id event;
     name := row_name event;
     event_date := row_event_date event;
     location := or_default (row_location event) "Location TBD";
     description := or_default (row_description event) "Join us for this special event.";
     capacity := row_capacity event;
     primary_image := imageMap_get imageMap (row_id event);
     gradient := getEventGradient (row_name event) (row_id event);
     type := getEventType (row_name event) (row_description event) |}.

Record World : Type := mkWorld {
  NEXT_PUBLIC_SUPABASE_URL : option string;
  NEXT_PUBLIC_SUPABASE_ANON_KEY : option string;
  createServerSupabaseClient : Outcome unit;
  (** [new Date().toISOString()] *)
  now : string;
  (** events with [event_date >= today], by date, at most 10 *)
  select_events : string -> Query (list EventRow);
  (** images whose [event_id] is among the given ids, by [sort_order] *)
  select_event_images : list string -> Query (list EventImage)
}.

Definition fallback (msg : string) : Http.Response EventsBody :=
  Http.json {| events := defaultEvents; source := "default"; message := msg |}.

(** The body of the outer [try] block. *)
Definition GET_try (w : World) : Outcome (Http.Response EventsBody) :=
  if negb (truthy_opt (NEXT_PUBLIC_SUPABASE_URL w))
     || negb (truthy_opt (NEXT_PUBLIC_SUPABASE_ANON_KEY w))
  then Returned (fallback "Using default events - Supabase not configured")
  else
    match createServerSupabaseClient w with
    | Thrown _ => Returned (fallback "Using default events - Supabase client failed")
    | Returned _ =>
        let today := now w in
        res <- select_events w today ;;
        match error res with
        | Some eventsError =>
            Returned (fallback ("Using default events - Database error: "
                                ++ Supabase.message eventsError))
        | None =>
            match data res with
            | None | Some [] =>
                Returned (fallback "Using default events - No upcoming events found")
            | Some events =>
                let eventIds := map row_id events in
                imgres <- select_event_images w eventIds ;;
                let images := data imgres in
                imageMap <- build_imageMap images ;;
                let transformedEvents := map (transform imageMap) events in
                Returned (Http.json
                  {| events := transformedEvents;
                     source := "database";
                     message := "Loaded " ++ nat_to_string (length transformedEvents)
                                ++ " upcoming events from database" |})
            end
        end
    end.

Definition GET (w : World) : Http.Response EventsBody :=
  try_catch (GET_try w)
    (fun _ => fallback "Using default events - Unexpected error").

(** *** The states of the store, as the route meets them *)

Definition configured (w : World) : bool :=
  truthy_opt (NEXT_PUBLIC_SUPABASE_URL w)
  && truthy_opt (NEXT_PUBLIC_SUPABASE_ANON_KEY w).

(** The store cannot be read: configuration missing, no client, or the
    query answered with an error (unreachable, rejected by a policy, ...).
    The index is the diagnostic of the route. *)
Inductive Unavailable (w : World) : string -> Prop :=
| not_configured :
    configured w = false ->
    Unavailable w "Using default events - Supabase not configured"
| client_failed e :
    configured w = true ->
    createServerSupabaseClient w = Thrown e ->
    Unavailable w "Using default events - Supabase client failed"
| query_failed err :
    configured w = true ->
    createServerSupabaseClient w = Returned tt ->
    select_events w (now w) = Returned (PgError err) ->
    Unavailable w ("Using default events - Database error: " ++ Supabase.message err).

(** The query went through and found nothing. *)
Definition Empty (w : World) : Prop :=
  configured w = true /\
  createServerSupabaseClient w = Returned tt /\
  (select_events w (now w) = Returned (PgData (Some []))
   \/ select_events w (now w) = Returned (PgData None)).

(** The query went through with these rows, at least one. *)
Definition Fetched (w : World) (rows : list EventRow) : Prop :=
  configured w = true /\
  createServerSupabaseClient w = Returned tt /\
  select_events w (now w) = Returned (PgData (Some rows)) /\
  rows <> [].

(** One of the two reads throws [e], or the grouping of the images read
    does. *)
Inductive Raises (w : World) (e : Exception) : Prop :=
| events_read_raises :
    configured w = true ->
    createServerSupabaseClient w = Returned tt ->
    select_events w (now w) = Thrown e ->
    Raises w e
| images_read_raises rows :
    Fetched w rows ->
    select_event_images w (map row_id rows) = Thrown e ->
    Raises w e
| grouping_raises rows imgres :
    Fetched w rows ->
    select_event_images w (map row_id rows) = Returned imgres ->
    build_imageMap (Supabase.data imgres) = Thrown e ->
    Raises w e.

(** No image read names a member of [Object.prototype] as its event. *)
Definition plain_ids (images : list EventImage) : Prop :=
  Forall (fun img => inherited (event_id img) = false) images.

(** The first image held for [k] in the grouping object. *)
Definition head_of (o : ImagesByEvent) (k : string) : option EventImage :=
  match obj_get o k with
  | Some (img :: _) => Some img
  | _ => None
  end.

(** The first image received for an event. *)
Definition first_image (images : list EventImage) (k : string) : option EventImage :=
  find (fun img => String.eqb (event_id img) k) images.

(** An event row in frontend format, as the specification describes it:
    the row with its primary image (the first received for it, null when
    there is none), the location and description defaults, and the derived
    gradient and type. *)
Definition enriched (images : list EventImage) (row : EventRow) : EventData :=
  {| id := row_id row;
     name := row_name row;
     event_date := row_event_date row;
     location := match row_location row with
                 | Some l => if String.eqb l "" then "Location TBD" else l
                 | None => "Location TBD"
                 end;
     description := match row_description row with
                    | Some d => if String.eqb d "" then "Join us for this special event." else d
                    | None => "Join us for this special event."
                    end;
     capacity := row_capacity row;
     primary_image := first_image images (row_id row);
     gradient := getEventGradient (row_name row) (row_id row);
     type := getEventType (row_name row) (row_description row) |}.

(** The rows a response carries, none when [data] is null. *)
Definition rows_of {A} (r : PostgrestResponse (list A)) : list A :=
  match Supabase.data r with
  | Some l => l
  | None => []
  end.

(** The same world at another time. *)
Definition at_time (w : World) (t : string) : World :=
  {| NEXT_PUBLIC_SUPABASE_URL := NEXT_PUBLIC_SUPABASE_URL w;
     NEXT_PUBLIC_SUPABASE_ANON_KEY := NEXT_PUBLIC_SUPABASE_ANON_KEY w;
     createServerSupabaseClient := createServerSupabaseClient w;
     now := t;
     select_events := select_events w;
     select_event_images := select_event_images w |}.

End Events.

(** ** The tenant-settings route *)

Module TenantSettings.

Record Settings : Type := mkSettings {
  id : string;
  name : string;
  time_zone : string;
  primary_color : string;
  secondary_color : string;
  description : string;
  created_at : string;
  updated_at : string
}.

(** The JSON bodies the handler answers with. *)
Inductive Body : Type :=
| Resolved (success : bool) (data : Settings) (message : string)
           (source : string) (error : option string)
| Failed (error : string) (success : option bool).

Record World : Type := mkWorld {
  NEXT_PUBLIC_SUPABASE_URL : option string;
  SUPABASE_SERVICE_ROLE_KEY : option string;
  NEXT_PUBLIC_SUPABASE_SERVICE_ROLE_KEY : option string;
  NEXT_PUBLIC_SUPABASE_ANON_KEY : option string;
  (** [createClient(url, key, options)] *)
  createClient : string -> string -> Outcome unit;
  (** [from('tenant_settings').select('*').limit(1)] on the client made
      for this url and key *)
  select_tenant_settings : string -> string -> Query (list Settings);
  (** the successive readings of [new Date().toISOString()] *)
  clock : nat -> string
}.

(** The object literal [defaultSettings]; its two timestamps are two
    readings of the clock. *)
Definition defaultSettings (w : World) : Settings :=
  {| id := "default";
     name := "DOCM Church";
     time_zone := "America/New_York";
     primary_color := "#1A202C";
     secondary_color := "#F6E05E";
     description := "Demonstration of Christ Ministries";
     created_at := clock w 0;
     updated_at := clock w 1 |}.

(** [error.message.includes('row-level security') || error.code === '42501'] *)
Definition is_rls_violation (e : PostgrestError) : bool :=
  includes (Supabase.message e) "row-level security"
  || String.eqb (Supabase.code e) "42501".

Definition configured (w : World) : bool :=
  truthy_opt (NEXT_PUBLIC_SUPABASE_URL w)
  && truthy_opt (NEXT_PUBLIC_SUPABASE_ANON_KEY w).

Definition url_of (w : World) : string :=
  value (NEXT_PUBLIC_SUPABASE_URL w).

(** The key the client is made with: the service role key when there is
    one, the anon key otherwise. *)
Definition key_of (w : World) : string :=
  let supabaseServiceKey :=
    or_opt (SUPABASE_SERVICE_ROLE_KEY w) (NEXT_PUBLIC_SUPABASE_SERVICE_ROLE_KEY w) in
  if truthy_opt supabaseServiceKey then value supabaseServiceKey
  else value (NEXT_PUBLIC_SUPABASE_ANON_KEY w).

(** The body of the [try] block. *)
Definition GET_try (w : World) : Outcome (Http.Response Body) :=
  let supabaseUrl := NEXT_PUBLIC_SUPABASE_URL w in
  let supabaseAnonKey := NEXT_PUBLIC_SUPABASE_ANON_KEY w in
  if negb (truthy_opt supabaseUrl) || negb (truthy_opt supabaseAnonKey)
  then Returned (Http.json_with
                   (Failed "Database configuration missing" (Some false)) 500)
  else
    _ <- createClient w (url_of w) (key_of w) ;;
    res <- select_tenant_settings w (url_of w) (key_of w) ;;
    match Supabase.error res with
    | Some error =>
        if is_rls_violation error
        then Returned (Http.json
               (Resolved true (defaultSettings w)
                  "Using default tenant settings - database not accessible"
                  "default" None))
        else Returned (Http.json_with (Failed (Supabase.message error) None) 500)
    | None =>
        match Supabase.data res with
        | None | Some [] =>
            Returned (Http.json
              (Resolved true (defaultSettings w)
                 "No tenant settings found, using defaults" "default" None))
        | Some (first :: _) =>
            Returned (Http.json
              (Resolved true first "Tenant settings found" "database" None))
        end
    end.

Definition GET (w : World) : Http.Response Body :=
  try_catch (GET_try w)
    (fun error =>
       Http.json (Resolved true (defaultSettings w)
                    "Error occurred, using default settings" "default"
                    (Some (if instanceof_Error error then exn_message error
                           else "Unknown error")))).

(** [POST]: creating settings from the web frontend is refused. *)
Definition POST : Http.Response Body :=
  Http.json_with
    (Failed "Tenant settings creation not allowed from web frontend. Use admin panel." None)
    403.

(** *** The states of the store, as the route meets them *)

(** The query was sent and this is what it resolved to. *)
Definition Answered (w : World) (r : PostgrestResponse (list Settings)) : Prop :=
  configured w = true /\
  createClient w (url_of w) (key_of w) = Returned tt /\
  select_tenant_settings w (url_of w) (key_of w) = Returned r.

(** Making the client or reading the table throws [e]. *)
Inductive Raises (w : World) (e : Exception) : Prop :=
| client_raises :
    configured w = true ->
    createClient w (url_of w) (key_of w) = Thrown e ->
    Raises w e
| read_raises :
    configured w = true ->
    createClient w (url_of w) (key_of w) = Returned tt ->
    select_tenant_settings w (url_of w) (key_of w) = Thrown e ->
    Raises w e.

(** The two answers that carry the default settings or none. *)
Definition refused_unconfigured : Http.Response Body :=
  Http.json_with (Failed "Database configuration missing" (Some false)) 500.

Definition defaults (w : World) (msg : string) (note : option string)
  : Http.Response Body :=
  Http.json (Resolved true (defaultSettings w) msg "default" note).

(** The states in which the route answers with an error: no configuration,
    or a query error that is not a row-level-security violation. *)
Definition Refused (w : World) : Prop :=
  configured w = false
  \/ exists err, Answered w (PgError err) /\ is_rls_violation err = false.

(** Whether a response is an envelope with data. *)
Definition is_resolved (r : Http.Response Body) : bool :=
  match Http.body r with
  | Resolved _ _ _ _ _ => Z.eqb (Http.status r) 200
  | Failed _ _ => false
  end.

(** A response without its time-sensitive fields: the two timestamps of
    settings that do not come from the database. *)
Definition without_timestamps (r : Http.Response Body) : Http.Response Body :=
  match Http.body r with
  | Resolved ok d msg src err =>
      if String.eqb src "database" then r
      else
        Http.mkResponse (Http.status r)
          (Resolved ok
             {| id := id d; name := name d; time_zone := time_zone d;
                primary_color := primary_color d;
                secondary_color := secondary_color d;
                description := description d;
                created_at := ""; updated_at := "" |}
             msg src err)
  | Failed _ _ => r
  end.

(** The same world with another clock. *)
Definition with_clock (w : World) (c : nat -> string) : World :=
  {| NEXT_PUBLIC_SUPABASE_URL := NEXT_PUBLIC_SUPABASE_URL w;
     SUPABASE_SERVICE_ROLE_KEY := SUPABASE_SERVICE_ROLE_KEY w;
     NEXT_PUBLIC_SUPABASE_SERVICE_ROLE_KEY := NEXT_PUBLIC_SUPABASE_SERVICE_ROLE_KEY w;
     NEXT_PUBLIC_SUPABASE_ANON_KEY := NEXT_PUBLIC_SUPABASE_ANON_KEY w;
     createClient := createClient w;
     select_tenant_settings := select_tenant_settings w;
     clock := c |}.

End TenantSettings.

(** ** The giving-page route *)

Module GivingPage.

Record Fund : Type := mkFund {
  id : string;
  name : string;
  description : string
}.

(** The page content, flattened next to [source] in the JSON body. *)
Record Content : Type := mkContent {
  hero : Object;
  giving_methods : Object;
  fund_designations : list Fund;
  impact : Object;
  source : string
}.

Definition method (id title description icon : string) (features : list string)
  : Json :=
  JObj [ ("id", JStr id); ("title", JStr title); ("description", JStr description);
         ("icon", JStr icon); ("features", JArr (map JStr features)) ].

Definition stat (label value description : string) : Json :=
  JObj [ ("label", JStr label); ("value", JStr value);
         ("description", JStr description) ].

Definition default_hero : Object :=
  [ ("first_line_text", JStr "Give");
    ("heading", JStr "Your generosity changes lives.");
    ("subheading", JStr "Through your faithful giving, we're able to serve our community, support missions, and further God's kingdom. Every gift, large or small, makes a meaningful difference.");
    ("background_image", JNull);
    ("cta_primary", JStr "Make a Donation");
    ("cta_secondary", JStr "Learn More") ].

Definition default_giving_methods : Object :=
  [ ("section_title", JStr "Ways to Give");
    ("section_heading", JStr "Multiple Giving Options");
    ("section_description", JStr "Choose the giving method that works best for you. All donations are secure and tax-deductible.");
    ("methods", JArr
       [ method "online" "Online Giving"
           "Secure, convenient giving through our website" "credit-card"
           [ "One-time or recurring"; "Instant receipts"; "Multiple payment methods" ];
         method "text" "Text to Give"
           "Quick giving via text message" "phone"
           [ "Text amount to donate"; "Set up recurring gifts"; "Secure and simple" ];
         method "check" "Check or Cash"
           "Traditional giving methods welcomed" "banknote"
           [ "Drop in offering"; "Mail to church"; "In-person giving" ] ]) ].

Definition default_fund_designations : list Fund :=
  [ mkFund "general" "General Fund" "Supports overall church operations and ministries";
    mkFund "building" "Building Fund" "Facility improvements and expansion projects";
    mkFund "missions" "Missions" "Supporting missionaries and outreach efforts";
    mkFund "youth" "Youth Ministry" "Programs and activities for young people";
    mkFund "children" "Children's Ministry" "Kids programs and Sunday school";
    mkFund "outreach" "Community Outreach" "Local community service and support" ].

Definition default_impact : Object :=
  [ ("section_title", JStr "Your Impact");
    ("section_heading", JStr "See How Your Gifts Make a Difference");
    ("section_description", JStr "Your faithful giving enables us to transform lives and serve our community in countless ways.");
    ("stats", JArr
       [ stat "Families Served" "500+" "Through our food pantry and assistance programs";
         stat "Youth Impacted" "150+" "Participating in youth programs and activities";
         stat "Missionaries Supported" "12" "Local and international mission work";
         stat "Community Events" "25+" "Annual outreach and service events" ]) ].

(** [{ ...defaultGivingPageContent, source }] *)
Definition defaultGivingPageContent (source : string) : Content :=
  {| hero := default_hero;
     giving_methods := default_giving_methods;
     fund_designations := default_fund_designations;
     impact := default_impact;
     source := source |}.

(** A row of [pages]. *)
Record PageRow : Type := mkPage {
  page_id : string;
  slug : string;
  title : string;
  published_at : option string
}.

(** A row of [page_sections]; [props] is a JSON object or null. *)
Record SectionRow : Type := mkSection {
  section_id : string;
  type : string;
  order : Z;
  props : option Object
}.

(** A row of [payment_categories]. *)
Record FundRow : Type := mkFundRow {
  fund_id : string;
  fund_name : string;
  fund_description : option string;
  is_active : bool
}.

Record World : Type := mkWorld {
  createServerSupabaseClient : Outcome unit;
  (** the published page of slug [giving], [.single()] *)
  select_page : Query PageRow;
  (** the sections of the page of that id, by [order] *)
  select_sections : string -> Query (list SectionRow);
  (** the active payment categories, by [order] *)
  select_funds : Query (list FundRow)
}.

Definition fund_of_row (fund : FundRow) : Fund :=
  {| id := fund_id fund;
     name := fund_name fund;
     description :=
       or_default (fund_description fund)
         ("Support our " ++ toLowerCase (fund_name fund)) |}.

(** The [switch] on [section.type] inside [forEach]. *)
Definition apply_section (c : Content) (section : SectionRow) : Content :=
  match props section with
  | None => c
  | Some p =>
      if String.eqb (type section) "hero" then
        {| hero := spread (hero c) p; giving_methods := giving_methods c;
           fund_designations := fund_designations c; impact := impact c;
           source := source c |}
      else if String.eqb (type section) "giving_methods" then
        {| hero := hero c; giving_methods := spread (giving_methods c) p;
           fund_designations := fund_designations c; impact := impact c;
           source := source c |}
      else if String.eqb (type section) "impact" then
        {| hero := hero c; giving_methods := giving_methods c;
           fund_designations := fund_designations c; impact := spread (impact c) p;
           source := source c |}
      else c
  end.

Definition fundDesignations_of (fres : PostgrestResponse (list FundRow)) : list Fund :=
  match Supabase.error fres, Supabase.data fres with
  | None, Some (f :: rest) => map fund_of_row (f :: rest)
  | _, _ => default_fund_designations
  end.

(** The content built once the page and its sections are read. *)
Definition structuredContent (sectionsData : option (list SectionRow))
  (fres : PostgrestResponse (list FundRow)) : Content :=
  let start :=
    {| hero := default_hero;
       giving_methods := default_giving_methods;
       fund_designations := fundDesignations_of fres;
       impact := default_impact;
       source := "database" |} in
  match sectionsData with
  | Some sections => fold_left apply_section sections start
  | None => start
  end.

(** The body of the [try] block. *)
Definition GET_try (w : World) : Outcome (Http.Response Content) :=
  _ <- createServerSupabaseClient w ;;
  pres <- select_page w ;;
  match Supabase.error pres, Supabase.data pres with
  | None, Some pageData =>
      sres <- select_sections w (page_id pageData) ;;
      match Supabase.error sres with
      | Some _ => Returned (Http.json (defaultGivingPageContent "default"))
      | None =>
          fres <- select_funds w ;;
          Returned (Http.json (structuredContent (Supabase.data sres) fres))
      end
  | _, _ => Returned (Http.json (defaultGivingPageContent "default"))
  end.

Definition GET (w : World) : Http.Response Content :=
  try_catch (GET_try w)
    (fun _ => Http.json (defaultGivingPageContent "error_fallback")).

(** *** The states of the store, as the route meets them *)

(** The page was read; this is what the query resolved to. *)
Definition PageAnswered (w : World) (r : PostgrestResponse PageRow) : Prop :=
  createServerSupabaseClient w = Returned tt /\
  select_page w = Returned r.

(** The page row was found and the sections query resolved to [r]. *)
Definition SectionsAnswered (w : World) (page : PageRow)
  (r : PostgrestResponse (list SectionRow)) : Prop :=
  PageAnswered w (PgData (Some page)) /\
  select_sections w (page_id page) = Returned r.

(** Making the client or one of the three reads throws [e]. *)
Inductive Raises (w : World) (e : Exception) : Prop :=
| client_raises :
    createServerSupabaseClient w = Thrown e ->
    Raises w e
| page_read_raises :
    createServerSupabaseClient w = Returned tt ->
    select_page w = Thrown e ->
    Raises w e
| sections_read_raises page :
    PageAnswered w (PgData (Some page)) ->
    select_sections w (page_id page) = Thrown e ->
    Raises w e
| funds_read_raises page sections :
    SectionsAnswered w page (PgData sections) ->
    select_funds w = Thrown e ->
    Raises w e.

End GivingPage.

(** ** The Stripe webhook *)

Module StripeWebhook.

Record PaymentIntent : Type := mkPaymentIntent {
  pi_id : string;
  latest_charge : option string;
  (** [last_payment_error?.message] *)
  last_payment_error_message : option string
}.

Record Invoice : Type := mkInvoice {
  invoice_id : string;
  subscription : option string;
  amount_paid : Z;
  currency : string;
  customer : string
}.

Record Subscription : Type := mkSubscription {
  subscription_id : string;
  status : string;
  metadata : option (list (string * string))
}.

(** A verified event: [event.type] with [event.data.object]. *)
Inductive Event : Type :=
| payment_intent_succeeded (o : PaymentIntent)
| payment_intent_payment_failed (o : PaymentIntent)
| invoice_payment_succeeded (o : Invoice)
| invoice_payment_failed (o : Invoice)
| customer_subscription_created (o : Subscription)
| customer_subscription_updated (o : Subscription)
| customer_subscription_deleted (o : Subscription)
| unhandled (type : string).

Record Request : Type := mkRequest {
  (** [await request.text()] *)
  text : Outcome string;
  (** [request.headers.get('stripe-signature')] *)
  stripe_signature : option string
}.

Inductive Body : Type :=
| Received (received : bool)
| Error (error : string).

Record World : Type := mkWorld {
  (** [stripe.webhooks.constructEvent(body, signature, endpointSecret)] *)
  constructEvent : string -> option string -> Outcome Event;
  createServerSupabaseClient : Outcome unit;
  (** [stripe.subscriptions.retrieve(id)] *)
  retrieve_subscription : string -> Outcome Subscription;
  (** what the database answers to an operation *)
  answer : DbOp -> Query unit;
  (** [new Date().toISOString()] *)
  now : string;
  (** [new Date(Date.now() + 30 * 24 * 60 * 60 * 1000).toISOString()] *)
  in_thirty_days : string
}.

Definition M : Type -> Type := Effect.Eff DbOp.

Definition db (w : World) (op : DbOp) : M (PostgrestResponse unit) :=
  Effect.send op (answer w op).

Definition handlePaymentIntentSucceeded (w : World) (paymentIntent : PaymentIntent)
  : M unit :=
  _ <~ Effect.lift (createServerSupabaseClient w) ;;
  _ <~ db w (Update "transactions"
               [ ("payment_status", JStr "succeeded");
                 ("stripe_charge_id", opt_str (latest_charge paymentIntent));
                 ("transacted_at", JStr (now w)) ]
               "stripe_payment_intent_id" (pi_id paymentIntent)) ;;
  Effect.ret tt.

Definition handlePaymentIntentFailed (w : World) (paymentIntent : PaymentIntent)
  : M unit :=
  _ <~ Effect.lift (createServerSupabaseClient w) ;;
  _ <~ db w (Update "transactions"
               [ ("payment_status", JStr "failed");
                 ("notes", JStr (or_default (last_payment_error_message paymentIntent)
                                   "Payment failed")) ]
               "stripe_payment_intent_id" (pi_id paymentIntent)) ;;
  Effect.ret tt.

Fixpoint meta_get (m : list (string * string)) (k : string) : option string :=
  match m with
  | [] => None
  | (k', v) :: rest => if String.eqb k' k then Some v else meta_get rest k
  end.

Definition handleInvoicePaymentSucceeded (w : World) (invoice : Invoice) : M unit :=
  match or_null (subscription invoice) with
  | None => Effect.ret tt
  | Some subscriptionId =>
      _ <~ Effect.lift (createServerSupabaseClient w) ;;
      sub <~ Effect.lift (retrieve_subscription w subscriptionId) ;;
      let metadata := match metadata sub with Some m => m | None => [] end in
      let fund := or_default (meta_get metadata "fund_designation") "General Fund" in
      let transactionData : Object :=
        [ ("contact_id", opt_str (or_null (meta_get metadata "contact_id")));
          ("amount", JNum (QArith_base.Qmake (amount_paid invoice) 100));
          ("currency", JStr (toUpperCase (currency invoice)));
          ("category", JStr fund);
          ("payment_method", JStr "Stripe (Recurring)");
          ("payment_status", JStr "succeeded");
          ("transacted_at", JStr (now w));
          ("stripe_invoice_id", JStr (invoice_id invoice));
          ("stripe_subscription_id", JStr subscriptionId);
          ("stripe_customer_id", JStr (customer invoice));
          ("is_recurring", JBool true);
          ("is_anonymous", JBool false);
          ("fund_designation", JStr fund);
          ("metadata", JObj
             [ ("frequency", JStr (or_default (meta_get metadata "frequency") "monthly"));
               ("source", JStr "church_website");
               ("type", JStr "recurring_donation_payment");
               ("invoice_id", JStr (invoice_id invoice)) ]) ] in
      _ <~ db w (Insert "transactions" [transactionData]) ;;
      Effect.ret tt
  end.

Definition handleInvoicePaymentFailed (w : World) (invoice : Invoice) : M unit :=
  Effect.ret tt.

Definition handleSubscriptionCreated (w : World) (s : Subscription) : M unit :=
  Effect.ret tt.

Definition handleSubscriptionUpdated (w : World) (s : Subscription) : M unit :=
  _ <~ Effect.lift (createServerSupabaseClient w) ;;
  _ <~ db w (Update "recurring_donations"
               [ ("status", JStr (status s));
                 ("next_payment_date",
                   if String.eqb (status s) "active"
                   then JStr (in_thirty_days w) else JNull) ]
               "stripe_subscription_id" (subscription_id s)) ;;
  Effect.ret tt.

Definition handleSubscriptionDeleted (w : World) (s : Subscription) : M unit :=
  _ <~ Effect.lift (createServerSupabaseClient w) ;;
  _ <~ db w (Update "recurring_donations"
               [ ("status", JStr "cancelled");
                 ("cancelled_at", JStr (now w)) ]
               "stripe_subscription_id" (subscription_id s)) ;;
  Effect.ret tt.

(** The [switch (event.type)]. *)
Definition dispatch (w : World) (event : Event) : M unit :=
  match event with
  | payment_intent_succeeded o => handlePaymentIntentSucceeded w o
  | payment_intent_payment_failed o => handlePaymentIntentFailed w o
  | invoice_payment_succeeded o => handleInvoicePaymentSucceeded w o
  | invoice_payment_failed o => handleInvoicePaymentFailed w o
  | customer_subscription_created o => handleSubscriptionCreated w o
  | customer_subscription_updated o => handleSubscriptionUpdated w o
  | customer_subscription_deleted o => handleSubscriptionDeleted w o
  | unhandled _ => Effect.ret tt
  end.

(** The body of the outer [try] block. *)
Definition POST_try (w : World) (request : Request) : M (Http.Response Body) :=
  body <~ Effect.lift (text request) ;;
  let signature := stripe_signature request in
  match constructEvent w body signature with
  | Thrown _ =>
      Effect.ret (Http.json_with (Error "Webhook signature verification failed") 400)
  | Returned event =>
      _ <~ dispatch w event ;;
      Effect.ret (Http.json (Received true))
  end.

(** The response, and the operations sent to the database on the way. *)
Definition POST (w : World) (request : Request) : Http.Response Body * list DbOp :=
  Effect.handle (POST_try w request)
    (fun _ => Http.json_with (Error "Webhook error") 500).

End StripeWebhook.

(** ** The contact form *)

Module Contact.

(** The fields read from the JSON body; a missing field is [None]. *)
Record Form : Type := mkForm {
  name : option string;
  email : option string;
  phone : option string;
  subject : option string;
  category : option string;
  message : option string;
  newsletter : option Json;
  prayer : option Json
}.

Record Request : Type := mkRequest {
  (** [await request.json()] *)
  json : Outcome Form
}.

Record Debug : Type := mkDebug {
  debug_newsletterResult : bool;
  newsletterResultId : option Json;
  debug_isPrayerRequest : bool;
  originalValues : option Json * option Json
}.

Inductive Body : Type :=
| Success (success : bool) (message : string) (submission_id : string)
          (type : string) (newsletter_subscribed : bool) (debug : Debug)
| Error (error : string).

Record World : Type := mkWorld {
  (** the successive results of [crypto.randomUUID()] *)
  randomUUID : nat -> string;
  (** [new Date().toISOString()] *)
  now : string;
  (** what [from(table).insert(rows).select()] resolves to *)
  answer : DbOp -> Query (list Object)
}.

Definition M : Type -> Type := Effect.Eff DbOp.

Definition db (w : World) (op : DbOp) : M (PostgrestResponse (list Object)) :=
  Effect.send op (answer w op).

(** [category || (isPrayerRequest ? 'Prayer Request' : 'General Inquiry')] *)
Definition category_of (f : Form) (isPrayerRequest : bool) : string :=
  or_default (category f)
    (if isPrayerRequest then "Prayer Request" else "General Inquiry").

(** [newsletter || false] *)
Definition newsletter_opt_in (f : Form) : Json :=
  match newsletter f with
  | Some v => if truthy_json (Some v) then v else JBool false
  | None => JBool false
  end.

Definition isPrayerRequest_of (f : Form) : bool :=
  is_yes (prayer f)
  || match category f with
     | Some c => String.eqb c "Prayer Request"
     | None => false
     end.

Definition newsletterPayload (email name timestamp : string) : Object :=
  [ ("email", JStr email);
    ("first_name", JStr (or_str (first_word name) name));
    ("last_name", JStr (or_str (after_first_space name) ""));
    ("subscribed_at", JStr timestamp);
    ("status", JStr "active");
    ("subscription_source", JStr "contact_form") ].

Definition websiteMessagePayload (f : Form) (submissionId name email subject
  message timestamp : string) : Object :=
  [ ("id", JStr submissionId);
    ("name", JStr name);
    ("email", JStr email);
    ("phone", opt_str (or_null (phone f)));
    ("subject", JStr subject);
    ("category", JStr (category_of f (isPrayerRequest_of f)));
    ("message", JStr message);
    ("source", JStr "website");
    ("newsletter_opt_in", newsletter_opt_in f);
    ("submitted_at", JStr timestamp);
    ("status", JStr "unread");
    ("is_prayer_request", JBool (isPrayerRequest_of f)) ].

Definition contactSubmissionPayload (f : Form) (submissionId name email subject
  message timestamp : string) : Object :=
  [ ("id", JStr submissionId);
    ("name", JStr name);
    ("email", JStr email);
    ("phone", opt_str (or_null (phone f)));
    ("subject", JStr subject);
    ("category", JStr (category_of f (isPrayerRequest_of f)));
    ("message", JStr message);
    ("newsletter_opt_in", newsletter_opt_in f);
    ("is_prayer_request", JBool (isPrayerRequest_of f));
    ("submitted_at", JStr timestamp);
    ("status", JStr "new") ].

Definition prayerPayload (w : World) (submissionId subject message
  timestamp : string) : Object :=
  [ ("id", JStr (randomUUID w 1));
    ("contact_id", JNull);
    ("title", JStr subject);
    ("description", JStr message);
    ("status", JStr "new");
    ("submitted_at", JStr timestamp);
    ("urgency", JStr "normal");
    ("is_confidential", JBool true);
    ("source", JStr "website");
    ("source_submission_id", JStr submissionId) ].

(** The newsletter block: [newsletterResult] after it. *)
Definition subscribe (w : World) (f : Form) (email name timestamp : string)
  : M (option Object) :=
  if is_yes (newsletter f) then
    Effect.catch
      (res <~ db w (Insert "newsletter_subscribers"
                      [newsletterPayload email name timestamp]) ;;
       match Supabase.error res with
       | Some _ => Effect.ret None
       | None =>
           Effect.ret (match Supabase.data res with
                       | Some (first :: _) => Some first
                       | _ => None
                       end)
       end)
      (fun _ => Effect.ret None)
  else Effect.ret None.

(** The prayer block. *)
Definition add_prayer_request (w : World) (f : Form) (submissionId subject
  message timestamp : string) : M unit :=
  if isPrayerRequest_of f then
    Effect.catch
      (_ <~ db w (Insert "prayer_requests"
                    [prayerPayload w submissionId subject message timestamp]) ;;
       Effect.ret tt)
      (fun _ => Effect.ret tt)
  else Effect.ret tt.

(** The JSON answered after the main insert went through. *)
Definition success_response (f : Form) (submissionId : string)
  (newsletterResult : option Object) : Http.Response Body :=
  let isPrayerRequest := isPrayerRequest_of f in
  let baseMessage :=
    if isPrayerRequest
    then "Your prayer request has been submitted. Our pastoral team will keep you in prayer."
    else "Your message has been sent successfully! We'll get back to you soon." in
  let newsletterMessage :=
    match newsletterResult with
    | Some _ => " You've also been subscribed to our newsletter."
    | None => ""
    end in
  let subscribed := match newsletterResult with Some _ => true | None => false end in
  Http.json_with
    (Success true (baseMessage ++ newsletterMessage) submissionId
       (if isPrayerRequest then "prayer_request" else "website_message")
       subscribed
       {| debug_newsletterResult := subscribed;
          newsletterResultId :=
            match newsletterResult with
            | Some r => obj_lookup r "id"
            | None => None
            end;
          debug_isPrayerRequest := isPrayerRequest;
          originalValues := (newsletter f, prayer f) |})
    200.

(** From the prayer block to the end of the [try] block. *)
Definition finish (w : World) (f : Form) (submissionId subject message
  timestamp : string) (newsletterResult : option Object)
  : M (Http.Response Body) :=
  _ <~ add_prayer_request w f submissionId subject message timestamp ;;
  Effect.ret (success_response f submissionId newsletterResult).

(** The body of the outer [try] block. *)
Definition POST_try (w : World) (request : Request) : M (Http.Response Body) :=
  f <~ Effect.lift (json request) ;;
  match name f, email f, subject f, message f with
  | Some name, Some email, Some subject, Some message =>
      if negb (truthy name) || negb (truthy email)
         || negb (truthy subject) || negb (truthy message)
      then Effect.ret (Http.json_with (Error "Missing required fields") 400)
      else
        let submissionId := randomUUID w 0 in
        let timestamp := now w in
        newsletterResult <~ subscribe w f email name timestamp ;;
        wres <~ db w (Insert "website_messages"
                        [websiteMessagePayload f submissionId name email subject
                           message timestamp]) ;;
        match Supabase.error wres with
        | Some _ =>
            fres <~ db w (Insert "contact_submissions"
                            [contactSubmissionPayload f submissionId name email
                               subject message timestamp]) ;;
            match Supabase.error fres with
            | Some _ =>
                Effect.ret (Http.json_with (Error "Failed to submit contact form") 500)
            | None =>
                finish w f submissionId subject message timestamp newsletterResult
            end
        | None =>
            finish w f submissionId subject message timestamp newsletterResult
        end
  | _, _, _, _ =>
      Effect.ret (Http.json_with (Error "Missing required fields") 400)
  end.

(** The response, and the operations sent to the database on the way. *)
Definition POST (w : World) (request : Request) : Http.Response Body * list DbOp :=
  Effect.handle (POST_try w request)
    (fun _ => Http.json_with (Error "Internal server error") 500).

(** *** The main inserts of a submission *)

Definition required_present (f : Form) : bool :=
  truthy_opt (name f) && truthy_opt (email f)
  && truthy_opt (subject f) && truthy_opt (message f).

(** The insert into [website_messages] sent for the form [f]. *)
Definition website_insert (w : World) (f : Form) : DbOp :=
  Insert "website_messages"
    [websiteMessagePayload f (randomUUID w 0) (value (name f)) (value (email f))
       (value (subject f)) (value (message f)) (now w)].

(** The insert into [contact_submissions] sent when the first one fails. *)
Definition fallback_insert (w : World) (f : Form) : DbOp :=
  Insert "contact_submissions"
    [contactSubmissionPayload f (randomUUID w 0) (value (name f)) (value (email f))
       (value (subject f)) (value (message f)) (now w)].

(** An insert fails when it answers with an error, or throws. *)
Definition failed (a : Query (list Object)) : bool :=
  match a with
  | Returned (PgData _) => false
  | Returned (PgError _) => true
  | Thrown _ => true
  end.

Definition returned_error (a : Query (list Object)) : bool :=
  match a with
  | Returned (PgError _) => true
  | _ => false
  end.

Definition threw (a : Query (list Object)) : bool :=
  match a with
  | Thrown _ => true
  | _ => false
  end.

Definition is_main (op : DbOp) : bool :=
  String.eqb (table_of op) "website_messages"
  || String.eqb (table_of op) "contact_submissions".

(** The main inserts among the operations sent. *)
Definition main_ops (log : list DbOp) : list DbOp := filter is_main log.

(** Two worlds that differ at most in what the optional inserts
    ([newsletter_subscribers], [prayer_requests]) answer. *)
Definition same_but_optional (w w' : World) : Prop :=
  (forall n, randomUUID w n = randomUUID w' n)
  /\ now w = now w'
  /\ forall op, is_main op = true -> answer w op = answer w' op.

(** The id a row carries. *)
Definition id_of_rows (op : DbOp) : option Json :=
  match op with
  | Insert _ [row] => obj_lookup row "id"
  | _ => None
  end.

End Contact.

(** ** Planned visits *)

Module PlannedVisits.

(** [PlannedVisitFormData], as parsed from the body, which the handler
    does not validate beyond the five required strings: a missing string
    field is [None]; [groupSize] is what the arithmetic of the handler reads
    in the field. *)
Record PlannedVisitFormData : Type := mkForm {
  firstName : option string;
  lastName : option string;
  email : option string;
  phone : option string;
  eventType : option string;
  preferredDate : option string;
  preferredTime : option string;
  groupSize : Number;
  firstTimeVisitor : bool;
  specialNeeds : option string;
  howHeardAboutUs : option string;
  additionalNotes : option string
}.

Record Request : Type := mkRequest {
  (** [await request.json()] *)
  json : Outcome PlannedVisitFormData
}.

Inductive Body : Type :=
| Success (success : bool) (message : string) (plannedVisitId : string)
| Invalid (error : string)
| Error (error : string) (details : string) (code : option string).

Record World : Type := mkWorld {
  createServerSupabaseClient : Outcome unit;
  (** the contact of that email, [.select('id').eq('email', ..).single()]:
      the [id] of the row *)
  select_contact : string -> Query string;
  (** [.insert(row).select('id').single()]: the [id] of the new row *)
  answer_insert : DbOp -> Query string;
  (** [new Date(s).toISOString()], a RangeError on an invalid date *)
  toISOString : string -> Outcome string;
  (** the successive readings of [new Date().toISOString()] *)
  clock : nat -> string;
  (** whether the client's error objects are instances of [Error] *)
  PostgrestError_is_Error : bool
}.

Definition M : Type -> Type := Effect.Eff DbOp.

(** [throw err] for an error object of the database client. *)
Definition thrown_error (w : World) (err : PostgrestError) : Exception :=
  {| exn_message := Supabase.message err;
     exn_code := Some (Supabase.code err);
     instanceof_Error := PostgrestError_is_Error w |}.

Definition eventTypeMap : list (string * string) :=
  [ ("sunday-service", "Sunday Worship Service");
    ("youth-night", "Youth Night");
    ("bible-study", "Bible Study");
    ("community-outreach", "Community Outreach");
    ("special-event", "Special Event") ].

Fixpoint record_get (m : list (string * string)) (k : string) : option string :=
  match m with
  | [] => None
  | (k', v) :: rest => if String.eqb k' k then Some v else record_get rest k
  end.

(** [eventTypeMap[eventType] || eventType], as it is serialised: a member
    inherited from [Object.prototype] is a function, which JSON leaves out
    ([None]), or the prototype itself, an object without own enumerable
    keys. *)
Definition eventName_of (eventType : string) : option Json :=
  match record_get eventTypeMap eventType with
  | Some n => Some (JStr n)
  | None =>
      if String.eqb eventType "__proto__" then Some (JObj [])
      else if existsb (String.eqb eventType) inherited_names then None
      else Some (JStr eventType)
  end.

(** The contact row written when no contact has that email. *)
Definition contactRow (f : PlannedVisitFormData) (w : World)
  (firstName lastName email : string) : Object :=
  [ ("first_name", JStr firstName);
    ("last_name", JStr lastName);
    ("email", JStr email);
    ("phone", opt_str (or_null (phone f)));
    ("tenant_id", JStr "a0eebc99-9c0b-4ef8-bb6d-6bb9bd380a11");
    ("created_at", JStr (clock w 0));
    ("updated_at", JStr (clock w 1)) ].

(** Step 1: the existing contact, or a new one; the number of clock
    readings made comes back with the id. *)
Definition find_or_create_contact (w : World) (f : PlannedVisitFormData)
  (firstName lastName email : string) : M (string * nat) :=
  found <~ Effect.send (Select "contacts" "email" email) (select_contact w email) ;;
  let continue :=
    match Supabase.data found with
    | Some existingId => Effect.ret (existingId, 0)
    | None =>
        let op := Insert "contacts" [contactRow f w firstName lastName email] in
        created <~ Effect.send op (answer_insert w op) ;;
        match Supabase.error created with
        | Some contactError => Effect.throw (thrown_error w contactError)
        | None =>
            match Supabase.data created with
            | Some newId => Effect.ret (newId, 2)
            | None =>
                Effect.throw (Error_ "Cannot read properties of null (reading 'id')")
            end
        end
    end in
  match Supabase.error found with
  | Some searchError =>
      if negb (String.eqb (Supabase.code searchError) "PGRST116")
      then Effect.throw (thrown_error w searchError)
      else continue
  | None => continue
  end.

(** The row written to [planned_visits]; [k] clock readings were made
    before. *)
Definition plannedVisitRow (f : PlannedVisitFormData) (w : World) (k : nat)
  (contactId : string) (eventName : option Json) (eventDate : string) : Object :=
  [ ("contact_id", JStr contactId) ]
  ++ match eventName with
     | Some n => [ ("event_name", n) ]
     | None => []
     end
  ++ [ ("event_date", JStr eventDate);
       ("event_time", JStr (or_default (preferredTime f) "10:00"));
       ("interest_level", JStr "interested");
       ("how_heard_about_us", opt_str (or_null (howHeardAboutUs f)));
       ("coming_with_others", JBool (greater_than_one (groupSize f)));
       ("companions_count", max_0_minus_1 (groupSize f));
       ("companions_details",
         if greater_than_one (groupSize f)
         then JStr ("Group of " ++ Number_to_string (groupSize f) ++ " people")
         else JNull);
       ("special_needs", opt_str (or_null (specialNeeds f)));
       ("contact_preference", JStr "email");
       ("notes", opt_str (or_null (additionalNotes f)));
       ("status", JStr "pending");
       ("created_at", JStr (clock w k));
       ("updated_at", JStr (clock w (S k))) ].

(** Steps 2 to 4: the event name, the date, and the insert into
    [planned_visits]. *)
Definition create_visit (w : World) (f : PlannedVisitFormData)
  (eventType preferredDate : string) (contact : string * nat)
  : M (Http.Response Body) :=
  let contactId := fst contact in
  let eventName := eventName_of eventType in
  eventDate <~ Effect.lift
    (toISOString w (preferredDate ++ "T" ++ or_default (preferredTime f) "10:00")) ;;
  let op := Insert "planned_visits"
              [plannedVisitRow f w (snd contact) contactId eventName eventDate] in
  visit <~ Effect.send op (answer_insert w op) ;;
  match Supabase.error visit with
  | Some visitError => Effect.throw (thrown_error w visitError)
  | None =>
      match Supabase.data visit with
      | Some plannedVisitId =>
          Effect.ret (Http.json
            (Success true
               "Your visit has been planned successfully! We'll be in touch soon."
               plannedVisitId))
      | None =>
          Effect.throw (Error_ "Cannot read properties of null (reading 'id')")
      end
  end.

(** The body of the [try] block. *)
Definition POST_try (w : World) (request : Request) : M (Http.Response Body) :=
  f <~ Effect.lift (json request) ;;
  match firstName f, lastName f, email f, eventType f, preferredDate f with
  | Some firstName, Some lastName, Some email, Some eventType, Some preferredDate =>
      if negb (truthy firstName) || negb (truthy lastName) || negb (truthy email)
         || negb (truthy eventType) || negb (truthy preferredDate)
      then Effect.ret (Http.json_with (Invalid "Missing required fields") 400)
      else
        _ <~ Effect.lift (createServerSupabaseClient w) ;;
        contact <~ find_or_create_contact w f firstName lastName email ;;
        create_visit w f eventType preferredDate contact
  | _, _, _, _, _ =>
      Effect.ret (Http.json_with (Invalid "Missing required fields") 400)
  end.

(** The response, and the operations sent to the database on the way. *)
Definition POST (w : World) (request : Request) : Http.Response Body * list DbOp :=
  Effect.handle (POST_try w request)
    (fun error =>
       Http.json_with
         (Error "Failed to submit planned visit. Please try again."
            (if instanceof_Error error then exn_message error else "Unknown error")
            (match exn_code error with
             | Some c => or_null (Some c)
             | None => None
             end))
         500).

(** The rows of the inserts into [planned_visits] among the operations
    sent. *)
Fixpoint planned_visit_rows (log : list DbOp) : list Object :=
  match log with
  | [] => []
  | Insert table rows :: rest =>
      if String.eqb table "planned_visits"
      then rows ++ planned_visit_rows rest
      else planned_visit_rows rest
  | _ :: rest => planned_visit_rows rest
  end.

End PlannedVisits.

(** ** Concrete stores *)

Module Examples.

Definition network_down : PostgrestError :=
  {| Supabase.message := "TypeError: fetch failed"; Supabase.code := "" |}.

Definition rls_denied : PostgrestError :=
  {| Supabase.message := "new row violates row-level security policy for table tenant_settings";
     Supabase.code := "42501" |}.

Definition no_rows : PostgrestError :=
  {| Supabase.message := "JSON object requested, multiple (or no) rows returned";
     Supabase.code := "PGRST116" |}.

Definition timed_out : Exception := Error_ "socket hang up".

Definition picnic : Events.EventRow :=
  Events.mkRow "e1" "Summer Picnic" "2030-07-01T12:00:00" None (Some "") (Some 80%Z).

Definition youth_camp : Events.EventRow :=
  Events.mkRow "e2" "Youth Camp" "2030-07-09T08:00:00" (Some "Lake House")
    (Some "Three days away for teens.") None.

Definition camp_photo : Events.EventImage :=
  Events.mkImage "i1" "e2" "https://cdn.example/camp.jpg" (Some "The lake") 0%Z.

Definition camp_photo_2 : Events.EventImage :=
  Events.mkImage "i2" "e2" "https://cdn.example/camp2.jpg" None 1%Z.

(** A configured events store with the given answers. *)
Definition events_store (events : Query (list Events.EventRow))
  (images : Query (list Events.EventImage)) : Events.World :=
  {| Events.NEXT_PUBLIC_SUPABASE_URL := Some "https://db.example";
     Events.NEXT_PUBLIC_SUPABASE_ANON_KEY := Some "anon-key";
     Events.createServerSupabaseClient := Returned tt;
     Events.now := "2030-06-01T00:00:00.000Z";
     Events.select_events := fun _ => events;
     Events.select_event_images := fun _ => images |}.

Definition events_unreachable : Events.World :=
  events_store (Returned (PgError network_down)) (Returned (PgError network_down)).

Definition events_throwing : Events.World :=
  events_store (Thrown timed_out) (Thrown timed_out).

Definition events_none : Events.World :=
  events_store (Returned (PgData (Some []))) (Returned (PgData (Some []))).

Definition events_two : Events.World :=
  events_store (Returned (PgData (Some [picnic; youth_camp])))
    (Returned (PgData (Some [camp_photo; camp_photo_2]))).

Definition events_without_images : Events.World :=
  events_store (Returned (PgData (Some [picnic; youth_camp])))
    (Returned (PgError network_down)).

Definition events_unconfigured : Events.World :=
  {| Events.NEXT_PUBLIC_SUPABASE_URL := None;
     Events.NEXT_PUBLIC_SUPABASE_ANON_KEY := Some "anon-key";
     Events.createServerSupabaseClient := Returned tt;
     Events.now := "2030-06-01T00:00:00.000Z";
     Events.select_events := fun _ => Returned (PgData (Some [picnic]));
     Events.select_event_images := fun _ => Returned (PgData (Some [])) |}.

Definition stored_settings : TenantSettings.Settings :=
  TenantSettings.mkSettings "t1" "Grace Chapel" "Europe/London" "#000000" "#FFFFFF"
    "A church in town" "2020-01-01T00:00:00.000Z" "2021-01-01T00:00:00.000Z".

Definition morning (n : nat) : string :=
  match n with
  | 0 => "2030-06-01T08:00:00.000Z"
  | _ => "2030-06-01T08:00:00.001Z"
  end.

Definition evening (n : nat) : string := "2030-06-01T20:00:00.000Z".

(** A configured tenant-settings store with the given answer. *)
Definition tenant_store (answer : Query (list TenantSettings.Settings))
  : TenantSettings.World :=
  {| TenantSettings.NEXT_PUBLIC_SUPABASE_URL := Some "https://db.example";
     TenantSettings.SUPABASE_SERVICE_ROLE_KEY := None;
     TenantSettings.NEXT_PUBLIC_SUPABASE_SERVICE_ROLE_KEY := Some "service-key";
     TenantSettings.NEXT_PUBLIC_SUPABASE_ANON_KEY := Some "anon-key";
     TenantSettings.createClient := fun _ _ => Returned tt;
     TenantSettings.select_tenant_settings := fun _ _ => answer;
     TenantSettings.clock := morning |}.

Definition tenant_unconfigured : TenantSettings.World :=
  {| TenantSettings.NEXT_PUBLIC_SUPABASE_URL := None;
     TenantSettings.SUPABASE_SERVICE_ROLE_KEY := None;
     TenantSettings.NEXT_PUBLIC_SUPABASE_SERVICE_ROLE_KEY := None;
     TenantSettings.NEXT_PUBLIC_SUPABASE_ANON_KEY := None;
     TenantSettings.createClient := fun _ _ => Returned tt;
     TenantSettings.select_tenant_settings :=
       fun _ _ => Returned (PgData (Some [stored_settings]));
     TenantSettings.clock := morning |}.

Definition tenant_unreachable : TenantSettings.World :=
  tenant_store (Returned (PgError network_down)).

Definition tenant_denied : TenantSettings.World :=
  tenant_store (Returned (PgError rls_denied)).

Definition tenant_throwing : TenantSettings.World :=
  tenant_store (Thrown timed_out).

Definition tenant_none : TenantSettings.World :=
  tenant_store (Returned (PgData (Some []))).

Definition tenant_one : TenantSettings.World :=
  tenant_store (Returned (PgData (Some [stored_settings]))).

Definition giving_row : GivingPage.PageRow :=
  GivingPage.mkPage "p1" "giving" "Give" (Some "2029-01-01T00:00:00.000Z").

Definition hero_section : GivingPage.SectionRow :=
  GivingPage.mkSection "s1" "hero" 1%Z
    (Some [ ("heading", JStr "Give with joy"); ("badge", JStr "New") ]).

Definition campus_fund : GivingPage.FundRow :=
  GivingPage.mkFundRow "f1" "Campus Fund" None true.

Definition giving_store (page : Query GivingPage.PageRow)
  (sections : Query (list GivingPage.SectionRow))
  (funds : Query (list GivingPage.FundRow)) : GivingPage.World :=
  {| GivingPage.createServerSupabaseClient := Returned tt;
     GivingPage.select_page := page;
     GivingPage.select_sections := fun _ => sections;
     GivingPage.select_funds := funds |}.

Definition giving_unconfigured : GivingPage.World :=
  {| GivingPage.createServerSupabaseClient :=
       Thrown (Error_ "Missing Supabase environment variables");
     GivingPage.select_page := Returned (PgData (Some giving_row));
     GivingPage.select_sections := fun _ => Returned (PgData (Some []));
     GivingPage.select_funds := Returned (PgData (Some [])) |}.

Definition giving_unreachable : GivingPage.World :=
  giving_store (Returned (PgError network_down)) (Returned (PgError network_down))
    (Returned (PgError network_down)).

Definition giving_none : GivingPage.World :=
  giving_store (Returned (PgError no_rows)) (Returned (PgData (Some [])))
    (Returned (PgData (Some []))).

Definition giving_published : GivingPage.World :=
  giving_store (Returned (PgData (Some giving_row)))
    (Returned (PgData (Some [hero_section])))
    (Returned (PgData (Some [campus_fund]))).

(** A webhook endpoint that accepts the signature [t=1,v1=good] only. *)
Definition webhook_world : StripeWebhook.World :=
  {| StripeWebhook.constructEvent :=
       fun body signature =>
         match signature with
         | Some sig =>
             if String.eqb sig "t=1,v1=good"
             then Returned (StripeWebhook.payment_intent_succeeded
                              (StripeWebhook.mkPaymentIntent "pi_1" (Some "ch_1") None))
             else Thrown (Error_ "No signatures found matching the expected signature for payload.")
         | None => Thrown (Error_ "No stripe-signature header value was provided.")
         end;
     StripeWebhook.createServerSupabaseClient := Returned tt;
     StripeWebhook.retrieve_subscription :=
       fun id => Returned (StripeWebhook.mkSubscription id "active" None);
     StripeWebhook.answer := fun _ => Returned (PgData None);
     StripeWebhook.now := "2030-06-01T08:00:00.000Z";
     StripeWebhook.in_thirty_days := "2030-07-01T08:00:00.000Z" |}.

Definition forged_request : StripeWebhook.Request :=
  {| StripeWebhook.text := Returned "{}";
     StripeWebhook.stripe_signature := Some "t=1,v1=forged" |}.

Definition signed_request : StripeWebhook.Request :=
  {| StripeWebhook.text := Returned "{}";
     StripeWebhook.stripe_signature := Some "t=1,v1=good" |}.

Definition question : Contact.Form :=
  {| Contact.name := Some "Ada Lovelace";
     Contact.email := Some "ada@example.org";
     Contact.phone := None;
     Contact.subject := Some "Service times";
     Contact.category := None;
     Contact.message := Some "When do you meet?";
     Contact.newsletter := Some (JBool true);
     Contact.prayer := None |}.

Definition question_request : Contact.Request :=
  {| Contact.json := Returned question |}.

Definition uuids (n : nat) : string :=
  match n with
  | 0 => "11111111-1111-4111-8111-111111111111"
  | _ => "22222222-2222-4222-8222-222222222222"
  end.

Definition stored (id : string) : Query (list Object) :=
  Returned (PgData (Some [[("id", JStr id)]])).

(** [website_messages] is missing, [contact_submissions] takes the row. *)
Definition contact_fallback_world : Contact.World :=
  {| Contact.randomUUID := uuids;
     Contact.now := "2030-06-01T08:00:00.000Z";
     Contact.answer :=
       fun op =>
         if String.eqb (table_of op) "website_messages"
         then Returned (PgError network_down)
         else if String.eqb (table_of op) "newsletter_subscribers"
         then Thrown timed_out
         else stored "row" |}.

(** The insert into [website_messages] throws. *)
Definition contact_throwing_world : Contact.World :=
  {| Contact.randomUUID := uuids;
     Contact.now := "2030-06-01T08:00:00.000Z";
     Contact.answer :=
       fun op =>
         if String.eqb (table_of op) "website_messages"
         then Thrown timed_out
         else stored "row" |}.

Definition family_visit : PlannedVisits.PlannedVisitFormData :=
  {| PlannedVisits.firstName := Some "Ada";
     PlannedVisits.lastName := Some "Lovelace";
     PlannedVisits.email := Some "ada@example.org";
     PlannedVisits.phone := None;
     PlannedVisits.eventType := Some "sunday-service";
     PlannedVisits.preferredDate := Some "2030-06-09";
     PlannedVisits.preferredTime := None;
     PlannedVisits.groupSize := Int (mkSafe 4 eq_refl);
     PlannedVisits.firstTimeVisitor := true;
     PlannedVisits.specialNeeds := None;
     PlannedVisits.howHeardAboutUs := Some "A friend";
     PlannedVisits.additionalNotes := None |}.

Definition visit_request : PlannedVisits.Request :=
  {| PlannedVisits.json := Returned family_visit |}.

Definition visits_world : PlannedVisits.World :=
  {| PlannedVisits.createServerSupabaseClient := Returned tt;
     PlannedVisits.select_contact := fun _ => Returned (PgError no_rows);
     PlannedVisits.answer_insert :=
       fun op =>
         if String.eqb (table_of op) "contacts"
         then Returned (PgData (Some "c1"))
         else Returned (PgData (Some "v1"));
     PlannedVisits.toISOString := fun _ => Returned "2030-06-09T10:00:00.000Z";
     PlannedVisits.clock := evening;
     PlannedVisits.PostgrestError_is_Error := true |}.

End Examples.

(** ** The events hook *)

Module UseEvents.

(** [EventsResponse], as parsed from the body: a field the body lacks is
    [None]. *)
Record EventsResponse : Type := mkData {
  events : option (list Events.EventData);
  source : option string;
  message : option string
}.

(** What [fetch] resolves to. *)
Record Reply : Type := mkReply {
  status : Z;
  statusText : string;
  (** [await response.json()] *)
  json : Outcome EventsResponse
}.

(** [response.ok] *)
Definition ok (r : Reply) : bool :=
  (200 <=? status r)%Z && (status r <=? 299)%Z.

(** The state of the hook. *)
Record State : Type := mkState {
  st_events : list Events.EventData;
  loading : bool;
  error : option string;
  st_source : string;
  st_message : string
}.

(** The state before the effect runs. *)
Definition initial : State :=
  {| st_events := Events.defaultEvents;
     loading := false;
     error := None;
     st_source := "default";
     st_message := "Using default events" |}.

(** The body of the [try] block: the state it leaves, or what it throws. *)
Definition fetchEvents_try (fetched : Outcome Reply) (s : State) : Outcome State :=
  response <- fetched ;;
  if negb (ok response)
  then Thrown (Error_ ("HTTP " ++ Z_to_string (status response) ++ ": "
                       ++ statusText response))
  else
    data <- json response ;;
    match events data with
    | Some evs =>
        Returned {| st_events := evs;
                    loading := loading s;
                    error := None;
                    st_source := or_default (source data) "default";
                    st_message := or_default (message data) "Events loaded" |}
    | None =>
        Returned {| st_events := Events.defaultEvents;
                    loading := loading s;
                    error := error s;
                    st_source := "default";
                    st_message := "Using default events - No content found" |}
    end.

(** [fetchEvents]: the state once the effect has run, [finally] included. *)
Definition fetchEvents (fetched : Outcome Reply) (s : State) : State :=
  let started :=
    {| st_events := st_events s; loading := true; error := error s;
       st_source := st_source s; st_message := st_message s |} in
  let after :=
    try_catch (fetchEvents_try fetched started)
      (fun err =>
         {| st_events := Events.defaultEvents;
            loading := loading started;
            error := Some (if instanceof_Error err then exn_message err
                           else "Failed to load events");
            st_source := "default";
            st_message := "Using default events - Fetch failed" |}) in
  {| st_events := st_events after; loading := false; error := error after;
     st_source := st_source after; st_message := st_message after |}.

(** The reply the browser gets when the events route answers [r]. *)
Definition reply_of (r : Http.Response Events.EventsBody) (statusText : string)
  : Reply :=
  {| status := Http.status r;
     statusText := statusText;
     json := Returned {| events := Some (Events.events (Http.body r));
                         source := Some (Events.source (Http.body r));
                         message := Some (Events.message (Http.body r)) |} |}.

(** The ways a fetch fails: the call throws, the status is not in
    200..299, or the body cannot be parsed.  The index is the text the
    hook records. *)
Inductive Fails : Outcome Reply -> string -> Prop :=
| fetch_throws e :
    Fails (Thrown e)
      (if instanceof_Error e then exn_message e else "Failed to load events")
| status_not_ok r :
    ok r = false ->
    Fails (Returned r)
      ("HTTP " ++ Z_to_string (status r) ++ ": " ++ statusText r)
| body_unreadable r e :
    ok r = true ->
    json r = Thrown e ->
    Fails (Returned r)
      (if instanceof_Error e then exn_message e else "Failed to load events").

End UseEvents.

(** ** The planned-visit form *)

Module VisitForm.

(** [FormData] of the component. *)
Record FormData : Type := mkFormData {
  firstName : string;
  lastName : string;
  email : string;
  phone : string;
  eventType : string;
  preferredDate : string;
  preferredTime : string;
  groupSize : SafeInteger;
  firstTimeVisitor : bool;
  specialNeeds : string;
  howHeardAboutUs : string;
  additionalNotes : string
}.

Record State : Type := mkState {
  currentStep : nat;
  isSubmitting : bool;
  formData : FormData
}.

Definition emptyForm : FormData :=
  {| firstName := ""; lastName := ""; email := ""; phone := "";
     eventType := ""; preferredDate := ""; preferredTime := "";
     groupSize := mkSafe 1 eq_refl; firstTimeVisitor := true; specialNeeds := "";
     howHeardAboutUs := ""; additionalNotes := "" |}.

Definition initial : State :=
  {| currentStep := 1; isSubmitting := false; formData := emptyForm |}.

Definition totalSteps : nat := 3.

(** The [value] of each event card. *)
Definition eventTypes : list string :=
  [ "sunday-service"; "youth-night"; "bible-study"; "community-outreach";
    "special-event" ].

(** The values of the options of the group-size select, as [parseInt]
    reads them. *)
Definition groupSizeOptions : list SafeInteger :=
  [ mkSafe 1 eq_refl; mkSafe 2 eq_refl; mkSafe 3 eq_refl; mkSafe 4 eq_refl; mkSafe 5 eq_refl; mkSafe 6 eq_refl; mkSafe 7 eq_refl;
    mkSafe 8 eq_refl; mkSafe 9 eq_refl; mkSafe 10 eq_refl; mkSafe 11 eq_refl ].

Inductive Field : Type :=
| f_firstName | f_lastName | f_email | f_phone
| f_eventType | f_preferredDate | f_preferredTime
| f_specialNeeds | f_howHeardAboutUs | f_additionalNotes.

(** [updateFormData(field, value)] on a text field. *)
Definition updateFormData (d : FormData) (field : Field) (value : string) : FormData :=
  match field with
  | f_firstName =>
      mkFormData value (lastName d) (email d) (phone d) (eventType d)
        (preferredDate d) (preferredTime d) (groupSize d) (firstTimeVisitor d)
        (specialNeeds d) (howHeardAboutUs d) (additionalNotes d)
  | f_lastName =>
      mkFormData (firstName d) value (email d) (phone d) (eventType d)
        (preferredDate d) (preferredTime d) (groupSize d) (firstTimeVisitor d)
        (specialNeeds d) (howHeardAboutUs d) (additionalNotes d)
  | f_email =>
      mkFormData (firstName d) (lastName d) value (phone d) (eventType d)
        (preferredDate d) (preferredTime d) (groupSize d) (firstTimeVisitor d)
        (specialNeeds d) (howHeardAboutUs d) (additionalNotes d)
  | f_phone =>
      mkFormData (firstName d) (lastName d) (email d) value (eventType d)
        (preferredDate d) (preferredTime d) (groupSize d) (firstTimeVisitor d)
        (specialNeeds d) (howHeardAboutUs d) (additionalNotes d)
  | f_eventType =>
      mkFormData (firstName d) (lastName d) (email d) (phone d) value
        (preferredDate d) (preferredTime d) (groupSize d) (firstTimeVisitor d)
        (specialNeeds d) (howHeardAboutUs d) (additionalNotes d)
  | f_preferredDate =>
      mkFormData (firstName d) (lastName d) (email d) (phone d) (eventType d)
        value (preferredTime d) (groupSize d) (firstTimeVisitor d)
        (specialNeeds d) (howHeardAboutUs d) (additionalNotes d)
  | f_preferredTime =>
      mkFormData (firstName d) (lastName d) (email d) (phone d) (eventType d)
        (preferredDate d) value (groupSize d) (firstTimeVisitor d)
        (specialNeeds d) (howHeardAboutUs d) (additionalNotes d)
  | f_specialNeeds =>
      mkFormData (firstName d) (lastName d) (email d) (phone d) (eventType d)
        (preferredDate d) (preferredTime d) (groupSize d) (firstTimeVisitor d)
        value (howHeardAboutUs d) (additionalNotes d)
  | f_howHeardAboutUs =>
      mkFormData (firstName d) (lastName d) (email d) (phone d) (eventType d)
        (preferredDate d) (preferredTime d) (groupSize d) (firstTimeVisitor d)
        (specialNeeds d) value (additionalNotes d)
  | f_additionalNotes =>
      mkFormData (firstName d) (lastName d) (email d) (phone d) (eventType d)
        (preferredDate d) (preferredTime d) (groupSize d) (firstTimeVisitor d)
        (specialNeeds d) (howHeardAboutUs d) value
  end.

Definition set_groupSize (d : FormData) (n : SafeInteger) : FormData :=
  mkFormData (firstName d) (lastName d) (email d) (phone d) (eventType d)
    (preferredDate d) (preferredTime d) n (firstTimeVisitor d)
    (specialNeeds d) (howHeardAboutUs d) (additionalNotes d).

Definition set_firstTimeVisitor (d : FormData) (b : bool) : FormData :=
  mkFormData (firstName d) (lastName d) (email d) (phone d) (eventType d)
    (preferredDate d) (preferredTime d) (groupSize d) b
    (specialNeeds d) (howHeardAboutUs d) (additionalNotes d).

Definition isStep1Valid (d : FormData) : bool :=
  truthy (firstName d) && truthy (lastName d) && truthy (email d).

Definition isStep2Valid (d : FormData) : bool :=
  truthy (eventType d) && truthy (preferredDate d).

Definition with_step (s : State) (n : nat) : State :=
  {| currentStep := n; isSubmitting := isSubmitting s; formData := formData s |}.

Definition with_form (s : State) (d : FormData) : State :=
  {| currentStep := currentStep s; isSubmitting := isSubmitting s; formData := d |}.

Definition nextStep (s : State) : State :=
  if Nat.ltb (currentStep s) totalSteps then with_step s (currentStep s + 1) else s.

Definition prevStep (s : State) : State :=
  if Nat.ltb 1 (currentStep s) then with_step s (currentStep s - 1) else s.

(** The step whose panel shows the input of a field. *)
Definition panel_of (field : Field) : nat :=
  match field with
  | f_firstName | f_lastName | f_email | f_phone => 1
  | f_eventType | f_preferredDate | f_preferredTime => 2
  | f_specialNeeds | f_howHeardAboutUs | f_additionalNotes => 3
  end.

(** What the visitor can do. *)
Inductive Action : Type :=
| Type_ (field : Field) (value : string)
| PickEvent (card : nat)
| SelectGroupSize (option : nat)
| CheckFirstTime (checked : bool)
| ClickContinue
| ClickBack.

(** One action on the rendered form; an input that is not shown, or a
    disabled button, changes nothing. *)
Definition act (s : State) (a : Action) : State :=
  match a with
  | Type_ f_eventType _ => s
  | Type_ field value =>
      if Nat.eqb (currentStep s) (panel_of field)
      then with_form s (updateFormData (formData s) field value)
      else s
  | PickEvent card =>
      if Nat.eqb (currentStep s) 2
      then match nth_error eventTypes card with
           | Some value =>
               with_form s (updateFormData (formData s) f_eventType value)
           | None => s
           end
      else s
  | SelectGroupSize option =>
      if Nat.eqb (currentStep s) 2
      then match nth_error groupSizeOptions option with
           | Some n => with_form s (set_groupSize (formData s) n)
           | None => s
           end
      else s
  | CheckFirstTime checked =>
      if Nat.eqb (currentStep s) 2
      then with_form s (set_firstTimeVisitor (formData s) checked)
      else s
  | ClickContinue =>
      if Nat.eqb (currentStep s) totalSteps then s
      else if (Nat.eqb (currentStep s) 1 && negb (isStep1Valid (formData s)))
              || (Nat.eqb (currentStep s) 2 && negb (isStep2Valid (formData s)))
      then s
      else nextStep s
  | ClickBack =>
      if Nat.eqb (currentStep s) 1 then s else prevStep s
  end.

Definition run (s : State) (actions : list Action) : State :=
  fold_left act actions s.

(** Whether the submit button is shown. *)
Definition can_submit (s : State) : bool :=
  Nat.eqb (currentStep s) totalSteps && negb (isSubmitting s).

(** [JSON.stringify(formData)], as the route parses it. *)
Definition payload (d : FormData) : PlannedVisits.PlannedVisitFormData :=
  {| PlannedVisits.firstName := Some (firstName d);
     PlannedVisits.lastName := Some (lastName d);
     PlannedVisits.email := Some (email d);
     PlannedVisits.phone := Some (phone d);
     PlannedVisits.eventType := Some (eventType d);
     PlannedVisits.preferredDate := Some (preferredDate d);
     PlannedVisits.preferredTime := Some (preferredTime d);
     PlannedVisits.groupSize := Int (groupSize d);
     PlannedVisits.firstTimeVisitor := firstTimeVisitor d;
     PlannedVisits.specialNeeds := Some (specialNeeds d);
     PlannedVisits.howHeardAboutUs := Some (howHeardAboutUs d);
     PlannedVisits.additionalNotes := Some (additionalNotes d) |}.

(** [handleSubmit] once the route has answered: the form is reset on a
    response that is [ok], kept otherwise. *)
Definition handleSubmit (s : State) (response_ok : bool) : State :=
  if response_ok
  then {| currentStep := 1; isSubmitting := false; formData := emptyForm |}
  else {| currentStep := currentStep s; isSubmitting := false;
          formData := formData s |}.

(** What holds of every state the visitor can reach. *)
Definition well_formed (s : State) : Prop :=
  (1 <= currentStep s <= 3)%nat
  /\ ((2 <= currentStep s)%nat -> isStep1Valid (formData s) = true)
  /\ (currentStep s = 3 -> isStep2Valid (formData s) = true)
  /\ (1 <= int_value (groupSize (formData s)) <= 11)%Z
  /\ (eventType (formData s) = "" \/ In (eventType (formData s)) eventTypes).

End VisitForm.

(** ** A visitor at the form *)

Module VisitSession.

Import VisitForm.

(** What happens to the form: the visitor acts on it, or presses the
    submit button and the route answers. *)
Inductive Event : Type :=
| Does (a : Action)
| Submits (response_ok : bool).

(** The submit button is there at the last step only, and disabled while
    a submission is under way. *)
Definition step (s : State) (ev : Event) : State :=
  match ev with
  | Does a => act s a
  | Submits response_ok => if can_submit s then handleSubmit s response_ok else s
  end.

Definition session (s : State) (events : list Event) : State :=
  fold_left step events s.

(** The body of the request that [handleSubmit] sends. *)
Definition request_of (s : State) : PlannedVisits.Request :=
  {| PlannedVisits.json := Returned (payload (formData s)) |}.

End VisitSession.

(** ** The donation route *)

Module Donations.

(** The fields read from the JSON body; a missing field is [None].  The
    amount is the exact value of the number sent. *)
Record Donation : Type := mkDonation {
  amount : option QArith_base.Q;
  currency : option string;
  fundDesignation : option string;
  isAnonymous : option bool;
  notes : option string;
  donorEmail : option string;
  donorName : option string;
  frequency : option string
}.

Record Request : Type := mkRequest {
  (** [await request.json()] *)
  json : Outcome Donation
}.

Inductive Body : Type :=
| Failure (error : string) (details : option string)
| RecurringSetup (setupIntentId : string) (clientSecret : option string)
                 (priceId : string) (type : string)
| PaymentCreated (clientSecret : option string) (paymentIntentId : string).

(** What the handler sends out: database operations and calls of the
    payment processor. *)
Inductive Op : Type :=
| Db (op : DbOp)
| Stripe (api : string) (params : Object).

(** An intent of the payment processor: [id] and [client_secret]. *)
Record Intent : Type := mkIntent {
  intent_id : string;
  client_secret : option string
}.

Record World : Type := mkWorld {
  createServerSupabaseClient : Outcome unit;
  (** the contact of that email, [.single()]: the [id] of the row *)
  select_contact : string -> Query string;
  (** [.insert([row]).select().single()]: the [id] of the new row *)
  answer_insert : DbOp -> Query string;
  (** [stripe.customers.list({ email, limit: 1 })]: the ids in [data] *)
  customers_list : string -> Outcome (list string);
  (** [stripe.customers.create(params)]: the [id] *)
  customers_create : Object -> Outcome string;
  (** [stripe.prices.create(params)]: the [id] *)
  prices_create : Object -> Outcome string;
  setupIntents_create : Object -> Outcome Intent;
  paymentIntents_create : Object -> Outcome Intent;
  (** [Math.round(amount * 100)], in floating point *)
  cents : QArith_base.Q -> Z;
  (** [amount.toString()] *)
  amount_text : QArith_base.Q -> string;
  (** [new Date().toISOString()] *)
  now : string
}.

Definition M : Type -> Type := Effect.Eff Op.

(** A destructuring default: it applies to a missing field only. *)
Definition default_to {A} (v : option A) (d : A) : A :=
  match v with
  | Some x => x
  | None => d
  end.

(** [!amount || amount <= 0] *)
Definition invalid_amount (a : option QArith_base.Q) : bool :=
  match a with
  | None => true
  | Some q => QArith_base.Qle_bool q (QArith_base.inject_Z 0)
  end.

(** [s || ''] as JSON *)
Definition str_or_empty (s : option string) : Json := JStr (or_default s "").

(** A field left out of the parameters when its value is undefined. *)
Definition optional (k : string) (v : option string) : Object :=
  match v with
  | Some x => [(k, JStr x)]
  | None => []
  end.

Definition bool_text (b : bool) : string := if b then "true" else "false".

(** [transactionData] of [createTransactionRecord]. *)
Definition transactionData (w : World)
  (contactId : option string) (amount : QArith_base.Q)
  (currency fundDesignation paymentMethod : string) (isAnonymous : bool)
  (notes stripePaymentIntentId stripeCustomerId : option string)
  (isRecurring : bool) (frequency : string) : Object :=
  [ ("contact_id", opt_str (or_null contactId));
    ("amount", JNum amount);
    ("currency", JStr (toUpperCase currency));
    ("category", JStr fundDesignation);
    ("payment_method", JStr paymentMethod);
    ("payment_status", JStr "pending");
    ("transacted_at", JStr (now w));
    ("notes", opt_str (or_null notes));
    ("stripe_payment_intent_id", opt_str (or_null stripePaymentIntentId));
    ("stripe_customer_id", opt_str (or_null stripeCustomerId));
    ("is_anonymous", JBool isAnonymous);
    ("is_recurring", JBool isRecurring);
    ("fund_designation", JStr fundDesignation);
    ("metadata", JObj
       [ ("frequency", JStr frequency);
         ("source", JStr "church_website");
         ("type", JStr (if isRecurring then "recurring_donation"
                        else "one_time_donation")) ]) ].

(** [createTransactionRecord]: the row read back, or an exception. *)
Definition createTransactionRecord (w : World)
  (contactId : option string) (amount : QArith_base.Q)
  (currency fundDesignation paymentMethod : string) (isAnonymous : bool)
  (notes stripePaymentIntentId stripeCustomerId : option string)
  (isRecurring : bool) (frequency : string) : M string :=
  _ <~ Effect.lift (createServerSupabaseClient w) ;;
  let row := transactionData w contactId amount currency fundDesignation
               paymentMethod isAnonymous notes stripePaymentIntentId
               stripeCustomerId isRecurring frequency in
  res <~ Effect.send (Db (Insert "transactions" [row]))
           (answer_insert w (Insert "transactions" [row])) ;;
  match Supabase.error res with
  | Some error =>
      Effect.throw (Error_ ("Failed to create transaction record: "
                            ++ Supabase.message error))
  | None =>
      match Supabase.data res with
      | Some id => Effect.ret id
      | None => Effect.throw (Error_ "Cannot read properties of null (reading 'id')")
      end
  end.

(** The contact of the donor: the one found, or a new one when the donor
    gave a name; errors of the two calls are not looked at. *)
Definition find_contact (w : World) (donorEmail : string) (donorName : option string)
  : M (option string) :=
  _ <~ Effect.lift (createServerSupabaseClient w) ;;
  found <~ Effect.send (Db (Select "contacts" "email" donorEmail))
             (select_contact w donorEmail) ;;
  match Supabase.data found with
  | Some existingId => Effect.ret (Some existingId)
  | None =>
      if truthy_opt donorName then
        let name := value donorName in
        let row : Object :=
          [ ("first_name", JStr (first_word name));
            ("last_name", JStr (or_str (after_first_space name) ""));
            ("email", JStr donorEmail);
            ("phone", JStr "");
            ("source", JStr "online_donation") ] in
        created <~ Effect.send (Db (Insert "contacts" [row]))
                     (answer_insert w (Insert "contacts" [row])) ;;
        match Supabase.error created, Supabase.data created with
        | None, Some newId => Effect.ret (Some newId)
        | _, _ => Effect.ret None
        end
      else Effect.ret None
  end.

(** The customer of the payment processor: the first one listed for the
    email, or a new one. *)
Definition find_customer (w : World) (donorEmail : string) (donorName : option string)
  (contactId : option string) : M string :=
  let listing := [ ("email", JStr donorEmail); ("limit", JNum (QArith_base.inject_Z 1)) ] in
  existingCustomers <~ Effect.send (Stripe "customers.list" listing)
                         (customers_list w donorEmail) ;;
  match existingCustomers with
  | first :: _ => Effect.ret first
  | [] =>
      let params : Object :=
        [ ("email", JStr donorEmail) ]
        ++ optional "name" donorName
        ++ [ ("metadata", JObj [ ("contact_id", str_or_empty contactId);
                                 ("source", JStr "church_website") ]) ] in
      Effect.send (Stripe "customers.create" params) (customers_create w params)
  end.

(** The block [if (!isAnonymous && donorEmail)]: an early response, or
    [contactId] and [customerId]. *)
Definition identify (w : World) (d : Donation)
  : M (Http.Response Body + option string * option string) :=
  if negb (default_to (isAnonymous d) false) && truthy_opt (donorEmail d) then
    let email := value (donorEmail d) in
    contactId <~ find_contact w email (donorName d) ;;
    Effect.catch
      (customerId <~ find_customer w email (donorName d) contactId ;;
       Effect.ret (inr (contactId, Some customerId)))
      (fun _ =>
         Effect.ret (inl (Http.json_with
                            (Failure "Failed to set up customer account" None) 500)))
  else Effect.ret (inr (None, None)).

Definition interval_of (frequency : string) : string :=
  if String.eqb frequency "weekly" then "week" else "month".

(** The recurring branch, once a customer is known. *)
Definition recurring (w : World) (d : Donation) (q : QArith_base.Q)
  (contactId : option string) (customerId : string) : M (Http.Response Body) :=
  let currency := default_to (currency d) "usd" in
  let fundDesignation := default_to (fundDesignation d) "General" in
  let frequency := default_to (frequency d) "one-time" in
  Effect.catch
    (let price_params : Object :=
       [ ("unit_amount", JNum (QArith_base.inject_Z (cents w q)));
         ("currency", JStr (toLowerCase currency));
         ("recurring", JObj [ ("interval", JStr (interval_of frequency));
                              ("interval_count", JNum (QArith_base.inject_Z 1)) ]);
         ("product_data", JObj [ ("name", JStr ("Recurring Donation - "
                                                ++ fundDesignation)) ]);
         ("metadata", JObj [ ("fund_designation", JStr fundDesignation);
                             ("type", JStr "recurring_donation") ]) ] in
     priceId <~ Effect.send (Stripe "prices.create" price_params)
                  (prices_create w price_params) ;;
     let setup_params : Object :=
       [ ("customer", JStr customerId);
         ("metadata", JObj [ ("contact_id", str_or_empty contactId);
                             ("fund_designation", JStr fundDesignation);
                             ("type", JStr "recurring_donation_setup");
                             ("frequency", JStr frequency);
                             ("amount", JStr (amount_text w q));
                             ("price_id", JStr priceId) ]);
         ("usage", JStr "off_session") ] in
     setupIntent <~ Effect.send (Stripe "setupIntents.create" setup_params)
                      (setupIntents_create w setup_params) ;;
     _ <~ createTransactionRecord w contactId q currency fundDesignation
            "Stripe (Recurring)" (default_to (isAnonymous d) false) (notes d)
            None (Some customerId) true frequency ;;
     Effect.ret (Http.json
                   (RecurringSetup (intent_id setupIntent) (client_secret setupIntent)
                      priceId "recurring")))
    (fun error =>
       Effect.ret (Http.json_with
                     (Failure "Failed to create recurring donation"
                        (Some (if instanceof_Error error then exn_message error
                               else "Unknown error")))
                     500)).

(** The one-time branch. *)
Definition one_time (w : World) (d : Donation) (q : QArith_base.Q)
  (contactId customerId : option string) : M (Http.Response Body) :=
  let currency := default_to (currency d) "usd" in
  let fundDesignation := default_to (fundDesignation d) "General" in
  let frequency := default_to (frequency d) "one-time" in
  let isAnonymous := default_to (isAnonymous d) false in
  Effect.catch
    (let params : Object :=
       [ ("amount", JNum (QArith_base.inject_Z (cents w q)));
         ("currency", JStr (toLowerCase currency)) ]
       ++ optional "customer" customerId
       ++ [ ("metadata", JObj [ ("contact_id", str_or_empty contactId);
                                ("fund_designation", JStr fundDesignation);
                                ("is_anonymous", JStr (bool_text isAnonymous));
                                ("notes", str_or_empty (notes d));
                                ("category", JStr fundDesignation);
                                ("type", JStr "donation");
                                ("frequency", JStr "one-time") ]);
            ("description", JStr ("Donation to " ++ fundDesignation));
            ("statement_descriptor", JStr "CHURCH DONATION") ]
       ++ optional "receipt_email" (if isAnonymous then None else donorEmail d) in
     paymentIntent <~ Effect.send (Stripe "paymentIntents.create" params)
                        (paymentIntents_create w params) ;;
     _ <~ createTransactionRecord w contactId q currency fundDesignation
            "Stripe" isAnonymous (notes d) (Some (intent_id paymentIntent))
            customerId false frequency ;;
     Effect.ret (Http.json
                   (PaymentCreated (client_secret paymentIntent)
                      (intent_id paymentIntent))))
    (fun _ =>
       Effect.ret (Http.json_with (Failure "Failed to create payment intent" None) 500)).

(** The body of the outer [try] block. *)
Definition POST_try (w : World) (request : Request) : M (Http.Response Body) :=
  d <~ Effect.lift (json request) ;;
  if invalid_amount (amount d)
  then Effect.ret (Http.json_with (Failure "Valid amount is required" None) 400)
  else if negb (truthy_opt (donorEmail d)) && negb (default_to (isAnonymous d) false)
  then Effect.ret (Http.json_with
                     (Failure "Email is required for non-anonymous donations" None)
                     400)
  else
    let q := default_to (amount d) (QArith_base.inject_Z 0) in
    ids <~ identify w d ;;
    match ids with
    | inl response => Effect.ret response
    | inr (contactId, customerId) =>
        if negb (String.eqb (default_to (frequency d) "one-time") "one-time") then
          if negb (truthy_opt customerId)
          then Effect.ret (Http.json_with
                             (Failure "Customer required for recurring donations" None)
                             400)
          else recurring w d q contactId (value customerId)
        else one_time w d q contactId customerId
    end.

(** The response, and what was sent on the way. *)
Definition POST (w : World) (request : Request) : Http.Response Body * list Op :=
  Effect.handle (POST_try w request)
    (fun _ => Http.json_with (Failure "Internal server error" None) 500).

(** The rows inserted into [transactions] among what was sent. *)
Fixpoint transaction_rows (log : list Op) : list Object :=
  match log with
  | [] => []
  | Db (Insert table rows) :: rest =>
      if String.eqb table "transactions"
      then rows ++ transaction_rows rest
      else transaction_rows rest
  | _ :: rest => transaction_rows rest
  end.

(** What the record of a donation holds. *)
Definition recorded (row : Object) (contactId : option string)
  (isAnonymous isRecurring : bool) (intentId customerId : option string) : Prop :=
  obj_lookup row "payment_status" = Some (JStr "pending")
  /\ obj_lookup row "contact_id" = Some (opt_str (or_null contactId))
  /\ obj_lookup row "is_anonymous" = Some (JBool isAnonymous)
  /\ obj_lookup row "is_recurring" = Some (JBool isRecurring)
  /\ obj_lookup row "stripe_payment_intent_id" = Some (opt_str (or_null intentId))
  /\ obj_lookup row "stripe_customer_id" = Some (opt_str (or_null customerId)).

(** Whether an operation touches the [contacts] table or the customers of
    the payment processor. *)
Definition about_donor (op : Op) : bool :=
  match op with
  | Db o => String.eqb (table_of o) "contacts"
  | Stripe api _ =>
      String.eqb api "customers.list" || String.eqb api "customers.create"
  end.

End Donations.

(** ** The operations of a contact submission *)

Module ContactTrace.

Import Contact.

(** The insert into [newsletter_subscribers] sent for the form [f]. *)
Definition newsletter_insert (w : World) (f : Form) : DbOp :=
  Insert "newsletter_subscribers"
    [newsletterPayload (value (email f)) (value (name f)) (now w)].

(** The insert into [prayer_requests] sent for the form [f]. *)
Definition prayer_insert (w : World) (f : Form) : DbOp :=
  Insert "prayer_requests"
    [prayerPayload w (randomUUID w 0) (value (subject f)) (value (message f))
       (now w)].

(** Whether the main insert went through: the first one, or the fallback
    after an error of the first. *)
Definition stored (w : World) (f : Form) : bool :=
  match answer w (website_insert w f) with
  | Returned (PgData _) => true
  | Returned (PgError _) => negb (failed (answer w (fallback_insert w f)))
  | Thrown _ => false
  end.

(** Whether the newsletter insert answered with a row. *)
Definition subscribed (w : World) (f : Form) : bool :=
  is_yes (newsletter f)
  && match answer w (newsletter_insert w f) with
     | Returned (PgData (Some (_ :: _))) => true
     | _ => false
     end.

(** [newsletterResult]: the row the newsletter insert answered with. *)
Definition newsletterResult_of (w : World) (f : Form) : option Object :=
  if is_yes (newsletter f)
  then match answer w (newsletter_insert w f) with
       | Returned (PgData (Some (first :: _))) => Some first
       | _ => None
       end
  else None.

(** Whether a name has a space in it. *)
Fixpoint has_space (s : string) : bool :=
  match s with
  | EmptyString => false
  | String c rest => Ascii.eqb c " "%char || has_space rest
  end.

End ContactTrace.

(** ** What a planned-visit submission holds *)

Module VisitTrace.

Import PlannedVisits.

(** The guard of the handler: the five required fields are there and not
    empty. *)
Definition required_present (f : PlannedVisitFormData) : bool :=
  truthy_opt (firstName f) && truthy_opt (lastName f) && truthy_opt (email f)
  && truthy_opt (eventType f) && truthy_opt (preferredDate f).

(** The search for the contact of the form. *)
Definition contact_search (f : PlannedVisitFormData) : DbOp :=
  Select "contacts" "email" (value (email f)).

(** The insert of a new contact for the form. *)
Definition contact_insert (w : World) (f : PlannedVisitFormData) : DbOp :=
  Insert "contacts"
    [contactRow f w (value (firstName f)) (value (lastName f)) (value (email f))].

(** The date and time handed to [new Date]. *)
Definition date_text (f : PlannedVisitFormData) : string :=
  value (preferredDate f) ++ "T" ++ or_default (preferredTime f) "10:00".

(** The labels of [eventTypeMap]. *)
Definition labels : list string := map snd eventTypeMap.

End VisitTrace.

(** ** More concrete stores *)

Module Scenarios.

(** A webhook endpoint whose database rejects every write. *)
Definition webhook_readonly : StripeWebhook.World :=
  {| StripeWebhook.constructEvent :=
       fun _ _ => Returned (StripeWebhook.customer_subscription_deleted
                              (StripeWebhook.mkSubscription "sub_1" "canceled" None));
     StripeWebhook.createServerSupabaseClient := Returned tt;
     StripeWebhook.retrieve_subscription :=
       fun id => Returned (StripeWebhook.mkSubscription id "active" None);
     StripeWebhook.answer := fun _ => Returned (PgError Examples.rls_denied);
     StripeWebhook.now := "2030-06-01T08:00:00.000Z";
     StripeWebhook.in_thirty_days := "2030-07-01T08:00:00.000Z" |}.

(** A webhook endpoint without database, receiving an event it does not
    handle. *)
Definition webhook_offline : StripeWebhook.World :=
  {| StripeWebhook.constructEvent :=
       fun _ _ => Returned (StripeWebhook.unhandled "charge.refunded");
     StripeWebhook.createServerSupabaseClient :=
       Thrown (Error_ "Missing Supabase environment variables");
     StripeWebhook.retrieve_subscription := fun _ => Thrown Examples.timed_out;
     StripeWebhook.answer := fun _ => Thrown Examples.timed_out;
     StripeWebhook.now := "2030-06-01T08:00:00.000Z";
     StripeWebhook.in_thirty_days := "2030-07-01T08:00:00.000Z" |}.

Definition prayer : Contact.Form :=
  {| Contact.name := Some " Grace";
     Contact.email := Some "grace@example.org";
     Contact.phone := Some "";
     Contact.subject := Some "Pray for us";
     Contact.category := Some "Prayer Request";
     Contact.message := Some "For my family.";
     Contact.newsletter := Some (JStr "true");
     Contact.prayer := None |}.

Definition prayer_request : Contact.Request :=
  {| Contact.json := Returned prayer |}.

Definition incomplete : Contact.Form :=
  {| Contact.name := Some "Ada";
     Contact.email := Some "";
     Contact.phone := None;
     Contact.subject := Some "Hello";
     Contact.category := None;
     Contact.message := None;
     Contact.newsletter := Some (JBool true);
     Contact.prayer := Some (JBool true) |}.

(** A database that stores every row. *)
Definition contact_world : Contact.World :=
  {| Contact.randomUUID := Examples.uuids;
     Contact.now := "2030-06-01T08:00:00.000Z";
     Contact.answer := fun _ => Examples.stored "row" |}.

(** A visitor the database knows already. *)
Definition returning_visitor : PlannedVisits.World :=
  {| PlannedVisits.createServerSupabaseClient := Returned tt;
     PlannedVisits.select_contact := fun _ => Returned (PgData (Some "c7"));
     PlannedVisits.answer_insert := fun _ => Returned (PgData (Some "v1"));
     PlannedVisits.toISOString := fun _ => Returned "2030-06-09T10:00:00.000Z";
     PlannedVisits.clock := Examples.evening;
     PlannedVisits.PostgrestError_is_Error := false |}.

(** The search for the contact fails. *)
Definition contacts_unreadable : PlannedVisits.World :=
  {| PlannedVisits.createServerSupabaseClient := Returned tt;
     PlannedVisits.select_contact := fun _ => Returned (PgError Examples.rls_denied);
     PlannedVisits.answer_insert := fun _ => Returned (PgData (Some "v1"));
     PlannedVisits.toISOString := fun _ => Returned "2030-06-09T10:00:00.000Z";
     PlannedVisits.clock := Examples.evening;
     PlannedVisits.PostgrestError_is_Error := false |}.

(** The date of the form cannot be read. *)
Definition bad_date : PlannedVisits.World :=
  {| PlannedVisits.createServerSupabaseClient := Returned tt;
     PlannedVisits.select_contact := fun _ => Returned (PgError Examples.no_rows);
     PlannedVisits.answer_insert := fun _ => Returned (PgData (Some "c1"));
     PlannedVisits.toISOString := fun _ => Thrown (Error_ "Invalid time value");
     PlannedVisits.clock := Examples.evening;
     PlannedVisits.PostgrestError_is_Error := false |}.

(** The events are read, the read of their images throws. *)
Definition events_images_down : Events.World :=
  Examples.events_store
    (Returned (PgData (Some [Examples.picnic; Examples.youth_camp])))
    (Thrown Examples.timed_out).

(** An event whose id names a member of [Object.prototype], and its
    image. *)
Definition builders_day : Events.EventRow :=
  Events.mkRow "constructor" "Builders Day" "2030-08-01T09:00:00" None None None.

Definition builders_photo : Events.EventImage :=
  Events.mkImage "i3" "constructor" "https://cdn.example/build.jpg" None 0%Z.

Definition events_with_builders : Events.World :=
  Examples.events_store
    (Returned (PgData (Some [Examples.picnic; builders_day])))
    (Returned (PgData (Some [builders_photo]))).

(** The page and its sections are read, the read of the funds throws. *)
Definition giving_funds_down : GivingPage.World :=
  Examples.giving_store (Returned (PgData (Some Examples.giving_row)))
    (Returned (PgData (Some [Examples.hero_section])))
    (Thrown Examples.timed_out).

(** A visit whose body has no [groupSize]. *)
Definition unsized_visit : PlannedVisits.PlannedVisitFormData :=
  {| PlannedVisits.firstName := Some "Ada";
     PlannedVisits.lastName := Some "Lovelace";
     PlannedVisits.email := Some "ada@example.org";
     PlannedVisits.phone := None;
     PlannedVisits.eventType := Some "sunday-service";
     PlannedVisits.preferredDate := Some "2030-06-09";
     PlannedVisits.preferredTime := None;
     PlannedVisits.groupSize := NaN;
     PlannedVisits.firstTimeVisitor := true;
     PlannedVisits.specialNeeds := None;
     PlannedVisits.howHeardAboutUs := None;
     PlannedVisits.additionalNotes := None |}.

Definition unsized_request : PlannedVisits.Request :=
  {| PlannedVisits.json := Returned unsized_visit |}.

(** The visitor fills the three panels and reaches the submit button. *)
Definition filling : list VisitForm.Action :=
  [ VisitForm.Type_ VisitForm.f_firstName "Ada";
    VisitForm.Type_ VisitForm.f_lastName "Lovelace";
    VisitForm.Type_ VisitForm.f_email "ada@example.org";
    VisitForm.ClickContinue;
    VisitForm.PickEvent 1;
    VisitForm.Type_ VisitForm.f_preferredDate "2030-06-09";
    VisitForm.SelectGroupSize 3;
    VisitForm.ClickContinue;
    VisitForm.Type_ VisitForm.f_howHeardAboutUs "Social Media" ].

Definition gift (anonymous : bool) (frequency : string) : Donations.Donation :=
  {| Donations.amount := Some (QArith_base.Qmake 25 1);
     Donations.currency := None;
     Donations.fundDesignation := Some "Missions";
     Donations.isAnonymous := Some anonymous;
     Donations.notes := None;
     Donations.donorEmail := Some "ada@example.org";
     Donations.donorName := Some "Ada Lovelace";
     Donations.frequency := Some frequency |}.

Definition no_gift : Donations.Donation :=
  {| Donations.amount := Some (QArith_base.Qmake (-5) 1);
     Donations.currency := None;
     Donations.fundDesignation := None;
     Donations.isAnonymous := None;
     Donations.notes := None;
     Donations.donorEmail := Some "ada@example.org";
     Donations.donorName := None;
     Donations.frequency := None |}.

Definition gift_request (d : Donations.Donation) : Donations.Request :=
  {| Donations.json := Returned d |}.

(** Every service answers. *)
Definition donation_world : Donations.World :=
  {| Donations.createServerSupabaseClient := Returned tt;
     Donations.select_contact := fun _ => Returned (PgError Examples.no_rows);
     Donations.answer_insert :=
       fun op =>
         if String.eqb (table_of op) "contacts"
         then Returned (PgData (Some "c1"))
         else Returned (PgData (Some "t1"));
     Donations.customers_list := fun _ => Returned [];
     Donations.customers_create := fun _ => Returned "cus_1";
     Donations.prices_create := fun _ => Returned "price_1";
     Donations.setupIntents_create :=
       fun _ => Returned (Donations.mkIntent "seti_1" (Some "seti_1_secret"));
     Donations.paymentIntents_create :=
       fun _ => Returned (Donations.mkIntent "pi_1" (Some "pi_1_secret"));
     Donations.cents := fun _ => 2500%Z;
     Donations.amount_text := fun _ => "25";
     Donations.now := "2030-06-01T08:00:00.000Z" |}.

End Scenarios.

(** ** The sections of the giving page *)

Module GivingSections.

Import GivingPage.

(** The props of the sections of a given type, in the order read; sections
    without props are left out. *)
Fixpoint props_of (ty : string) (sections : list SectionRow) : list Object :=
  match sections with
  | [] => []
  | section :: rest =>
      match props section with
      | Some p =>
          if String.eqb (type section) ty then p :: props_of ty rest
          else props_of ty rest
      | None => props_of ty rest
      end
  end.

(** The defaults overridden by a list of props, one after the other. *)
Definition overridden (defaults : Object) (overrides : list Object) : Object :=
  fold_left spread overrides defaults.

(** The last value bound to a key in a list of bindings. *)
Definition last_binding (b : Object) (k : string) : option Json :=
  obj_lookup (rev b) k.


(** The sections a read answered with, none when [data] is null. *)
Definition sections_of (sectionsData : option (list SectionRow))
  : list SectionRow :=
  match sectionsData with
  | Some sections => sections
  | None => []
  end.


End GivingSections.

(** ** The events of the webhook *)

Module WebhookEvents.

Import StripeWebhook.

(** The events whose handler has nothing to write: a failed invoice, a new
    subscription, an event the [switch] does not list, and a paid invoice
    that belongs to no subscription. *)
Definition needs_no_write (event : Event) : bool :=
  match event with
  | invoice_payment_failed _ => true
  | customer_subscription_created _ => true
  | unhandled _ => true
  | invoice_payment_succeeded o =>
      match or_null (subscription o) with
      | None => true
      | Some _ => false
      end
  | _ => false
  end.

(** The two tables the webhook writes to. *)
Definition donation_table (op : DbOp) : bool :=
  String.eqb (table_of op) "transactions"
  || String.eqb (table_of op) "recurring_donations".

Definition is_select (op : DbOp) : bool :=
  match op with
  | Select _ _ _ => true
  | _ => false
  end.

End WebhookEvents.

(** * Properties *)

(** ** The image map of the events route *)

Module ImageMapFacts.

Import Events.

Lemma obj_get_app_last {V} (o : list (string * V)) k v k' :
  obj_get (o ++ [(k, v)]) k' =
  match obj_get o k' with
  | Some x => Some x
  | None => if String.eqb k k' then Some v else None
  end.
Proof.
  induction o as [|[k0 v0] o IH]; simpl.
  - reflexivity.
  - destruct (String.eqb k0 k'); [reflexivity | exact IH].
Qed.

Lemma obj_get_push o k img k' :
  obj_get (obj_push o k img) k' =
  match obj_get o k' with
  | Some v => Some (if String.eqb k k' then v ++ [img] else v)
  | None => None
  end.
Proof.
  induction o as [|[k0 v0] o IH]; simpl.
  - reflexivity.
  - destruct (String.eqb k0 k) eqn:Ek; simpl.
    + apply String.eqb_eq in Ek. subst k0.
      destruct (String.eqb k k') eqn:Ek'; [reflexivity|].
      destruct (obj_get o k'); reflexivity.
    + destruct (String.eqb k0 k') eqn:Ek'.
      * apply String.eqb_eq in Ek'. subst k0. rewrite String.eqb_sym, Ek.
        reflexivity.
      * exact IH.
Qed.

Lemma head_of_step acc img acc' k :
  group_step acc img = Returned acc' ->
  head_of acc' k =
  match head_of acc k with
  | Some x => Some x
  | None => if String.eqb (event_id img) k then Some img else None
  end.
Proof.
  unfold head_of, group_step.
  destruct (obj_get acc (event_id img)) as [v|] eqn:Eacc.
  - intros H. injection H as <-. rewrite obj_get_push.
    destruct (String.eqb (event_id img) k) eqn:Ek.
    + apply String.eqb_eq in Ek. rewrite <- Ek, Eacc.
      destruct v; reflexivity.
    + destruct (obj_get acc k) as [[|x l]|]; reflexivity.
  - destruct (inherited (event_id img)); [discriminate|].
    intros H. injection H as <-. rewrite obj_get_push, obj_get_app_last.
    destruct (String.eqb (event_id img) k) eqn:Ek.
    + apply String.eqb_eq in Ek. rewrite <- Ek, Eacc. reflexivity.
    + destruct (obj_get acc k) as [[|x l]|]; reflexivity.
Qed.

(** Once the reducer has thrown, the remaining images are not visited. *)
Lemma fold_group_thrown images e :
  fold_left (fun acc img => a <- acc ;; group_step a img) images (Thrown e)
  = Thrown e.
Proof. induction images as [|img images IH]; [reflexivity | exact IH]. Qed.

Lemma head_of_fold images : forall acc o k,
  fold_left (fun acc img => a <- acc ;; group_step a img) images (Returned acc)
  = Returned o ->
  head_of o k =
  match head_of acc k with
  | Some x => Some x
  | None => first_image images k
  end.
Proof.
  induction images as [|img images IH]; intros acc o k; simpl.
  - intros H. injection H as <-. destruct (head_of acc k); reflexivity.
  - destruct (group_step acc img) as [acc'|e] eqn:Hstep.
    + intros H. rewrite (IH acc' o k H), (head_of_step acc img acc' k Hstep).
      destruct (head_of acc k); [reflexivity|].
      destruct (String.eqb (event_id img) k); reflexivity.
    + rewrite fold_group_thrown. discriminate.
Qed.

Lemma imageMap_get_fill o k :
  imageMap_get (fill_imageMap o) k = head_of o k.
Proof.
  unfold imageMap_get, head_of, fill_imageMap.
  induction o as [|[k0 v0] o IH]; simpl.
  - reflexivity.
  - destruct (String.eqb k0 k); [destruct v0; reflexivity | exact IH].
Qed.

(** Looking an event up in the map gives the first image received for it. *)
Lemma imageMap_get_first images m k :
  build_imageMap images = Returned m ->
  imageMap_get m k =
  first_image (match images with Some l => l | None => [] end) k.
Proof.
  destruct images as [[|i rest]|];
    try (intros H; injection H as <-; reflexivity).
  unfold build_imageMap.
  destruct (imagesByEvent (i :: rest)) as [o|e] eqn:Hfold; [|discriminate].
  intros H. injection H as <-. unfold imagesByEvent in Hfold.
  rewrite imageMap_get_fill, (head_of_fold _ _ _ k Hfold). reflexivity.
Qed.

(** Images that name no inherited member are grouped without a throw. *)
Lemma fold_group_plain images : forall acc,
  plain_ids images ->
  exists o,
    fold_left (fun acc img => a <- acc ;; group_step a img) images (Returned acc)
    = Returned o.
Proof.
  induction images as [|img images IH]; intros acc Hplain; simpl.
  - now exists acc.
  - inversion Hplain as [|? ? Himg Hrest]; subst.
    unfold group_step at 2. rewrite Himg.
    destruct (obj_get acc (event_id img)); now apply IH.
Qed.

Lemma build_imageMap_plain imgres :
  plain_ids (rows_of imgres) -> exists m, build_imageMap (Supabase.data imgres) = Returned m.
Proof.
  unfold rows_of, build_imageMap.
  destruct (Supabase.data imgres) as [[|i rest]|]; intros Hplain;
    try (now eexists).
  destruct (fold_group_plain (i :: rest) [] Hplain) as [o Ho].
  change (imagesByEvent (i :: rest) = Returned o) in Ho.
  cbv beta iota. rewrite Ho. now eexists.
Qed.

(** The grouping throws only on an image that names an inherited member. *)
Lemma fold_group_throws images : forall acc e,
  fold_left (fun acc img => a <- acc ;; group_step a img) images (Returned acc)
  = Thrown e ->
  exists img, In img images /\ inherited (event_id img) = true.
Proof.
  induction images as [|img images IH]; intros acc e; simpl; [discriminate|].
  destruct (group_step acc img) as [acc'|e'] eqn:Hstep.
  - intros H. destruct (IH acc' e H) as (img' & Hin & Hinh).
    exists img'. split; [now right | exact Hinh].
  - intros _. exists img. split; [now left|].
    unfold group_step in Hstep.
    destruct (obj_get acc (event_id img)); [discriminate|].
    destruct (inherited (event_id img)); [reflexivity | discriminate].
Qed.

Lemma build_imageMap_throws imgres e :
  build_imageMap (Supabase.data imgres) = Thrown e ->
  exists img, In img (rows_of imgres) /\ inherited (event_id img) = true.
Proof.
  unfold rows_of, build_imageMap.
  destruct (Supabase.data imgres) as [[|i rest]|]; try discriminate.
  cbv beta iota.
  destruct (imagesByEvent (i :: rest)) as [o|e'] eqn:Hfold; [discriminate|].
  intros _. exact (fold_group_throws _ _ _ Hfold).
Qed.

Lemma or_default_cases s d :
  or_default s d =
  match s with
  | Some x => if String.eqb x "" then d else x
  | None => d
  end.
Proof.
  destruct s as [x|]; [|reflexivity]. unfold or_default, truthy.
  destruct (String.eqb x ""); reflexivity.
Qed.

(** The transform of the route is the enrichment the specification
    describes. *)
Lemma transform_enriched imgres m row :
  build_imageMap (Supabase.data imgres) = Returned m ->
  transform m row = enriched (rows_of imgres) row.
Proof.
  intros Hm. unfold transform, enriched, rows_of.
  rewrite (imageMap_get_first _ _ _ Hm), !or_default_cases. reflexivity.
Qed.

Lemma getEventGradient_listed name id : In (getEventGradient name id) gradients.
Proof.
  unfold getEventGradient. apply nth_In.
  apply Nat.mod_upper_bound. discriminate.
Qed.

End ImageMapFacts.

(** ** The events route, case by case *)

Module EventsFacts.

Import Events.

Lemma events_guard_is_configured w :
  negb (truthy_opt (NEXT_PUBLIC_SUPABASE_URL w))
  || negb (truthy_opt (NEXT_PUBLIC_SUPABASE_ANON_KEY w))
  = negb (configured w).
Proof. unfold configured. now rewrite negb_andb. Qed.

Ltac enter w :=
  unfold GET, GET_try; rewrite (events_guard_is_configured w).

Lemma events_GET_unavailable w msg : Unavailable w msg -> GET w = fallback msg.
Proof.
  intros [Hc | e Hc Hcl | err Hc Hcl Hq]; enter w; rewrite Hc; simpl.
  - reflexivity.
  - rewrite Hcl. reflexivity.
  - rewrite Hcl, Hq. reflexivity.
Qed.

Lemma events_GET_empty w :
  Empty w -> GET w = fallback "Using default events - No upcoming events found".
Proof.
  intros (Hc & Hcl & [Hq | Hq]); enter w; rewrite Hc, Hcl, Hq; reflexivity.
Qed.

Lemma events_GET_fetched w rows imgres m :
  Fetched w rows ->
  select_event_images w (map row_id rows) = Returned imgres ->
  build_imageMap (Supabase.data imgres) = Returned m ->
  GET w =
  Http.json
    {| events := map (transform m) rows;
       source := "database";
       message := "Loaded " ++ nat_to_string (length rows)
                  ++ " upcoming events from database" |}.
Proof.
  intros (Hc & Hcl & Hq & Hne) Himg Hm. enter w. rewrite Hc, Hcl, Hq. simpl.
  destruct rows as [|r rows]; [congruence|].
  rewrite Himg. cbn [Js.bind]. rewrite Hm. simpl. now rewrite length_map.
Qed.

Lemma events_GET_try_raises w e : Raises w e -> GET_try w = Thrown e.
Proof.
  intros [Hc Hcl Hq | rows (Hc & Hcl & Hq & Hne) Himg
          | rows imgres (Hc & Hcl & Hq & Hne) Himg Hm];
    unfold GET_try; rewrite (events_guard_is_configured w), Hc, Hcl, Hq; simpl.
  - reflexivity.
  - destruct rows as [|r rows]; [congruence|]. rewrite Himg. reflexivity.
  - destruct rows as [|r rows]; [congruence|]. rewrite Himg. cbn [Js.bind].
    rewrite Hm. reflexivity.
Qed.

(** The four states are all there is. *)
Lemma events_store_states w :
  (exists msg, Unavailable w msg)
  \/ Empty w
  \/ (exists rows imgres m,
        Fetched w rows
        /\ select_event_images w (map row_id rows) = Returned imgres
        /\ build_imageMap (Supabase.data imgres) = Returned m)
  \/ (exists e, Raises w e).
Proof.
  destruct (configured w) eqn:Hc.
  2: { left. eexists. now apply not_configured. }
  destruct (createServerSupabaseClient w) as [[]|e] eqn:Hcl.
  2: { left. eexists. now apply (client_failed w e). }
  destruct (select_events w (now w)) as [[[rows|]|err]|e] eqn:Hq.
  - destruct rows as [|r rows].
    + right; left. repeat split; auto.
    + assert (Hf : Fetched w (r :: rows))
        by (repeat split; auto; discriminate).
      destruct (select_event_images w (map row_id (r :: rows))) as [imgres|e] eqn:Hi.
      * destruct (build_imageMap (Supabase.data imgres)) as [m|e] eqn:Hm.
        -- right; right; left. now exists (r :: rows), imgres, m.
        -- right; right; right. exists e.
           now apply (grouping_raises w e (r :: rows) imgres).
      * right; right; right. exists e.
        now apply (images_read_raises w e (r :: rows)).
  - right; left. repeat split; auto.
  - left. eexists. now apply (query_failed w err).
  - right; right; right. exists e. now apply events_read_raises.
Qed.

Lemma events_GET_try_thrown_raises w e : GET_try w = Thrown e -> Raises w e.
Proof.
  intros H.
  destruct (events_store_states w)
    as [[msg Hu] | [He | [(rows & imgres & m & Hf & Hi & Hm) | [e' Hr]]]].
  - exfalso. unfold GET_try in H. rewrite (events_guard_is_configured w) in H.
    destruct Hu as [Hc | e0 Hc Hcl | err Hc Hcl Hq]; rewrite Hc in H; simpl in H.
    + discriminate.
    + rewrite Hcl in H. discriminate.
    + rewrite Hcl, Hq in H. discriminate.
  - exfalso. destruct He as (Hc & Hcl & [Hq | Hq]);
      unfold GET_try in H; rewrite (events_guard_is_configured w), Hc, Hcl, Hq in H;
      discriminate.
  - exfalso. destruct Hf as (Hc & Hcl & Hq & Hne).
    unfold GET_try in H. rewrite (events_guard_is_configured w), Hc, Hcl, Hq in H.
    simpl in H. destruct rows; [congruence|]. rewrite Hi in H.
    cbn [Js.bind] in H. rewrite Hm in H. discriminate.
  - rewrite (events_GET_try_raises w e' Hr) in H. injection H as ->. exact Hr.
Qed.

End EventsFacts.

(** ** The tenant-settings route, case by case *)

Module TenantFacts.

Import TenantSettings.

Lemma tenant_guard_is_configured w :
  negb (truthy_opt (NEXT_PUBLIC_SUPABASE_URL w))
  || negb (truthy_opt (NEXT_PUBLIC_SUPABASE_ANON_KEY w))
  = negb (configured w).
Proof. unfold configured. now rewrite negb_andb. Qed.

Lemma tenant_GET_unconfigured w : configured w = false -> GET w = refused_unconfigured.
Proof.
  intros Hc. unfold GET, GET_try. rewrite (tenant_guard_is_configured w), Hc. reflexivity.
Qed.

Lemma tenant_GET_answered w r :
  Answered w r ->
  GET w =
  match r with
  | PgError err =>
      if is_rls_violation err
      then defaults w "Using default tenant settings - database not accessible" None
      else Http.json_with (Failed (Supabase.message err) None) 500
  | PgData None | PgData (Some []) =>
      defaults w "No tenant settings found, using defaults" None
  | PgData (Some (first :: _)) =>
      Http.json (Resolved true first "Tenant settings found" "database" None)
  end.
Proof.
  intros (Hc & Hcl & Hq). unfold GET, GET_try.
  rewrite (tenant_guard_is_configured w), Hc. simpl. rewrite Hcl. simpl. rewrite Hq. simpl.
  destruct r as [[[|first rest]|]|err]; simpl; try reflexivity.
  destruct (is_rls_violation err); reflexivity.
Qed.

Lemma tenant_GET_try_raises w e : Raises w e -> GET_try w = Thrown e.
Proof.
  intros [Hc Hcl | Hc Hcl Hq]; unfold GET_try;
    rewrite (tenant_guard_is_configured w), Hc; simpl; rewrite Hcl; simpl.
  - reflexivity.
  - rewrite Hq. reflexivity.
Qed.

Lemma tenant_store_states w :
  configured w = false \/ (exists r, Answered w r) \/ (exists e, Raises w e).
Proof.
  destruct (configured w) eqn:Hc; [right | now left].
  destruct (createClient w (url_of w) (key_of w)) as [[]|e] eqn:Hcl.
  - destruct (select_tenant_settings w (url_of w) (key_of w)) as [r|e] eqn:Hq.
    + left. exists r. repeat split; assumption.
    + right. exists e. now apply read_raises.
  - right. exists e. now apply client_raises.
Qed.

Lemma tenant_GET_try_thrown_raises w e : GET_try w = Thrown e -> Raises w e.
Proof.
  intros H. destruct (tenant_store_states w) as [Hc | [[r Ha] | [e' Hr]]].
  - unfold GET_try in H. rewrite (tenant_guard_is_configured w), Hc in H. discriminate.
  - exfalso. destruct Ha as (Hc & Hcl & Hq). unfold GET_try in H.
    rewrite (tenant_guard_is_configured w), Hc in H. simpl in H.
    rewrite Hcl in H. simpl in H. rewrite Hq in H. simpl in H.
    destruct r as [[[|first rest]|]|err]; simpl in H; try discriminate.
    destruct (is_rls_violation err); discriminate.
  - rewrite (tenant_GET_try_raises w e' Hr) in H. injection H as ->. exact Hr.
Qed.

End TenantFacts.

(** ** The giving-page route, case by case *)

Module GivingFacts.

Import GivingPage.

Lemma giving_apply_section_keeps c section :
  source (apply_section c section) = source c
  /\ fund_designations (apply_section c section) = fund_designations c.
Proof.
  unfold apply_section. destruct (props section); [|now split].
  destruct (String.eqb (type section) "hero"); [now split|].
  destruct (String.eqb (type section) "giving_methods"); [now split|].
  destruct (String.eqb (type section) "impact"); now split.
Qed.

Lemma giving_fold_sections_keeps sections : forall c,
  source (fold_left apply_section sections c) = source c
  /\ fund_designations (fold_left apply_section sections c) = fund_designations c.
Proof.
  induction sections as [|s sections IH]; intros c; simpl.
  - now split.
  - destruct (IH (apply_section c s)) as [H1 H2].
    destruct (giving_apply_section_keeps c s) as [H3 H4].
    split; congruence.
Qed.

Lemma giving_structuredContent_source sections fres :
  source (structuredContent sections fres) = "database".
Proof.
  unfold structuredContent. destruct sections as [l|]; [|reflexivity].
  now destruct (giving_fold_sections_keeps l
    {| hero := default_hero; giving_methods := default_giving_methods;
       fund_designations := fundDesignations_of fres; impact := default_impact;
       source := "database" |}).
Qed.

Lemma giving_structuredContent_funds sections fres :
  fund_designations (structuredContent sections fres) = fundDesignations_of fres.
Proof.
  unfold structuredContent. destruct sections as [l|]; [|reflexivity].
  now destruct (giving_fold_sections_keeps l
    {| hero := default_hero; giving_methods := default_giving_methods;
       fund_designations := fundDesignations_of fres; impact := default_impact;
       source := "database" |}).
Qed.

Lemma giving_fundDesignations_nonempty fres : fundDesignations_of fres <> [].
Proof.
  unfold fundDesignations_of.
  destruct (Supabase.error fres); [discriminate|].
  destruct (Supabase.data fres) as [[|f rest]|]; discriminate.
Qed.

Lemma giving_GET_page_answered w r :
  PageAnswered w r ->
  match r with
  | PgData (Some _) => True
  | _ => GET w = Http.json (defaultGivingPageContent "default")
  end.
Proof.
  intros (Hcl & Hp). destruct r as [[page|]|err]; [exact I| |];
    unfold GET, GET_try; rewrite Hcl; simpl; rewrite Hp; reflexivity.
Qed.

Lemma giving_GET_sections_answered w page r :
  SectionsAnswered w page r ->
  match r with
  | PgError _ => GET w = Http.json (defaultGivingPageContent "default")
  | PgData sections =>
      forall fres, select_funds w = Returned fres ->
        GET w = Http.json (structuredContent sections fres)
  end.
Proof.
  intros ((Hcl & Hp) & Hs). destruct r as [sections|err].
  - intros fres Hf. unfold GET, GET_try. rewrite Hcl; simpl. rewrite Hp; simpl.
    rewrite Hs; simpl. rewrite Hf. reflexivity.
  - unfold GET, GET_try. rewrite Hcl; simpl. rewrite Hp; simpl.
    rewrite Hs. reflexivity.
Qed.

Lemma giving_GET_try_raises w e : Raises w e -> GET_try w = Thrown e.
Proof.
  intros [Hcl | Hcl Hp | page (Hcl & Hp) Hs | page sections ((Hcl & Hp) & Hs) Hf];
    unfold GET_try; rewrite Hcl; simpl; try reflexivity; rewrite Hp; simpl;
    try reflexivity; rewrite Hs; simpl; try reflexivity.
  rewrite Hf. reflexivity.
Qed.

Lemma giving_store_states w :
  (exists r, PageAnswered w r /\ match r with PgData (Some _) => False | _ => True end)
  \/ (exists page err, SectionsAnswered w page (PgError err))
  \/ (exists page sections fres,
        SectionsAnswered w page (PgData sections) /\ select_funds w = Returned fres)
  \/ (exists e, Raises w e).
Proof.
  destruct (createServerSupabaseClient w) as [[]|e] eqn:Hcl.
  2: { do 3 right. exists e. now apply client_raises. }
  destruct (select_page w) as [r|e] eqn:Hp.
  2: { do 3 right. exists e. now apply page_read_raises. }
  destruct r as [[page|]|err].
  - destruct (select_sections w (page_id page)) as [[sections|err]|e] eqn:Hs.
    + destruct (select_funds w) as [fres|e] eqn:Hf.
      * right; right; left. exists page, sections, fres. repeat split; assumption.
      * do 3 right. exists e.
        apply (funds_read_raises w e page sections); [repeat split|]; assumption.
    + right; left. exists page, err. repeat split; assumption.
    + do 3 right. exists e.
      apply (sections_read_raises w e page); [split|]; assumption.
  - left. exists (PgData None). repeat split; assumption.
  - left. exists (PgError err). repeat split; assumption.
Qed.

Lemma giving_GET_try_thrown_raises w e : GET_try w = Thrown e -> Raises w e.
Proof.
  intros H.
  destruct (giving_store_states w)
    as [(r & (Hcl & Hp) & Hr) | [(page & err & (Hcl & Hp) & Hs)
       | [(page & sections & fres & ((Hcl & Hp) & Hs) & Hf) | [e' Hr]]]].
  - exfalso. unfold GET_try in H. rewrite Hcl in H; simpl in H. rewrite Hp in H.
    destruct r as [[page|]|err]; [contradiction| |]; discriminate.
  - exfalso. unfold GET_try in H. rewrite Hcl in H; simpl in H.
    rewrite Hp in H; simpl in H. rewrite Hs in H. discriminate.
  - exfalso. unfold GET_try in H. rewrite Hcl in H; simpl in H.
    rewrite Hp in H; simpl in H. rewrite Hs in H; simpl in H. rewrite Hf in H.
    discriminate.
  - rewrite (giving_GET_try_raises w e' Hr) in H. injection H as ->. exact Hr.
Qed.

End GivingFacts.

(** ** The resolution facade *)

Module Resolution.

(** C1, as stated, fails: the tenant-settings route surfaces an error
    response when the query fails for a reason other than row-level
    security.  With the store unreachable it answers status 500 with the
    error message and no data. *)
Lemma tenant_settings_surfaces_query_error :
  TenantSettings.GET Examples.tenant_unreachable
  = Http.json_with (TenantSettings.Failed "TypeError: fetch failed" None) 500
  /\ TenantSettings.is_resolved (TenantSettings.GET Examples.tenant_unreachable) = false.
Proof. split; reflexivity. Qed.

(** C1, amended: no route raises.  The events and giving-page routes answer
    every state of the store (missing configuration, client failure, query
    error, thrown exception) with status 200 and an envelope that carries
    data: at least one event, at least one fund designation.  The
    tenant-settings route answers with an envelope carrying settings,
    except when the configuration is missing or the query fails for a
    reason other than row-level security: then, and only then, it answers
    status 500 with an error and no data. *)
Theorem facade_total :
  (forall w, exists evs src msg,
      Events.GET w = Http.json {| Events.events := evs; Events.source := src;
                                  Events.message := msg |}
      /\ evs <> [])
  /\ (forall w, exists c,
        GivingPage.GET w = Http.json c /\ GivingPage.fund_designations c <> [])
  /\ (forall w,
        if TenantSettings.is_resolved (TenantSettings.GET w)
        then ~ TenantSettings.Refused w
             /\ exists d msg src note,
                 TenantSettings.GET w
                 = Http.json (TenantSettings.Resolved true d msg src note)
        else TenantSettings.Refused w
             /\ Http.status (TenantSettings.GET w) = 500%Z
             /\ exists err ok,
                 Http.body (TenantSettings.GET w) = TenantSettings.Failed err ok).
Proof.
  split; [|split].
  - intros w.
    destruct (EventsFacts.events_store_states w)
      as [[msg Hu] | [He | [(rows & imgres & m & Hf & Hi & Hm) | [e Hr]]]].
    + rewrite (EventsFacts.events_GET_unavailable w msg Hu).
      do 3 eexists. split; [reflexivity | discriminate].
    + rewrite (EventsFacts.events_GET_empty w He).
      do 3 eexists. split; [reflexivity | discriminate].
    + rewrite (EventsFacts.events_GET_fetched w rows imgres m Hf Hi Hm).
      do 3 eexists. split; [reflexivity|].
      destruct Hf as (_ & _ & _ & Hne). destruct rows; [congruence | discriminate].
    + unfold Events.GET. rewrite (EventsFacts.events_GET_try_raises w e Hr).
      do 3 eexists. split; [reflexivity | discriminate].
  - intros w.
    destruct (GivingFacts.giving_store_states w)
      as [(r & Hp & Hr) | [(page & err & Hs)
         | [(page & sections & fres & Hs & Hf) | [e Hr]]]].
    + pose proof (GivingFacts.giving_GET_page_answered w r Hp) as G.
      destruct r as [[page|]|err]; [contradiction| |];
        rewrite G; eexists; (split; [reflexivity | discriminate]).
    + rewrite (GivingFacts.giving_GET_sections_answered w page _ Hs).
      eexists; split; [reflexivity | discriminate].
    + rewrite (GivingFacts.giving_GET_sections_answered w page _ Hs fres Hf).
      eexists; split; [reflexivity|].
      rewrite GivingFacts.giving_structuredContent_funds.
      apply GivingFacts.giving_fundDesignations_nonempty.
    + unfold GivingPage.GET. rewrite (GivingFacts.giving_GET_try_raises w e Hr).
      eexists; split; [reflexivity | discriminate].
  - intros w.
    destruct (TenantFacts.tenant_store_states w) as [Hc | [[r Ha] | [e Hr]]].
    + rewrite (TenantFacts.tenant_GET_unconfigured w Hc). simpl.
      split; [now left|]. split; [reflexivity|]. now do 2 eexists.
    + rewrite (TenantFacts.tenant_GET_answered w r Ha).
      assert (Hcfg : TenantSettings.configured w = true) by apply Ha.
      assert (Hsame : forall err, TenantSettings.Answered w (PgError err) ->
                                  r = PgError err).
      { intros err (_ & _ & Hq). destruct Ha as (_ & _ & Hq').
        rewrite Hq in Hq'. now injection Hq' as <-. }
      destruct r as [[[|first rest]|]|err]; simpl.
      * split; [|now do 4 eexists].
        intros [Hc | (err & Hq & _)]; [congruence|].
        now specialize (Hsame err Hq).
      * split; [|now do 4 eexists].
        intros [Hc | (err & Hq & _)]; [congruence|].
        now specialize (Hsame err Hq).
      * split; [|now do 4 eexists].
        intros [Hc | (err & Hq & _)]; [congruence|].
        now specialize (Hsame err Hq).
      * destruct (TenantSettings.is_rls_violation err) eqn:Hrls; simpl.
        -- split; [|now do 4 eexists].
           intros [Hc | (err' & Hq & Hn)]; [congruence|].
           specialize (Hsame err' Hq). injection Hsame as <-. congruence.
        -- split; [right; now exists err|]. split; [reflexivity|].
           now do 2 eexists.
    + unfold TenantSettings.GET. rewrite (TenantFacts.tenant_GET_try_raises w e Hr). simpl.
      split; [|now do 4 eexists].
      intros [Hc | (err & (Hc & Hcl & Hq) & _)].
      * destruct Hr; congruence.
      * destruct Hr; congruence.
Qed.

(** C2, as stated, fails: in the events route the catch-all branch tags the
    envelope [default], not [error_fallback]. *)
Lemma events_catch_all_is_tagged_default :
  Events.GET_try Examples.events_throwing = Thrown Examples.timed_out
  /\ Events.source (Http.body (Events.GET Examples.events_throwing)) = "default"
  /\ Events.source (Http.body (Events.GET Examples.events_throwing))
     <> "error_fallback".
Proof. repeat split; try reflexivity. discriminate. Qed.

(** C2, amended: when a read (or the creation of the client, where it is
    inside the outer [try]) throws, or when, in the events route, the
    grouping of the images read throws, the catch-all branch returns the
    bundled default payload of the resource kind; the giving-page route
    tags it [error_fallback], the events and tenant-settings routes tag it
    [default].  The catch-all branch is entered in these cases only. *)
Theorem catch_all_returns_defaults :
  (forall w e, GivingPage.Raises w e ->
     GivingPage.GET w
     = Http.json {| GivingPage.hero := GivingPage.default_hero;
                    GivingPage.giving_methods := GivingPage.default_giving_methods;
                    GivingPage.fund_designations := GivingPage.default_fund_designations;
                    GivingPage.impact := GivingPage.default_impact;
                    GivingPage.source := "error_fallback" |})
  /\ (forall w e, Events.Raises w e ->
        Events.GET w
        = Http.json {| Events.events := Events.defaultEvents;
                       Events.source := "default";
                       Events.message := "Using default events - Unexpected error" |})
  /\ (forall w e, TenantSettings.Raises w e ->
        TenantSettings.GET w
        = Http.json (TenantSettings.Resolved true (TenantSettings.defaultSettings w)
                       "Error occurred, using default settings" "default"
                       (Some (if instanceof_Error e then exn_message e
                              else "Unknown error"))))
  /\ (forall w e, GivingPage.GET_try w = Thrown e <-> GivingPage.Raises w e)
  /\ (forall w e, Events.GET_try w = Thrown e <-> Events.Raises w e)
  /\ (forall w e, TenantSettings.GET_try w = Thrown e <-> TenantSettings.Raises w e).
Proof.
  repeat apply conj.
  - intros w e Hr.
    unfold GivingPage.GET. now rewrite (GivingFacts.giving_GET_try_raises w e Hr).
  - intros w e Hr.
    unfold Events.GET. now rewrite (EventsFacts.events_GET_try_raises w e Hr).
  - intros w e Hr.
    unfold TenantSettings.GET. now rewrite (TenantFacts.tenant_GET_try_raises w e Hr).
  - intros w e. split.
    + apply GivingFacts.giving_GET_try_thrown_raises.
    + apply GivingFacts.giving_GET_try_raises.
  - intros w e. split.
    + apply EventsFacts.events_GET_try_thrown_raises.
    + apply EventsFacts.events_GET_try_raises.
  - intros w e. split.
    + apply TenantFacts.tenant_GET_try_thrown_raises.
    + apply TenantFacts.tenant_GET_try_raises.
Qed.

Lemma catch_all_returns_defaults_witness :
  (GivingPage.Raises Examples.giving_unconfigured
     (Error_ "Missing Supabase environment variables")
   /\ GivingPage.source (Http.body (GivingPage.GET Examples.giving_unconfigured))
      = "error_fallback")
  /\ (Events.Raises Examples.events_throwing Examples.timed_out
      /\ Events.events (Http.body (Events.GET Examples.events_throwing))
         = Events.defaultEvents)
  /\ (Events.Raises Scenarios.events_with_builders
        (Error_ "acc[img.event_id].push is not a function")
      /\ Events.events (Http.body (Events.GET Scenarios.events_with_builders))
         = Events.defaultEvents)
  /\ (TenantSettings.Raises Examples.tenant_throwing Examples.timed_out
      /\ TenantSettings.GET Examples.tenant_throwing
         = TenantSettings.defaults Examples.tenant_throwing
             "Error occurred, using default settings" (Some "socket hang up")).
Proof.
  assert (Hg : GivingPage.Raises Examples.giving_unconfigured
                 (Error_ "Missing Supabase environment variables"))
    by (apply GivingPage.client_raises; reflexivity).
  assert (He : Events.Raises Examples.events_throwing Examples.timed_out)
    by (apply Events.events_read_raises; reflexivity).
  assert (Hb : Events.Raises Scenarios.events_with_builders
                 (Error_ "acc[img.event_id].push is not a function")).
  { apply (Events.grouping_raises _ _ [Examples.picnic; Scenarios.builders_day]
             (PgData (Some [Scenarios.builders_photo])));
      [|reflexivity | reflexivity].
    split; [|split; [|split]]; try reflexivity; discriminate. }
  assert (Ht : TenantSettings.Raises Examples.tenant_throwing Examples.timed_out)
    by (apply TenantSettings.read_raises; reflexivity).
  destruct catch_all_returns_defaults as (G & E & T & _).
  split; [|split; [|split]]; (split; [assumption|]).
  - rewrite (G _ _ Hg). reflexivity.
  - rewrite (E _ _ He). reflexivity.
  - rewrite (E _ _ Hb). reflexivity.
  - rewrite (T _ _ Ht). reflexivity.
Defined.

(** C3, as stated, fails: with the configuration missing, the
    tenant-settings route answers status 500 with an error and no default
    payload. *)
Lemma tenant_settings_refuses_missing_configuration :
  TenantSettings.configured Examples.tenant_unconfigured = false
  /\ TenantSettings.GET Examples.tenant_unconfigured
     = Http.json_with
         (TenantSettings.Failed "Database configuration missing" (Some false)) 500.
Proof. split; reflexivity. Qed.

(** C3, amended: in the events route, missing configuration, a failed
    client creation or a query error of any kind (store unreachable,
    policy rejection) yields exactly the 4 bundled default events, tagged
    [default], with a diagnostic message.  In the tenant-settings route a
    row-level-security rejection yields the default settings, tagged
    [default], with a message, while missing configuration and a query
    error of another kind (store unreachable) are answered with status 500
    and no data.  In the giving-page route an error of the
    page query or of the sections query yields the default content tagged
    [default]; that body has no message field. *)
Theorem unavailable_store_returns_defaults :
  (forall w msg, Events.Unavailable w msg ->
     Events.GET w
     = Http.json {| Events.events := Events.defaultEvents;
                    Events.source := "default";
                    Events.message := msg |}
     /\ length Events.defaultEvents = 4
     /\ msg <> "")
  /\ (forall w err,
        TenantSettings.Answered w (PgError err) ->
        TenantSettings.is_rls_violation err = true ->
        TenantSettings.GET w
        = Http.json (TenantSettings.Resolved true (TenantSettings.defaultSettings w)
                       "Using default tenant settings - database not accessible"
                       "default" None))
  /\ (forall w,
        TenantSettings.configured w = false ->
        TenantSettings.GET w
        = Http.json_with
            (TenantSettings.Failed "Database configuration missing" (Some false))
            500)
  /\ (forall w err,
        TenantSettings.Answered w (PgError err) ->
        TenantSettings.is_rls_violation err = false ->
        TenantSettings.GET w
        = Http.json_with (TenantSettings.Failed (Supabase.message err) None) 500)
  /\ (forall w err,
        GivingPage.PageAnswered w (PgError err) ->
        GivingPage.GET w = Http.json (GivingPage.defaultGivingPageContent "default"))
  /\ (forall w page err,
        GivingPage.SectionsAnswered w page (PgError err) ->
        GivingPage.GET w = Http.json (GivingPage.defaultGivingPageContent "default")).
Proof.
  repeat apply conj.
  - intros w msg Hu. rewrite (EventsFacts.events_GET_unavailable w msg Hu).
    split; [reflexivity|]. split; [reflexivity|].
    destruct Hu; discriminate.
  - intros w err Ha Hrls.
    rewrite (TenantFacts.tenant_GET_answered w _ Ha). simpl. now rewrite Hrls.
  - intros w Hc. exact (TenantFacts.tenant_GET_unconfigured w Hc).
  - intros w err Ha Hrls.
    rewrite (TenantFacts.tenant_GET_answered w _ Ha). simpl. now rewrite Hrls.
  - intros w err Hp. exact (GivingFacts.giving_GET_page_answered w _ Hp).
  - intros w page err Hs. exact (GivingFacts.giving_GET_sections_answered w page _ Hs).
Qed.

Lemma unavailable_store_returns_defaults_witness :
  (Events.Unavailable Examples.events_unreachable
     "Using default events - Database error: TypeError: fetch failed"
   /\ Events.events (Http.body (Events.GET Examples.events_unreachable))
      = Events.defaultEvents)
  /\ (Events.Unavailable Examples.events_unconfigured
        "Using default events - Supabase not configured"
      /\ Events.source (Http.body (Events.GET Examples.events_unconfigured))
         = "default")
  /\ (TenantSettings.Answered Examples.tenant_denied (PgError Examples.rls_denied)
      /\ TenantSettings.is_rls_violation Examples.rls_denied = true
      /\ TenantSettings.is_resolved (TenantSettings.GET Examples.tenant_denied) = true)
  /\ (GivingPage.PageAnswered Examples.giving_unreachable
        (PgError Examples.network_down)
      /\ GivingPage.source (Http.body (GivingPage.GET Examples.giving_unreachable))
         = "default").
Proof.
  assert (H1 : Events.Unavailable Examples.events_unreachable
                 "Using default events - Database error: TypeError: fetch failed")
    by (apply (Events.query_failed Examples.events_unreachable Examples.network_down);
        reflexivity).
  assert (H2 : Events.Unavailable Examples.events_unconfigured
                 "Using default events - Supabase not configured")
    by (apply Events.not_configured; reflexivity).
  assert (H3 : TenantSettings.Answered Examples.tenant_denied
                 (PgError Examples.rls_denied))
    by (split; [|split]; reflexivity).
  assert (H4 : GivingPage.PageAnswered Examples.giving_unreachable
                 (PgError Examples.network_down))
    by (split; reflexivity).
  destruct unavailable_store_returns_defaults as (E & T & _ & _ & G & _).
  split; [|split; [|split]].
  - split; [assumption|]. destruct (E _ _ H1) as [-> _]. reflexivity.
  - split; [assumption|]. destruct (E _ _ H2) as [-> _]. reflexivity.
  - split; [assumption|]. split; [reflexivity|].
    rewrite (T _ _ H3 eq_refl). reflexivity.
  - split; [assumption|]. rewrite (G _ _ H4). reflexivity.
Defined.

(** C5, as stated, fails: the message of the empty case is the route's own
    wording, not "No records found". *)
Lemma events_empty_message_differs :
  Events.Empty Examples.events_none
  /\ Events.message (Http.body (Events.GET Examples.events_none))
     = "Using default events - No upcoming events found"
  /\ Events.message (Http.body (Events.GET Examples.events_none))
     <> "No records found".
Proof.
  split; [|split].
  - split; [|split; [|left]]; reflexivity.
  - reflexivity.
  - discriminate.
Qed.

(** C5, amended: when the query goes through and finds no row, the data is
    exactly the bundled default payload of the resource kind and the tag
    is [default]; the message is the route's own: "Using default events -
    No upcoming events found" for events, "No tenant settings found, using
    defaults" for tenant settings, and none for the giving page (whose
    single-row read reports the absence of a row as an error or a null
    row). *)
Theorem empty_store_returns_defaults :
  (forall w, Events.Empty w ->
     Events.GET w
     = Http.json {| Events.events := Events.defaultEvents;
                    Events.source := "default";
                    Events.message :=
                      "Using default events - No upcoming events found" |})
  /\ (forall w,
        TenantSettings.Answered w (PgData (Some []))
        \/ TenantSettings.Answered w (PgData None) ->
        TenantSettings.GET w
        = Http.json (TenantSettings.Resolved true (TenantSettings.defaultSettings w)
                       "No tenant settings found, using defaults" "default" None))
  /\ (forall w,
        GivingPage.PageAnswered w (PgData None)
        \/ (exists err, GivingPage.PageAnswered w (PgError err)
                        /\ Supabase.code err = "PGRST116") ->
        GivingPage.GET w
        = Http.json {| GivingPage.hero := GivingPage.default_hero;
                       GivingPage.giving_methods := GivingPage.default_giving_methods;
                       GivingPage.fund_designations :=
                         GivingPage.default_fund_designations;
                       GivingPage.impact := GivingPage.default_impact;
                       GivingPage.source := "default" |}).
Proof.
  split; [|split].
  - intros w He. exact (EventsFacts.events_GET_empty w He).
  - intros w [Ha | Ha]; rewrite (TenantFacts.tenant_GET_answered w _ Ha); reflexivity.
  - intros w [Hp | (err & Hp & _)];
      exact (GivingFacts.giving_GET_page_answered w _ Hp).
Qed.

Lemma empty_store_returns_defaults_witness :
  (Events.Empty Examples.events_none
   /\ Events.events (Http.body (Events.GET Examples.events_none))
      = Events.defaultEvents)
  /\ (TenantSettings.Answered Examples.tenant_none (PgData (Some []))
      /\ TenantSettings.GET Examples.tenant_none
         = TenantSettings.defaults Examples.tenant_none
             "No tenant settings found, using defaults" None)
  /\ (GivingPage.PageAnswered Examples.giving_none (PgError Examples.no_rows)
      /\ GivingPage.source (Http.body (GivingPage.GET Examples.giving_none))
         = "default").
Proof.
  assert (H1 : Events.Empty Examples.events_none)
    by (split; [|split; [|left]]; reflexivity).
  assert (H2 : TenantSettings.Answered Examples.tenant_none (PgData (Some [])))
    by (split; [|split]; reflexivity).
  assert (H3 : GivingPage.PageAnswered Examples.giving_none (PgError Examples.no_rows))
    by (split; reflexivity).
  destruct empty_store_returns_defaults as (E & T & G).
  split; [|split].
  - split; [assumption|]. rewrite (E _ H1). reflexivity.
  - split; [assumption|]. rewrite (T _ (or_introl H2)). reflexivity.
  - split; [assumption|].
    rewrite (G _ (or_intror (ex_intro _ Examples.no_rows (conj H3 eq_refl)))).
    reflexivity.
Defined.

(** C6: when the events are fetched and the image read answers with an
    error or with no rows, the resolution is not aborted: the envelope is
    tagged [database], it carries one event per row, and every event has
    [primary_image] null. *)
Theorem failed_image_lookup_degrades w rows imgres :
  Events.Fetched w rows ->
  Events.select_event_images w (map Events.row_id rows) = Returned imgres ->
  (exists err, imgres = PgError err)
  \/ imgres = PgData (Some []) \/ imgres = PgData None ->
  Events.source (Http.body (Events.GET w)) = "database"
  /\ map Events.id (Events.events (Http.body (Events.GET w)))
     = map Events.row_id rows
  /\ Forall (fun ev => Events.primary_image ev = None)
       (Events.events (Http.body (Events.GET w))).
Proof.
  intros Hf Hi Hfail.
  assert (Hm : Events.build_imageMap (Supabase.data imgres) = Returned [])
    by (destruct Hfail as [[err ->] | [-> | ->]]; reflexivity).
  rewrite (EventsFacts.events_GET_fetched w rows imgres [] Hf Hi Hm). simpl.
  split; [reflexivity|]. split.
  - rewrite map_map. reflexivity.
  - apply Forall_forall. intros ev Hin.
    apply in_map_iff in Hin. destruct Hin as (row & <- & _).
    rewrite (ImageMapFacts.transform_enriched imgres [] row Hm).
    destruct Hfail as [[err ->] | [-> | ->]]; reflexivity.
Qed.

Lemma failed_image_lookup_degrades_witness :
  Events.Fetched Examples.events_without_images
    [Examples.picnic; Examples.youth_camp]
  /\ map Events.primary_image
       (Events.events (Http.body (Events.GET Examples.events_without_images)))
     = [None; None]
  /\ Events.source (Http.body (Events.GET Examples.events_without_images))
     = "database".
Proof.
  assert (H1 : Events.Fetched Examples.events_without_images
                 [Examples.picnic; Examples.youth_camp])
    by (split; [|split; [|split]]; try reflexivity; discriminate).
  destruct (failed_image_lookup_degrades Examples.events_without_images
              [Examples.picnic; Examples.youth_camp]
              (PgError Examples.network_down) H1 eq_refl
              (or_introl (ex_intro _ Examples.network_down eq_refl)))
    as (Hsrc & Hids & Hnull).
  split; [assumption|]. split; [reflexivity | exact Hsrc].
Defined.

(** C7: resolving twice against an unchanged store gives the same data,
    modulo the time-sensitive parts.  Events: at another time the response
    is the same as long as the date filter selects the same rows.  Tenant
    settings: with another clock the response is the same up to
    [created_at] and [updated_at].  The gradient and the type of a resolved
    event are functions of its row alone (the gradient of its id alone):
    they depend neither on the images nor on the time, and the gradient is
    one of the six listed. *)
Theorem resolve_deterministic :
  (forall w t,
     Events.select_events w t = Events.select_events w (Events.now w) ->
     Events.GET (Events.at_time w t) = Events.GET w)
  /\ (forall w c,
        TenantSettings.without_timestamps
          (TenantSettings.GET (TenantSettings.with_clock w c))
        = TenantSettings.without_timestamps (TenantSettings.GET w))
  /\ (forall m m' row,
        Events.gradient (Events.transform m row)
        = Events.gradient (Events.transform m' row)
        /\ Events.type (Events.transform m row)
           = Events.type (Events.transform m' row))
  /\ (forall name name' id,
        Events.getEventGradient name id = Events.getEventGradient name' id
        /\ In (Events.getEventGradient name id) Events.gradients).
Proof.
  split; [|split; [|split]].
  - intros w t Ht. unfold Events.GET, Events.GET_try, Events.at_time. simpl.
    rewrite Ht. reflexivity.
  - intros w c.
    unfold TenantSettings.GET, TenantSettings.GET_try, TenantSettings.with_clock,
      TenantSettings.url_of, TenantSettings.key_of. simpl.
    destruct (negb (truthy_opt (TenantSettings.NEXT_PUBLIC_SUPABASE_URL w))
              || negb (truthy_opt (TenantSettings.NEXT_PUBLIC_SUPABASE_ANON_KEY w)));
      [reflexivity|].
    destruct (TenantSettings.createClient w _ _) as [[]|e]; simpl; [|reflexivity].
    destruct (TenantSettings.select_tenant_settings w _ _)
      as [[[[|first rest]|]|err]|e]; simpl; try reflexivity.
    destruct (TenantSettings.is_rls_violation err); reflexivity.
  - intros m m' row. split; reflexivity.
  - intros name name' id. split; [reflexivity|].
    apply ImageMapFacts.getEventGradient_listed.
Qed.

Lemma resolve_deterministic_witness :
  Events.select_events Examples.events_two "2031-01-01T00:00:00.000Z"
  = Events.select_events Examples.events_two (Events.now Examples.events_two)
  /\ Events.GET (Events.at_time Examples.events_two "2031-01-01T00:00:00.000Z")
     = Events.GET Examples.events_two.
Proof.
  split; [reflexivity|].
  exact (proj1 resolve_deterministic Examples.events_two
           "2031-01-01T00:00:00.000Z" eq_refl).
Defined.

End Resolution.

(** ** The Stripe webhook *)

Module WebhookFacts.

Import StripeWebhook.

(** A verified [payment_intent.succeeded] event does reach the database:
    one update of [transactions]. *)
Lemma verified_payment_updates_transaction :
  exists values,
    POST Examples.webhook_world Examples.signed_request
    = (Http.json (Received true),
       [Update "transactions" values "stripe_payment_intent_id" "pi_1"]).
Proof. eexists. reflexivity. Qed.

(** C8: when the signature of a webhook request fails verification
    ([constructEvent] throws), the handler answers status 400 and sends no
    operation to the database. *)
Theorem bad_signature_rejected_without_database_operation w request payload e :
  text request = Returned payload ->
  constructEvent w payload (stripe_signature request) = Thrown e ->
  POST w request
  = (Http.json_with (Error "Webhook signature verification failed") 400, []).
Proof.
  intros Htext Hsig.
  unfold POST, POST_try, Effect.handle, Effect.bind, Effect.lift.
  rewrite Htext, Hsig. reflexivity.
Qed.

Lemma bad_signature_rejected_without_database_operation_witness :
  Http.status (fst (POST Examples.webhook_world Examples.forged_request)) = 400%Z
  /\ snd (POST Examples.webhook_world Examples.forged_request) = [].
Proof.
  rewrite (bad_signature_rejected_without_database_operation
             Examples.webhook_world Examples.forged_request "{}"
             (Error_ "No signatures found matching the expected signature for payload.")
             eq_refl eq_refl).
  split; reflexivity.
Defined.

End WebhookFacts.

(** ** Planned visits *)

Module PlannedVisitsFacts.

Import PlannedVisits.

Lemma planned_visit_rows_app a b :
  planned_visit_rows (a ++ b) = planned_visit_rows a ++ planned_visit_rows b.
Proof.
  induction a as [|op a IH]; [reflexivity|]. simpl.
  destruct op as [t rows| |]; auto.
  destruct (String.eqb t "planned_visits"); auto.
  now rewrite IH, app_assoc.
Qed.

Lemma row_companions f w k contactId eventName eventDate :
  let row := plannedVisitRow f w k contactId eventName eventDate in
  obj_lookup row "coming_with_others"
  = Some (JBool (greater_than_one (groupSize f)))
  /\ obj_lookup row "companions_count" = Some (max_0_minus_1 (groupSize f)).
Proof. destruct eventName; split; reflexivity. Qed.

(** Step 1 writes to [contacts] only. *)
Lemma find_or_create_contact_log w f fn ln em log :
  exists o ops,
    find_or_create_contact w f fn ln em log = (o, log ++ ops)
    /\ planned_visit_rows ops = [].
Proof.
  unfold find_or_create_contact, Effect.bind, Effect.send, Effect.throw, Effect.ret.
  destruct (select_contact w em) as [found|e]; [|now do 2 eexists].
  destruct (Supabase.error found) as [searchError|].
  - destruct (negb (String.eqb (Supabase.code searchError) "PGRST116"));
      [now do 2 eexists|].
    destruct (Supabase.data found); [now do 2 eexists|].
    destruct (answer_insert w _) as [created|e];
      [|rewrite <- app_assoc; now do 2 eexists].
    destruct (Supabase.error created); [rewrite <- app_assoc; now do 2 eexists|].
    destruct (Supabase.data created); rewrite <- app_assoc; now do 2 eexists.
  - destruct (Supabase.data found); [now do 2 eexists|].
    destruct (answer_insert w _) as [created|e];
      [|rewrite <- app_assoc; now do 2 eexists].
    destruct (Supabase.error created); [rewrite <- app_assoc; now do 2 eexists|].
    destruct (Supabase.data created); rewrite <- app_assoc; now do 2 eexists.
Qed.

(** Steps 2 to 4 send nothing and throw, or send one row built from the
    form; they succeed only in the second case. *)
Lemma create_visit_log w f et pd c log :
  (exists e, create_visit w f et pd c log = (Thrown e, log))
  \/ exists o eventDate,
       create_visit w f et pd c log
       = (o, log ++ [Insert "planned_visits"
                       [plannedVisitRow f w (snd c) (fst c) (eventName_of et)
                          eventDate]]).
Proof.
  unfold create_visit, Effect.bind, Effect.lift, Effect.send, Effect.throw, Effect.ret.
  destruct (toISOString w _) as [iso|e]; [right | left; now eexists].
  destruct (answer_insert w _) as [visit|e]; [|now do 2 eexists].
  destruct (Supabase.error visit); [now do 2 eexists|].
  destruct (Supabase.data visit); now do 2 eexists.
Qed.

(** What one request writes to [planned_visits]: nothing, and then it is
    not accepted, or one row built from the form. *)
Ltac refused := left; split; [reflexivity | intros H; cbv in H; discriminate H].

Lemma planned_visit_rows_of_POST w request :
  planned_visit_rows (snd (POST w request)) = []
  /\ Http.status (fst (POST w request)) <> 200%Z
  \/ exists f k contactId eventName eventDate,
       json request = Returned f
       /\ planned_visit_rows (snd (POST w request))
          = [plannedVisitRow f w k contactId eventName eventDate].
Proof.
  unfold POST, POST_try, Effect.handle.
  destruct (json request) as [f|e] eqn:Hjson;
    cbn [Effect.bind Effect.lift Effect.ret]; [|refused].
  destruct (firstName f) as [fn|]; [|refused].
  destruct (lastName f) as [ln|]; [|refused].
  destruct (email f) as [em|]; [|refused].
  destruct (eventType f) as [et|]; [|refused].
  destruct (preferredDate f) as [pd|]; [|refused].
  destruct (negb (truthy fn) || negb (truthy ln) || negb (truthy em)
            || negb (truthy et) || negb (truthy pd)); [refused|].
  destruct (createServerSupabaseClient w) as [[]|e];
    cbn [Effect.bind Effect.lift Effect.ret]; [|refused].
  unfold Effect.bind.
  destruct (find_or_create_contact_log w f fn ln em []) as (o & ops & -> & Hops).
  simpl app.
  destruct o as [c|e]; [|left; split; [exact Hops | intros H; cbv in H; discriminate H]].
  destruct (create_visit_log w f et pd c ops) as [[e ->] | (o & iso & ->)].
  - left; split; [exact Hops | intros H; cbv in H; discriminate H].
  - right. exists f, (snd c), (fst c), (eventName_of et), iso.
    split; [reflexivity|].
    assert (Hrows : planned_visit_rows
              (ops ++ [Insert "planned_visits"
                         [plannedVisitRow f w (snd c) (fst c) (eventName_of et) iso]])
            = [plannedVisitRow f w (snd c) (fst c) (eventName_of et) iso])
      by (rewrite planned_visit_rows_app, Hops; reflexivity).
    destruct o; exact Hrows.
Qed.

(** C10, as stated, fails: the handler does not check [groupSize].  A
    submission without it is accepted, and its row has [coming_with_others]
    false with a [companions_count] that is not 0 but null. *)
Lemma missing_group_size_counts_null :
  Http.status (fst (POST Examples.visits_world Scenarios.unsized_request))
  = 200%Z
  /\ exists row,
       planned_visit_rows (snd (POST Examples.visits_world Scenarios.unsized_request))
       = [row]
       /\ obj_lookup row "coming_with_others" = Some (JBool false)
       /\ obj_lookup row "companions_count" = Some JNull
       /\ obj_lookup row "companions_count"
          <> Some (JNum (QArith_base.inject_Z 0)).
Proof.
  split; [reflexivity|]. eexists. split; [reflexivity|].
  split; [reflexivity|]. split; [reflexivity | discriminate].
Qed.

(** C10, amended: every row that a planned-visit submission inserts into
    [planned_visits] is made from the [groupSize] of the body.  When that
    is a safe integer [g], the row has [coming_with_others = (g > 1)] and
    [companions_count = max(0, g - 1)]; so the count is never negative and
    is 0 whenever [coming_with_others] is false.  When [groupSize] is
    missing or is no number, the row has [coming_with_others] false and
    [companions_count] null.  An accepted submission (status 200) has
    inserted exactly one such row. *)
Theorem planned_visit_companions w request :
  (forall row, In row (planned_visit_rows (snd (POST w request))) ->
     exists f,
       json request = Returned f
       /\ match groupSize f with
          | Int n =>
              let g := int_value n in
              obj_lookup row "coming_with_others" = Some (JBool (1 <? g)%Z)
              /\ obj_lookup row "companions_count"
                 = Some (JNum (QArith_base.inject_Z (Z.max 0 (g - 1))))
              /\ (0 <= Z.max 0 (g - 1))%Z
              /\ ((1 <? g)%Z = false -> Z.max 0 (g - 1) = 0%Z)
          | NaN =>
              obj_lookup row "coming_with_others" = Some (JBool false)
              /\ obj_lookup row "companions_count" = Some JNull
          end)
  /\ (Http.status (fst (POST w request)) = 200%Z ->
      exists row, planned_visit_rows (snd (POST w request)) = [row]).
Proof.
  destruct (planned_visit_rows_of_POST w request)
    as [[Hnone Hstatus] | (f & k & c & en & ed & Hjson & Hrows)].
  - split.
    + intros row Hin. rewrite Hnone in Hin. destruct Hin.
    + intros H200. contradiction.
  - split.
    + intros row Hin. rewrite Hrows in Hin. destruct Hin as [<- | []].
      exists f. split; [exact Hjson|].
      destruct (row_companions f w k c en ed) as [H1 H2].
      destruct (groupSize f) as [n|]; cbv zeta.
      * split; [exact H1|]. split; [exact H2|]. split; [lia|].
        intros Hlt. apply Z.ltb_ge in Hlt. lia.
      * split; [exact H1 | exact H2].
    + intros _. eexists. exact Hrows.
Qed.

Lemma planned_visit_companions_witness :
  Http.status (fst (POST Examples.visits_world Examples.visit_request)) = 200%Z
  /\ exists row,
       planned_visit_rows (snd (POST Examples.visits_world Examples.visit_request))
       = [row]
       /\ obj_lookup row "coming_with_others" = Some (JBool true)
       /\ obj_lookup row "companions_count"
          = Some (JNum (QArith_base.inject_Z 3)).
Proof.
  split; [reflexivity|].
  destruct (planned_visit_companions Examples.visits_world Examples.visit_request)
    as [Hrows Haccepted].
  destruct (Haccepted eq_refl) as [row Hrow].
  exists row. split; [exact Hrow|].
  destruct (Hrows row) as (f & Hf & Hg).
  - rewrite Hrow. now left.
  - change (Returned Examples.family_visit = Returned f) in Hf.
    injection Hf as <-. destruct Hg as (Hc & Hn & _). split; assumption.
Defined.

End PlannedVisitsFacts.

(** ** The contact form *)

Module ContactFacts.

Import Contact.

Lemma main_ops_app a b : main_ops (a ++ b) = main_ops a ++ main_ops b.
Proof. apply filter_app. Qed.

(** The newsletter block never throws and sends no main insert. *)
Lemma subscribe_log w f em nm ts log :
  exists r ops,
    subscribe w f em nm ts log = (Returned r, log ++ ops) /\ main_ops ops = [].
Proof.
  unfold subscribe, Effect.catch, Effect.bind, db, Effect.send, Effect.ret.
  destruct (is_yes (newsletter f)).
  - destruct (answer w _) as [res|e]; [|now do 2 eexists].
    destruct (Supabase.error res); now do 2 eexists.
  - exists None, []. now rewrite app_nil_r.
Qed.

(** The prayer block never throws and sends no main insert. *)
Lemma add_prayer_request_log w f sid subj msg ts log :
  exists ops,
    add_prayer_request w f sid subj msg ts log = (Returned tt, log ++ ops)
    /\ main_ops ops = [].
Proof.
  unfold add_prayer_request, Effect.catch, Effect.bind, db, Effect.send, Effect.ret.
  destruct (isPrayerRequest_of f).
  - destruct (answer w _) as [res|e]; now eexists.
  - exists []. now rewrite app_nil_r.
Qed.

Lemma finish_log w f sid subj msg ts nr log :
  exists ops,
    finish w f sid subj msg ts nr log
    = (Returned (success_response f sid nr), log ++ ops)
    /\ main_ops ops = [].
Proof.
  unfold finish, Effect.bind.
  destruct (add_prayer_request_log w f sid subj msg ts log) as (ops & -> & Hops).
  now exists ops.
Qed.

Lemma required_values f :
  required_present f = true ->
  exists nm em subj msg,
    name f = Some nm /\ email f = Some em /\ subject f = Some subj
    /\ message f = Some msg
    /\ negb (truthy nm) || negb (truthy em) || negb (truthy subj)
       || negb (truthy msg) = false
    /\ value (name f) = nm /\ value (email f) = em
    /\ value (subject f) = subj /\ value (message f) = msg.
Proof.
  unfold required_present, value, or_default.
  destruct (name f) as [nm|]; [|discriminate].
  destruct (email f) as [em|]; [|simpl; rewrite andb_false_r; discriminate].
  destruct (subject f) as [subj|]; [|simpl; rewrite andb_false_r; discriminate].
  destruct (message f) as [msg|]; [|simpl; rewrite andb_false_r; discriminate].
  simpl. intros H.
  apply andb_prop in H. destruct H as [H Hm].
  apply andb_prop in H. destruct H as [H Hs].
  apply andb_prop in H. destruct H as [Hn He].
  exists nm, em, subj, msg. rewrite Hn, He, Hs, Hm. repeat split.
Qed.

(** The outcome of a submission with all the required fields, by what the
    two main inserts answer: the response and the operations sent, where
    [before] and [after] are the optional inserts. *)
Lemma POST_cases w request f :
  json request = Returned f ->
  required_present f = true ->
  exists newsletterResult before after,
    main_ops before = [] /\ main_ops after = []
    /\ POST w request
       = match answer w (website_insert w f) with
         | Returned (PgData _) =>
             (success_response f (randomUUID w 0) newsletterResult,
              before ++ [website_insert w f] ++ after)
         | Returned (PgError _) =>
             match answer w (fallback_insert w f) with
             | Returned (PgData _) =>
                 (success_response f (randomUUID w 0) newsletterResult,
                  before ++ [website_insert w f; fallback_insert w f] ++ after)
             | Returned (PgError _) =>
                 (Http.json_with (Error "Failed to submit contact form") 500,
                  before ++ [website_insert w f; fallback_insert w f])
             | Thrown _ =>
                 (Http.json_with (Error "Internal server error") 500,
                  before ++ [website_insert w f; fallback_insert w f])
             end
         | Thrown _ =>
             (Http.json_with (Error "Internal server error") 500,
              before ++ [website_insert w f])
         end.
Proof.
  intros Hjson Hreq.
  destruct (required_values f Hreq)
    as (nm & em & subj & msg & Hn & He & Hs & Hm & Hguard & Vn & Ve & Vs & Vm).
  unfold website_insert, fallback_insert. rewrite Vn, Ve, Vs, Vm.
  unfold POST, POST_try, Effect.handle. rewrite Hjson.
  cbn [Effect.bind Effect.lift]. rewrite Hn, He, Hs, Hm, Hguard.
  unfold Effect.bind, db, Effect.send.
  destruct (subscribe_log w f em nm (now w) []) as (nr & ops & -> & Hops).
  simpl app.
  destruct (finish_log w f (randomUUID w 0) subj msg (now w) nr
              (ops ++ [Insert "website_messages"
                         [websiteMessagePayload f (randomUUID w 0) nm em subj msg
                            (now w)]]))
    as (ops1 & Hfin1 & Hops1).
  destruct (finish_log w f (randomUUID w 0) subj msg (now w) nr
              ((ops ++ [Insert "website_messages"
                          [websiteMessagePayload f (randomUUID w 0) nm em subj msg
                             (now w)]])
               ++ [Insert "contact_submissions"
                     [contactSubmissionPayload f (randomUUID w 0) nm em subj msg
                        (now w)]]))
    as (ops2 & Hfin2 & Hops2).
  destruct (answer w (Insert "website_messages" _)) as [[d|err]|e].
  - exists nr, ops, ops1. split; [exact Hops|]. split; [exact Hops1|].
    cbn [Supabase.error]. cbv beta iota. rewrite Hfin1.
    now rewrite <- app_assoc.
  - cbn [Supabase.error]. cbv beta iota.
    destruct (answer w (Insert "contact_submissions" _)) as [[d|err']|e].
    + exists nr, ops, ops2. split; [exact Hops|]. split; [exact Hops2|].
      cbn [Supabase.error]. cbv beta iota. rewrite Hfin2.
      now rewrite <- !app_assoc.
    + exists nr, ops, []. split; [exact Hops|]. split; [reflexivity|].
      cbn [Supabase.error Effect.ret]. now rewrite <- !app_assoc.
    + exists nr, ops, []. split; [exact Hops|]. split; [reflexivity|].
      now rewrite <- !app_assoc.
  - exists nr, ops, []. split; [exact Hops|]. split; [reflexivity|].
    reflexivity.
Qed.

Lemma success_response_shape f sid nr :
  Http.status (success_response f sid nr) = 200%Z
  /\ exists msg ty sub dbg,
       Http.body (success_response f sid nr) = Success true msg sid ty sub dbg.
Proof. split; [reflexivity|]. now do 4 eexists. Qed.

(** C9, as stated, fails: when the insert into [website_messages] throws,
    the handler answers 500 from its outer [catch] without trying
    [contact_submissions], which would have taken the row. *)
Lemma thrown_insert_answers_500_without_fallback :
  let w := Examples.contact_throwing_world in
  let response := fst (POST w Examples.question_request) in
  Http.status response = 500%Z
  /\ main_ops (snd (POST w Examples.question_request))
     = [website_insert w Examples.question]
  /\ failed (answer w (fallback_insert w Examples.question)) = false
  /\ ~ (Http.status response = 500%Z
        <-> failed (answer w (website_insert w Examples.question)) = true
            /\ failed (answer w (fallback_insert w Examples.question)) = true).
Proof.
  cbv zeta. split; [reflexivity|]. split; [reflexivity|]. split; [reflexivity|].
  intros [H _]. destruct (H eq_refl) as [_ H2]. discriminate H2.
Qed.

(** C9, amended: for a contact submission with all the required fields, the
    handler sends the insert into [website_messages] first and the insert
    into [contact_submissions], with the same generated id, only if the
    first answered with an error.  It answers status 500 if and only if
    both inserts fail or the first one throws (the outer [catch], which
    does not try the second).  Otherwise it answers status 200 with
    [success: true] and that id as [submission_id].  What the optional
    inserts (newsletter, prayer request) answer never changes the
    status. *)
Theorem contact_submission_fallback w request f :
  json request = Returned f ->
  required_present f = true ->
  let first := answer w (website_insert w f) in
  let second := answer w (fallback_insert w f) in
  let response := fst (POST w request) in
  main_ops (snd (POST w request))
  = website_insert w f
    :: (if returned_error first then [fallback_insert w f] else [])
  /\ id_of_rows (website_insert w f) = Some (JStr (randomUUID w 0))
  /\ id_of_rows (fallback_insert w f) = Some (JStr (randomUUID w 0))
  /\ (Http.status response = 500%Z
      <-> (failed first = true /\ failed second = true) \/ threw first = true)
  /\ (Http.status response <> 500%Z ->
      Http.status response = 200%Z
      /\ exists msg ty sub dbg,
           Http.body response = Success true msg (randomUUID w 0) ty sub dbg)
  /\ (forall w', same_but_optional w w' ->
      Http.status (fst (POST w' request)) = Http.status response).
Proof.
  intros Hjson Hreq. cbv zeta.
  assert (Hstatus : forall v,
    Http.status (fst (POST v request))
    = if threw (answer v (website_insert v f))
         || (returned_error (answer v (website_insert v f))
             && failed (answer v (fallback_insert v f)))
      then 500%Z else 200%Z).
  { intros v. destruct (POST_cases v request f Hjson Hreq)
      as (nr & before & after & _ & _ & ->).
    destruct (answer v (website_insert v f)) as [[d|err]|e]; try reflexivity.
    destruct (answer v (fallback_insert v f)) as [[d|err']|e]; reflexivity. }
  destruct (POST_cases w request f Hjson Hreq)
    as (nr & before & after & Hb & Ha & HPOST).
  split; [|split; [reflexivity|split; [reflexivity|split; [|split]]]].
  - rewrite HPOST.
    destruct (answer w (website_insert w f)) as [[d|err]|e]; cbn [snd returned_error].
    + now rewrite !main_ops_app, Hb, Ha.
    + destruct (answer w (fallback_insert w f)) as [[d|err']|e]; cbn [snd];
        now rewrite !main_ops_app, Hb, ?Ha.
    + now rewrite !main_ops_app, Hb.
  - rewrite (Hstatus w).
    destruct (answer w (website_insert w f)) as [[d|err]|e]; simpl.
    + split; [discriminate|]. intros [[H _] | H]; discriminate.
    + destruct (failed (answer w (fallback_insert w f))); simpl.
      * split; auto.
      * split; [discriminate|]. intros [[_ H] | H]; discriminate.
    + split; auto.
  - intros Hnot. rewrite HPOST in *.
    destruct (answer w (website_insert w f)) as [[d|err]|e]; cbn [fst] in *.
    + apply success_response_shape.
    + destruct (answer w (fallback_insert w f)) as [[d|err']|e]; cbn [fst] in *.
      * apply success_response_shape.
      * now contradiction Hnot.
      * now contradiction Hnot.
    + now contradiction Hnot.
  - intros w' (Huuid & Hnow & Hsame).
    assert (Hw : website_insert w' f = website_insert w f)
      by (unfold website_insert; now rewrite Huuid, Hnow).
    assert (Hf : fallback_insert w' f = fallback_insert w f)
      by (unfold fallback_insert; now rewrite Huuid, Hnow).
    rewrite (Hstatus w'), (Hstatus w), Hw, Hf.
    rewrite <- (Hsame (website_insert w f) eq_refl).
    rewrite <- (Hsame (fallback_insert w f) eq_refl).
    reflexivity.
Qed.

Lemma contact_submission_fallback_witness :
  let w := Examples.contact_fallback_world in
  json Examples.question_request = Returned Examples.question
  /\ required_present Examples.question = true
  /\ main_ops (snd (POST w Examples.question_request))
     = [website_insert w Examples.question; fallback_insert w Examples.question]
  /\ Http.status (fst (POST w Examples.question_request)) <> 500%Z.
Proof.
  cbv zeta.
  destruct (contact_submission_fallback Examples.contact_fallback_world
              Examples.question_request Examples.question eq_refl eq_refl)
    as (Hsent & _ & _ & H500 & _).
  split; [reflexivity|]. split; [reflexivity|]. split; [exact Hsent|].
  intros H. apply H500 in H. destruct H as [[_ H] | H]; discriminate H.
Defined.

End ContactFacts.

(** ** More on the events route *)

Module EventsMore.

Import Events.

(** The envelope of the events route, in every state of the store. *)
Lemma events_GET_states w :
  (exists rows imgres,
     Fetched w rows
     /\ select_event_images w (map row_id rows) = Returned imgres
     /\ GET w
        = Http.json
            {| events := map (enriched (rows_of imgres)) rows;
               source := "database";
               message := "Loaded " ++ nat_to_string (length rows)
                          ++ " upcoming events from database" |})
  \/ (exists msg, GET w = fallback msg /\ msg <> "").
Proof.
  destruct (EventsFacts.events_store_states w)
    as [[msg Hu] | [He | [(rows & imgres & m & Hf & Hi & Hm) | [e Hr]]]].
  - right. exists msg. split; [now apply EventsFacts.events_GET_unavailable|].
    destruct Hu; discriminate.
  - right. eexists. split; [now apply EventsFacts.events_GET_empty | discriminate].
  - left. exists rows, imgres. split; [exact Hf|]. split; [exact Hi|].
    rewrite (EventsFacts.events_GET_fetched w rows imgres m Hf Hi Hm).
    do 2 f_equal. apply map_ext. intros row.
    now apply ImageMapFacts.transform_enriched.
  - right. eexists. unfold GET.
    rewrite (EventsFacts.events_GET_try_raises w e Hr).
    split; [reflexivity | discriminate].
Qed.

(** X1: the provenance tag of the events route is truthful.  The tag is
    [database] or [default]; under [database] the events are the rows read
    from the store, enriched, one per row and in the same order; under
    [default] they are the bundled default events. *)
Theorem events_provenance_is_truthful w :
  let response := Http.body (GET w) in
  (source response = "database" \/ source response = "default")
  /\ (source response = "database" ->
      exists rows imgres,
        Fetched w rows
        /\ select_event_images w (map row_id rows) = Returned imgres
        /\ events response = map (enriched (rows_of imgres)) rows
        /\ map id (events response) = map row_id rows)
  /\ (source response = "default" -> events response = defaultEvents).
Proof.
  cbv zeta.
  destruct (events_GET_states w)
    as [(rows & imgres & Hf & Hi & ->) | (msg & -> & _)]; simpl.
  - split; [now left|]. split; [|discriminate].
    intros _. exists rows, imgres. repeat split; try assumption.
    + now destruct Hf as (H & _).
    + now destruct Hf as (_ & H & _).
    + now destruct Hf as (_ & _ & H & _).
    + now destruct Hf as (_ & _ & _ & H).
    + rewrite map_map. reflexivity.
  - split; [now right|]. split; [discriminate | reflexivity].
Qed.

Lemma default_events_have_no_image ev :
  In ev defaultEvents -> primary_image ev = None.
Proof.
  intros [<- | [<- | [<- | [<- | []]]]]; reflexivity.
Qed.

(** X2: an event never carries the image of another event.  Whenever a
    resolved event has a primary image, that image is one of the rows the
    image read returned and its [event_id] is the id of the event. *)
Theorem primary_image_belongs_to_its_event w ev img :
  In ev (events (Http.body (GET w))) ->
  primary_image ev = Some img ->
  event_id img = id ev
  /\ exists ids imgres,
       select_event_images w ids = Returned imgres /\ In img (rows_of imgres).
Proof.
  intros Hin Himg.
  destruct (events_GET_states w)
    as [(rows & imgres & Hf & Hi & HG) | (msg & HG & _)];
    rewrite HG in Hin; simpl in Hin.
  - apply in_map_iff in Hin. destruct Hin as (row & <- & _).
    simpl in Himg. unfold first_image in Himg.
    apply find_some in Himg. destruct Himg as [Hmem Heq].
    apply String.eqb_eq in Heq. split; [exact Heq|].
    now exists (map row_id rows), imgres.
  - rewrite (default_events_have_no_image ev Hin) in Himg. discriminate.
Qed.

Lemma primary_image_belongs_to_its_event_witness :
  exists ev,
    In ev (events (Http.body (GET Examples.events_two)))
    /\ primary_image ev = Some Examples.camp_photo
    /\ event_id Examples.camp_photo = id ev.
Proof.
  set (ev := enriched [Examples.camp_photo; Examples.camp_photo_2]
               Examples.youth_camp).
  assert (Hin : In ev (events (Http.body (GET Examples.events_two))))
    by (right; left; reflexivity).
  exists ev. split; [exact Hin|]. split; [reflexivity|].
  exact (proj1 (primary_image_belongs_to_its_event Examples.events_two ev
                  Examples.camp_photo Hin eq_refl)).
Defined.

Lemma prefix_app k a b :
  String.prefix k a = true -> String.prefix k (a ++ b) = true.
Proof.
  revert a. induction k as [|c k IH]; intros a H.
  - now destruct (a ++ b)%string.
  - destruct a as [|c' a]; [discriminate|]. simpl in *.
    destruct (Ascii.ascii_dec c c'); [now apply IH | discriminate].
Qed.

Lemma includes_app k a b :
  includes a k = true -> includes (a ++ b) k = true.
Proof.
  induction a as [|c a IH]; intros H.
  - destruct k; [|simpl in H; discriminate]. now destruct b.
  - cbn [includes append] in *.
    destruct (String.prefix k (String c a)) eqn:Hp.
    + pose proof (prefix_app k (String c a) b Hp) as Hq.
      cbn [append] in Hq. now rewrite Hq.
    + destruct (String.prefix k (String c (a ++ b)%string)); [reflexivity|].
      now apply IH.
Qed.

Lemma toLowerCase_app a b :
  toLowerCase (a ++ b) = (toLowerCase a ++ toLowerCase b)%string.
Proof.
  induction a as [|c a IH]; [reflexivity|]. simpl. now rewrite IH.
Qed.

(** X3: the type of an event is one of six labels, and a worship keyword
    in the name decides: when the name, in any letter case, contains
    "worship", "service" or "sunday", the type is [worship] whatever the
    description says. *)
Theorem getEventType_worship_first name description :
  In (getEventType name description)
     [ "worship"; "youth"; "study"; "outreach"; "conference"; "event" ]
  /\ (forall keyword,
        In keyword [ "worship"; "service"; "sunday" ] ->
        includes (toLowerCase name) keyword = true ->
        getEventType name description = "worship").
Proof.
  split.
  - unfold getEventType.
    repeat match goal with
           | |- context [if ?c then _ else _] => destruct c
           end; simpl; auto 10.
  - intros keyword Hk Hinc.
    assert (H : includes
                  (toLowerCase (name ++ " " ++ or_default description "")%string)
                  keyword = true)
      by (rewrite toLowerCase_app; now apply includes_app).
    unfold getEventType.
    destruct Hk as [<- | [<- | [<- | []]]]; rewrite H;
      rewrite ?orb_true_r; reflexivity.
Qed.

Lemma getEventType_worship_first_witness :
  includes (toLowerCase "SUNDAY Youth Bible Study") "sunday" = true
  /\ getEventType "SUNDAY Youth Bible Study" (Some "For teens") = "worship".
Proof.
  split; [reflexivity|].
  apply (proj2 (getEventType_worship_first "SUNDAY Youth Bible Study"
                  (Some "For teens")) "sunday").
  - right; right; left; reflexivity.
  - reflexivity.
Defined.

Lemma nth_gradients_injective i j :
  i < 6 -> j < 6 -> nth i gradients "" = nth j gradients "" -> i = j.
Proof.
  intros Hi Hj.
  do 6 (destruct i as [|i]; [do 6 (destruct j as [|j];
      [simpl; intros; (reflexivity || discriminate)|]); lia|]).
  lia.
Qed.

(** X4: the gradient of an event is decided by the sum of the character
    codes of its id modulo 6, and by nothing else: two events have the same
    gradient exactly when these residues agree. *)
Theorem gradient_decided_by_hash name1 id1 name2 id2 :
  getEventGradient name1 id1 = getEventGradient name2 id2
  <-> id_hash id1 mod 6 = id_hash id2 mod 6.
Proof.
  unfold getEventGradient. change (length gradients) with 6. split.
  - apply nth_gradients_injective; apply Nat.mod_upper_bound; discriminate.
  - now intros ->.
Qed.

End EventsMore.

(** ** The events hook *)

Module UseEventsFacts.

Import UseEvents.

Lemma or_default_nonempty s d : s <> "" -> or_default (Some s) d = s.
Proof.
  intros H. unfold or_default, truthy.
  destruct (String.eqb s "") eqn:E; [|reflexivity].
  apply String.eqb_eq in E. contradiction.
Qed.

(** X5: the hook composed with the route.  Whatever the state of the
    store, once the hook has fetched the answer of the events route it
    shows exactly the events, the tag and the message of that answer, at
    least one event, with no error and [loading] false. *)
Theorem hook_shows_what_the_route_answers w statusText s :
  let answer := Http.body (Events.GET w) in
  let s' := fetchEvents (Returned (reply_of (Events.GET w) statusText)) s in
  st_events s' = Events.events answer
  /\ st_events s' <> []
  /\ st_source s' = Events.source answer
  /\ st_message s' = Events.message answer
  /\ error s' = None
  /\ loading s' = false.
Proof.
  cbv zeta.
  destruct (EventsMore.events_GET_states w)
    as [(rows & imgres & Hf & _ & ->) | (msg & -> & Hmsg)];
    unfold fetchEvents, fetchEvents_try, reply_of, ok.
  - simpl. repeat split.
    destruct Hf as (_ & _ & _ & Hne). destruct rows; [congruence | discriminate].
  - cbn -[or_default Events.defaultEvents].
    rewrite (or_default_nonempty msg "Events loaded" Hmsg).
    repeat split. discriminate.
Qed.

(** X6: the hook never ends without events to show for lack of an answer.
    When the fetch fails (it throws, the status is not 2xx, or the body is
    unreadable) the hook shows the bundled default events tagged [default],
    records the error text and ends with [loading] false; and in every
    case the events shown are the bundled defaults or the list the answer
    carried. *)
Theorem hook_falls_back_on_failure fetched s :
  let s' := fetchEvents fetched s in
  loading s' = false
  /\ (st_events s' = Events.defaultEvents
      \/ exists r data,
           fetched = Returned r /\ json r = Returned data
           /\ events data = Some (st_events s'))
  /\ (forall text, Fails fetched text ->
        st_events s' = Events.defaultEvents
        /\ st_source s' = "default"
        /\ st_message s' = "Using default events - Fetch failed"
        /\ error s' = Some text).
Proof.
  cbv zeta. split; [reflexivity|]. split.
  - unfold fetchEvents, fetchEvents_try.
    destruct fetched as [r|e]; simpl; [|now left].
    destruct (ok r); simpl; [|now left].
    destruct (json r) as [data|e] eqn:Hj; simpl; [|now left].
    destruct (events data) as [evs|] eqn:He; simpl; [|now left].
    right. now exists r, data.
  - intros text Hfail. unfold fetchEvents, fetchEvents_try.
    destruct Hfail as [e | r Hok | r e Hok Hj]; simpl.
    + repeat split.
    + rewrite Hok. simpl. repeat split.
    + rewrite Hok, Hj. simpl. repeat split.
Qed.

End UseEventsFacts.

(** ** More on the tenant-settings route *)

Module TenantMore.

Import TenantSettings.

(** X7: the provenance tag of the tenant-settings route is truthful.  An
    envelope always says [success: true]; tagged [database] its data is the
    first row the store answered with; otherwise it is tagged [default]
    and its data is the default settings stamped with the current time.
    An answer that is not an envelope has status 500. *)
Theorem tenant_provenance_is_truthful w :
  match Http.body (GET w) with
  | Resolved ok d msg src note =>
      ok = true
      /\ Http.status (GET w) = 200%Z
      /\ ((src = "database"
           /\ exists rest, Answered w (PgData (Some (d :: rest))))
          \/ (src = "default" /\ d = defaultSettings w))
  | Failed _ _ => Http.status (GET w) = 500%Z
  end.
Proof.
  destruct (TenantFacts.tenant_store_states w) as [Hc | [[r Ha] | [e Hr]]].
  - rewrite (TenantFacts.tenant_GET_unconfigured w Hc). reflexivity.
  - rewrite (TenantFacts.tenant_GET_answered w r Ha).
    destruct r as [[[|first rest]|]|err]; simpl.
    + repeat split. now right.
    + repeat split. left. split; [reflexivity|]. now exists rest.
    + repeat split. now right.
    + destruct (is_rls_violation err); simpl; [|reflexivity].
      repeat split. now right.
  - unfold GET. rewrite (TenantFacts.tenant_GET_try_raises w e Hr). simpl.
    repeat split. now right.
Qed.

End TenantMore.

(** ** More on the giving-page route *)

Module GivingMore.

Import GivingPage.
Import GivingSections.


Lemma has_key_cons k0 v0 o k :
  has_key ((k0, v0) :: o) k = String.eqb k0 k || has_key o k.
Proof. reflexivity. Qed.

Lemma obj_lookup_absent o k : has_key o k = false -> obj_lookup o k = None.
Proof.
  induction o as [|[k0 v0] o IH]; [reflexivity|].
  rewrite has_key_cons. simpl. destruct (String.eqb k0 k); [discriminate|].
  exact IH.
Qed.

Lemma obj_lookup_update o k v k' :
  has_key o k = true ->
  obj_lookup (obj_update o k v) k'
  = if String.eqb k k' then Some v else obj_lookup o k'.
Proof.
  induction o as [|[k0 v0] o IH]; [discriminate|].
  rewrite has_key_cons. simpl.
  destruct (String.eqb k0 k) eqn:E; simpl.
  - intros _. apply String.eqb_eq in E. subst k0.
    destruct (String.eqb k k'); reflexivity.
  - intros H. destruct (String.eqb k0 k') eqn:E'.
    + apply String.eqb_eq in E'. subst k0. now rewrite String.eqb_sym, E.
    + now apply IH.
Qed.

Lemma obj_lookup_insert_index o n k v k' :
  has_key o k = false ->
  obj_lookup (obj_insert_index o n k v) k'
  = if String.eqb k k' then Some v else obj_lookup o k'.
Proof.
  induction o as [|[k0 v0] o IH]; [reflexivity|].
  rewrite has_key_cons. simpl.
  destruct (String.eqb k0 k) eqn:E; [discriminate|]. simpl. intros H.
  destruct (array_index k0) as [n0|]; [|reflexivity].
  destruct (n0 <? n)%N; [|reflexivity]. simpl.
  destruct (String.eqb k0 k') eqn:E'.
  - apply String.eqb_eq in E'. subst k0. now rewrite String.eqb_sym, E.
  - now apply IH.
Qed.

Lemma obj_lookup_app o k v k' :
  obj_lookup (o ++ [(k, v)]) k'
  = match obj_lookup o k' with
    | Some x => Some x
    | None => if String.eqb k k' then Some v else None
    end.
Proof.
  induction o as [|[k0 v0] o IH]; simpl; [reflexivity|].
  destruct (String.eqb k0 k'); [reflexivity | exact IH].
Qed.

Lemma obj_lookup_set o k v k' :
  obj_lookup (obj_set o k v) k'
  = if String.eqb k k' then Some v else obj_lookup o k'.
Proof.
  unfold obj_set. destruct (has_key o k) eqn:Hk.
  - now apply obj_lookup_update.
  - destruct (array_index k) as [n|].
    + now apply obj_lookup_insert_index.
    + rewrite obj_lookup_app.
      destruct (String.eqb k k') eqn:E.
      * apply String.eqb_eq in E. subst k'.
        now rewrite (obj_lookup_absent o k Hk).
      * destruct (obj_lookup o k'); reflexivity.
Qed.

(** X8: what a spread holds.  Looking a key up in [{ ...a, ...b }] gives
    the last value [b] binds to it, and the value of [a] when [b] does not
    bind it. *)
Theorem spread_lookup b : forall a k,
  obj_lookup (spread a b) k
  = match last_binding b k with
    | Some v => Some v
    | None => obj_lookup a k
    end.
Proof.
  unfold spread, last_binding.
  induction b as [|[k0 v0] b IH]; intros a k; simpl.
  - reflexivity.
  - rewrite IH, obj_lookup_app, obj_lookup_set.
    destruct (obj_lookup (rev b) k); [reflexivity|].
    destruct (String.eqb k0 k); reflexivity.
Qed.








Lemma fold_sections_fields sections : forall c,
  hero (fold_left apply_section sections c)
  = overridden (hero c) (props_of "hero" sections)
  /\ giving_methods (fold_left apply_section sections c)
     = overridden (giving_methods c) (props_of "giving_methods" sections)
  /\ impact (fold_left apply_section sections c)
     = overridden (impact c) (props_of "impact" sections).
Proof.
  unfold overridden.
  induction sections as [|s sections IH]; intros c; simpl.
  - repeat split.
  - destruct (IH (apply_section c s)) as (H1 & H2 & H3).
    rewrite H1, H2, H3. unfold apply_section.
    destruct (props s) as [p|]; [|repeat split].
    destruct (String.eqb (type s) "hero") eqn:Eh.
    + apply String.eqb_eq in Eh. rewrite Eh. simpl. repeat split.
    + destruct (String.eqb (type s) "giving_methods") eqn:Eg.
      * apply String.eqb_eq in Eg. rewrite Eg. simpl. repeat split.
      * destruct (String.eqb (type s) "impact") eqn:Ei.
        -- simpl. repeat split.
        -- repeat split.
Qed.

(** X10: what the sections of the page can change.  In the content read
    from the store, each of [hero], [giving_methods] and [impact] is its
    bundled default overridden by the props of the sections of that type,
    in the order read; sections of any other type, and sections without
    props, change nothing. *)
Theorem sections_override_their_own_part w page sections fres :
  SectionsAnswered w page (PgData (Some sections)) ->
  select_funds w = Returned fres ->
  let content := Http.body (GET w) in
  hero content = overridden default_hero (props_of "hero" sections)
  /\ giving_methods content
     = overridden default_giving_methods (props_of "giving_methods" sections)
  /\ impact content = overridden default_impact (props_of "impact" sections).
Proof.
  intros Hs Hf. cbv zeta.
  rewrite (GivingFacts.giving_GET_sections_answered w page _ Hs fres Hf).
  unfold structuredContent. simpl Http.body.
  apply (fold_sections_fields sections).
Qed.

Lemma sections_override_their_own_part_witness :
  SectionsAnswered Examples.giving_published Examples.giving_row
    (PgData (Some [Examples.hero_section]))
  /\ obj_lookup (hero (Http.body (GET Examples.giving_published))) "heading"
     = Some (JStr "Give with joy")
  /\ giving_methods (Http.body (GET Examples.giving_published))
     = default_giving_methods.
Proof.
  assert (H : SectionsAnswered Examples.giving_published Examples.giving_row
                (PgData (Some [Examples.hero_section])))
    by (split; [split|]; reflexivity).
  destruct (sections_override_their_own_part Examples.giving_published
              Examples.giving_row [Examples.hero_section]
              (PgData (Some [Examples.campus_fund])) H eq_refl)
    as (Hh & Hg & _).
  split; [exact H|]. split.
  - rewrite Hh. reflexivity.
  - rewrite Hg. reflexivity.
Defined.

(** X11: the funds of the page never fail it.  Once the page and its
    sections are read, the content is tagged [database] whatever the read
    of the payment categories answers; the funds shown are the rows read,
    one fund per row with its id and name (and "Support our <name in lower
    case>" for a missing description), or the six bundled funds when that
    read answers with an error, null or no row. *)
Theorem funds_read_never_fails_the_page w page sections fres :
  SectionsAnswered w page (PgData sections) ->
  select_funds w = Returned fres ->
  let content := Http.body (GET w) in
  source content = "database"
  /\ fund_designations content
     = match fres with
       | PgData (Some (f :: rest)) => map fund_of_row (f :: rest)
       | _ => default_fund_designations
       end
  /\ (forall rows, fres = PgData (Some rows) -> rows <> [] ->
        map id (fund_designations content) = map fund_id rows
        /\ map name (fund_designations content) = map fund_name rows)
  /\ length default_fund_designations = 6.
Proof.
  intros Hs Hf. cbv zeta.
  rewrite (GivingFacts.giving_GET_sections_answered w page _ Hs fres Hf).
  simpl Http.body.
  rewrite GivingFacts.giving_structuredContent_source,
    GivingFacts.giving_structuredContent_funds.
  split; [reflexivity|]. split; [|split; [|reflexivity]].
  - unfold fundDesignations_of. destruct fres as [[[|f rest]|]|err]; reflexivity.
  - intros rows -> Hne. destruct rows as [|f rest]; [congruence|].
    unfold fundDesignations_of. simpl Supabase.error. simpl Supabase.data.
    cbv iota. rewrite !map_map. split; reflexivity.
Qed.

Lemma funds_read_never_fails_the_page_witness :
  SectionsAnswered Examples.giving_published Examples.giving_row
    (PgData (Some [Examples.hero_section]))
  /\ fund_designations (Http.body (GET Examples.giving_published))
     = [ mkFund "f1" "Campus Fund" "Support our campus fund" ].
Proof.
  assert (H : SectionsAnswered Examples.giving_published Examples.giving_row
                (PgData (Some [Examples.hero_section])))
    by (split; [split|]; reflexivity).
  destruct (funds_read_never_fails_the_page Examples.giving_published
              Examples.giving_row (Some [Examples.hero_section])
              (PgData (Some [Examples.campus_fund])) H eq_refl)
    as (_ & Hfunds & _).
  split; [exact H|]. rewrite Hfunds. reflexivity.
Defined.

(** X12: the provenance tag of the giving-page route is truthful.  The tag
    is [database], [default] or [error_fallback]; it is [database] exactly
    when the page row was found and the sections read answered without
    error (and the funds read did not throw); under the two other tags
    the content is the bundled default content, unchanged. *)
Theorem giving_provenance_is_truthful w :
  let content := Http.body (GET w) in
  Http.status (GET w) = 200%Z
  /\ (source content = "database"
      <-> exists page sections fres,
            SectionsAnswered w page (PgData sections)
            /\ select_funds w = Returned fres)
  /\ (source content <> "database" ->
      (source content = "default" \/ source content = "error_fallback")
      /\ GET w = Http.json (defaultGivingPageContent (source content))).
Proof.
  cbv zeta.
  destruct (GivingFacts.giving_store_states w)
    as [(r & Hp & Hr) | [(page & err & Hs)
       | [(page & sections & fres & Hs & Hf) | [e Hr]]]].
  - assert (G : GET w = Http.json (defaultGivingPageContent "default")).
    { pose proof (GivingFacts.giving_GET_page_answered w r Hp) as G.
      destruct r as [[page|]|err]; [contradiction | exact G | exact G]. }
    rewrite G. simpl. split; [reflexivity|]. split.
    + split; [discriminate|].
      intros (page & sections & fres & ((_ & Hp') & _) & _).
      destruct Hp as (_ & Hp). rewrite Hp' in Hp. injection Hp as <-.
      contradiction.
    + intros _. split; [now left | reflexivity].
  - rewrite (GivingFacts.giving_GET_sections_answered w page _ Hs). simpl.
    split; [reflexivity|]. split.
    + split; [discriminate|].
      intros (page' & sections & fres & ((_ & Hp') & Hs') & _).
      destruct Hs as ((_ & Hp) & Hs). rewrite Hp' in Hp. injection Hp as ->.
      rewrite Hs' in Hs. discriminate.
    + intros _. split; [now left | reflexivity].
  - rewrite (GivingFacts.giving_GET_sections_answered w page _ Hs fres Hf).
    simpl Http.body. rewrite GivingFacts.giving_structuredContent_source.
    split; [reflexivity|]. split.
    + split; [|reflexivity]. intros _. now exists page, sections, fres.
    + intros H. contradiction.
  - unfold GET. rewrite (GivingFacts.giving_GET_try_raises w e Hr). simpl.
    split; [reflexivity|]. split.
    + split; [discriminate|].
      intros (page & sections & fres & ((Hcl & Hp) & Hs) & Hf).
      destruct Hr as [Hcl' | Hcl' Hp' | page' (Hcl' & Hp') Hs'
                     | page' sections' ((Hcl' & Hp') & Hs') Hf'].
      * congruence.
      * congruence.
      * rewrite Hp' in Hp. injection Hp as ->. congruence.
      * congruence.
    + intros _. split; [now right | reflexivity].
Qed.

End GivingMore.

(** ** Rows fetched and transformed *)

Module Transformed.

(** C4, as stated, fails: the events were fetched, two rows, and yet the
    envelope is tagged [default] and carries the bundled events, because
    the read of the images threw and the catch-all branch answered; so
    does the giving page, tagged [error_fallback], when the read of the
    funds throws after the page was found.  The same happens when every
    read answers and an image names a member of [Object.prototype] as its
    event. *)
Lemma fetched_rows_lost_to_the_catch_all :
  (Events.Fetched Scenarios.events_images_down
     [Examples.picnic; Examples.youth_camp]
   /\ Events.GET Scenarios.events_images_down
      = Events.fallback "Using default events - Unexpected error"
   /\ Events.source (Http.body (Events.GET Scenarios.events_images_down))
      <> "database")
  /\ (GivingPage.SectionsAnswered Scenarios.giving_funds_down Examples.giving_row
        (PgData (Some [Examples.hero_section]))
      /\ GivingPage.GET Scenarios.giving_funds_down
         = Http.json (GivingPage.defaultGivingPageContent "error_fallback"))
  /\ (Events.Fetched Scenarios.events_with_builders
        [Examples.picnic; Scenarios.builders_day]
      /\ Events.select_event_images Scenarios.events_with_builders
           [ "e1"; "constructor" ]
         = Returned (PgData (Some [Scenarios.builders_photo]))
      /\ Events.GET Scenarios.events_with_builders
         = Events.fallback "Using default events - Unexpected error").
Proof.
  split; [|split].
  - split; [|split; [reflexivity | discriminate]].
    split; [|split; [|split]]; try reflexivity; discriminate.
  - split; [|reflexivity]. split; [split|]; reflexivity.
  - split; [|split; reflexivity].
    split; [|split; [|split]]; try reflexivity; discriminate.
Qed.

(** C4, amended: when the first read of a route answers with at least one
    row, the envelope is tagged [database] and carries the transform of
    the rows provided the later reads of the route answer too; when one of
    them throws, the catch-all branch answers with the bundled defaults
    (and the giving page answers with the defaults tagged [default] when
    its sections read answers with an error).
    Events: with the images read (none of them naming a member of
    [Object.prototype]), one event per row, each with the first image
    received for it, the location and description defaults and the derived
    gradient and type.  Tenant settings: the first row.  Giving page: with
    the sections and the funds read, [hero], [giving_methods] and [impact]
    are the defaults overridden by the props of the sections of that type,
    and the funds are the rows read, or the bundled ones when that read
    answers with an error or no row. *)
Theorem fetched_rows_are_transformed :
  (forall w rows,
     Events.Fetched w rows ->
     match Events.select_event_images w (map Events.row_id rows) with
     | Returned imgres =>
         Events.plain_ids (Events.rows_of imgres) ->
         Events.GET w
         = Http.json
             {| Events.events := map (Events.enriched (Events.rows_of imgres)) rows;
                Events.source := "database";
                Events.message := "Loaded " ++ nat_to_string (length rows)
                                  ++ " upcoming events from database" |}
     | Thrown _ =>
         Events.GET w
         = Http.json
             {| Events.events := Events.defaultEvents;
                Events.source := "default";
                Events.message := "Using default events - Unexpected error" |}
     end)
  /\ (forall w first rest,
        TenantSettings.Answered w (PgData (Some (first :: rest))) ->
        TenantSettings.GET w
        = Http.json (TenantSettings.Resolved true first "Tenant settings found"
                       "database" None))
  /\ (forall w page,
        GivingPage.PageAnswered w (PgData (Some page)) ->
        match GivingPage.select_sections w (GivingPage.page_id page) with
        | Returned (PgData sectionsData) =>
            match GivingPage.select_funds w with
            | Returned fres =>
                let content := Http.body (GivingPage.GET w) in
                let sections := GivingSections.sections_of sectionsData in
                Http.status (GivingPage.GET w) = 200%Z
                /\ GivingPage.source content = "database"
                /\ GivingPage.hero content
                   = GivingSections.overridden GivingPage.default_hero
                       (GivingSections.props_of "hero" sections)
                /\ GivingPage.giving_methods content
                   = GivingSections.overridden GivingPage.default_giving_methods
                       (GivingSections.props_of "giving_methods" sections)
                /\ GivingPage.impact content
                   = GivingSections.overridden GivingPage.default_impact
                       (GivingSections.props_of "impact" sections)
                /\ GivingPage.fund_designations content
                   = match fres with
                     | PgData (Some (f :: more)) =>
                         map GivingPage.fund_of_row (f :: more)
                     | _ => GivingPage.default_fund_designations
                     end
            | Thrown _ =>
                GivingPage.GET w
                = Http.json (GivingPage.defaultGivingPageContent "error_fallback")
            end
        | Returned (PgError _) =>
            GivingPage.GET w
            = Http.json (GivingPage.defaultGivingPageContent "default")
        | Thrown _ =>
            GivingPage.GET w
            = Http.json (GivingPage.defaultGivingPageContent "error_fallback")
        end).
Proof.
  split; [|split].
  - intros w rows Hf.
    destruct (Events.select_event_images w (map Events.row_id rows))
      as [imgres|e] eqn:Hi.
    + intros Hplain.
      destruct (ImageMapFacts.build_imageMap_plain imgres Hplain) as [m Hm].
      rewrite (EventsFacts.events_GET_fetched w rows imgres m Hf Hi Hm).
      do 2 f_equal. apply map_ext. intros row.
      now apply ImageMapFacts.transform_enriched.
    + unfold Events.GET.
      now rewrite (EventsFacts.events_GET_try_raises w e
                     (Events.images_read_raises w e rows Hf Hi)).
  - intros w first rest Ha.
    rewrite (TenantFacts.tenant_GET_answered w _ Ha). reflexivity.
  - intros w page Hp.
    destruct (GivingPage.select_sections w (GivingPage.page_id page))
      as [[sectionsData|err]|e] eqn:Hsec.
    + assert (Hs : GivingPage.SectionsAnswered w page (PgData sectionsData))
        by (split; assumption).
      destruct (GivingPage.select_funds w) as [fres|e] eqn:Hf.
      * cbv zeta.
        rewrite (GivingFacts.giving_GET_sections_answered w page _ Hs fres Hf).
        simpl Http.body. split; [reflexivity|].
        split; [apply GivingFacts.giving_structuredContent_source|].
        assert (Hfunds :
          GivingPage.fund_designations
            (GivingPage.structuredContent sectionsData fres)
          = match fres with
            | PgData (Some (f :: more)) => map GivingPage.fund_of_row (f :: more)
            | _ => GivingPage.default_fund_designations
            end).
        { rewrite GivingFacts.giving_structuredContent_funds.
          unfold GivingPage.fundDesignations_of.
          destruct fres as [[[|f more]|]|err]; reflexivity. }
        unfold GivingPage.structuredContent in *.
        destruct sectionsData as [sections|].
        -- destruct (GivingMore.fold_sections_fields sections
                       {| GivingPage.hero := GivingPage.default_hero;
                          GivingPage.giving_methods :=
                            GivingPage.default_giving_methods;
                          GivingPage.fund_designations :=
                            GivingPage.fundDesignations_of fres;
                          GivingPage.impact := GivingPage.default_impact;
                          GivingPage.source := "database" |})
             as (Hh & Hg & Him).
           split; [exact Hh|]. split; [exact Hg|].
           split; [exact Him | exact Hfunds].
        -- split; [reflexivity|]. split; [reflexivity|].
           split; [reflexivity | exact Hfunds].
      * unfold GivingPage.GET.
        now rewrite (GivingFacts.giving_GET_try_raises w e
                       (GivingPage.funds_read_raises w e page sectionsData Hs Hf)).
    + assert (Hs : GivingPage.SectionsAnswered w page (PgError err))
        by (split; assumption).
      exact (GivingFacts.giving_GET_sections_answered w page _ Hs).
    + unfold GivingPage.GET.
      now rewrite (GivingFacts.giving_GET_try_raises w e
                     (GivingPage.sections_read_raises w e page Hp Hsec)).
Qed.

Lemma fetched_rows_are_transformed_witness :
  (Events.Fetched Examples.events_two [Examples.picnic; Examples.youth_camp]
   /\ map Events.primary_image
        (Events.events (Http.body (Events.GET Examples.events_two)))
      = [None; Some Examples.camp_photo])
  /\ (TenantSettings.Answered Examples.tenant_one
        (PgData (Some [Examples.stored_settings]))
      /\ TenantSettings.GET Examples.tenant_one
         = Http.json (TenantSettings.Resolved true Examples.stored_settings
                        "Tenant settings found" "database" None))
  /\ (GivingPage.SectionsAnswered Examples.giving_published Examples.giving_row
        (PgData (Some [Examples.hero_section]))
      /\ GivingPage.source (Http.body (GivingPage.GET Examples.giving_published))
         = "database"
      /\ obj_lookup
           (GivingPage.hero (Http.body (GivingPage.GET Examples.giving_published)))
           "heading"
         = Some (JStr "Give with joy")).
Proof.
  assert (H1 : Events.Fetched Examples.events_two
                 [Examples.picnic; Examples.youth_camp])
    by (split; [|split; [|split]]; try reflexivity; discriminate).
  assert (H2 : TenantSettings.Answered Examples.tenant_one
                 (PgData (Some [Examples.stored_settings])))
    by (split; [|split]; reflexivity).
  assert (H3 : GivingPage.SectionsAnswered Examples.giving_published
                 Examples.giving_row (PgData (Some [Examples.hero_section])))
    by (split; [split|]; reflexivity).
  assert (H4 : GivingPage.PageAnswered Examples.giving_published
                 (PgData (Some Examples.giving_row)))
    by (split; reflexivity).
  assert (Hplain : Events.plain_ids [Examples.camp_photo; Examples.camp_photo_2])
    by (repeat constructor).
  destruct fetched_rows_are_transformed as (E & T & G).
  split; [|split].
  - split; [assumption|].
    pose proof (E _ _ H1) as HE. cbv beta iota in HE.
    change (Events.select_event_images Examples.events_two
              (map Events.row_id [Examples.picnic; Examples.youth_camp]))
      with (Returned (PgData (Some [Examples.camp_photo; Examples.camp_photo_2])))
      in HE.
    rewrite (HE Hplain). reflexivity.
  - split; [assumption|]. exact (T _ _ _ H2).
  - split; [assumption|].
    pose proof (G _ _ H4) as HG.
    change (GivingPage.select_sections Examples.giving_published
              (GivingPage.page_id Examples.giving_row))
      with (Returned (PgData (Some [Examples.hero_section]))) in HG.
    change (GivingPage.select_funds Examples.giving_published)
      with (Returned (PgData (Some [Examples.campus_fund]))) in HG.
    destruct HG as (_ & Hsrc & Hhero & _).
    split; [exact Hsrc|]. rewrite Hhero. reflexivity.
Defined.

End Transformed.

(** ** More on the Stripe webhook *)

Module WebhookMore.

Import StripeWebhook.
Import WebhookEvents.

Ltac open_handlers :=
  unfold POST, POST_try, Effect.handle, dispatch,
    handlePaymentIntentSucceeded, handlePaymentIntentFailed,
    handleInvoicePaymentSucceeded, handleInvoicePaymentFailed,
    handleSubscriptionCreated, handleSubscriptionUpdated,
    handleSubscriptionDeleted, db, Effect.bind, Effect.lift, Effect.send,
    Effect.ret.

(** X13: one webhook request sends at most one operation to the database,
    never a read, and only to [transactions] or [recurring_donations]. *)
Theorem webhook_writes_at_most_once w request :
  length (snd (POST w request)) <= 1
  /\ Forall (fun op => donation_table op = true /\ is_select op = false)
       (snd (POST w request)).
Proof.
  open_handlers.
  destruct (text request) as [payload|e]; simpl; [|split; [lia | constructor]].
  destruct (constructEvent w payload (stripe_signature request)) as [event|e];
    simpl; [|split; [lia | constructor]].
  destruct event as [o|o|o|o|o|o|o|ty]; simpl;
    try (split; [simpl; lia | constructor]).
  - destruct (createServerSupabaseClient w) as [u|e];
      [|split; [simpl; lia | constructor]].
    destruct (answer w _) as [r|e]; simpl;
      (split; [lia | repeat constructor]).
  - destruct (createServerSupabaseClient w) as [u|e];
      [|split; [simpl; lia | constructor]].
    destruct (answer w _) as [r|e]; simpl;
      (split; [lia | repeat constructor]).
  - destruct (or_null (subscription o)) as [id|];
      [|split; [simpl; lia | constructor]].
    destruct (createServerSupabaseClient w) as [u|e];
      [|split; [simpl; lia | constructor]].
    destruct (retrieve_subscription w id) as [sub|e];
      [|split; [simpl; lia | constructor]].
    destruct (answer w _) as [r|e]; simpl;
      (split; [lia | repeat constructor]).
  - destruct (createServerSupabaseClient w) as [u|e];
      [|split; [simpl; lia | constructor]].
    destruct (answer w _) as [r|e]; simpl;
      (split; [lia | repeat constructor]).
  - destruct (createServerSupabaseClient w) as [u|e];
      [|split; [simpl; lia | constructor]].
    destruct (answer w _) as [r|e]; simpl;
      (split; [lia | repeat constructor]).
Qed.

(** X14: an error the database answers with never reaches Stripe.  When
    the event is verified and no call throws, the handler answers status
    200 with [received: true], whether the database accepted the write or
    answered with an error. *)
Theorem database_errors_are_not_reported w request payload event :
  text request = Returned payload ->
  constructEvent w payload (stripe_signature request) = Returned event ->
  createServerSupabaseClient w = Returned tt ->
  (forall id, exists sub, retrieve_subscription w id = Returned sub) ->
  (forall op, exists r, answer w op = Returned r) ->
  fst (POST w request) = Http.json (Received true).
Proof.
  intros Htext Hsig Hcl Hsub Hans.
  open_handlers. rewrite Htext. simpl. rewrite Hsig. simpl.
  destruct event as [o|o|o|o|o|o|o|ty]; simpl; rewrite ?Hcl; simpl;
    try reflexivity;
    try match goal with
        | |- context [answer w ?op] =>
            destruct (Hans op) as [r ->]; reflexivity
        end.
  destruct (or_null (subscription o)) as [id|]; simpl; [|reflexivity].
  destruct (Hsub id) as [sub ->]. simpl.
  match goal with
  | |- context [answer w ?op] => destruct (Hans op) as [r ->]
  end.
  reflexivity.
Qed.

Lemma database_errors_are_not_reported_witness :
  (exists values column value,
     snd (POST Scenarios.webhook_readonly Examples.signed_request)
     = [Update "recurring_donations" values column value]
     /\ StripeWebhook.answer Scenarios.webhook_readonly
          (Update "recurring_donations" values column value)
        = Returned (PgError Examples.rls_denied))
  /\ fst (POST Scenarios.webhook_readonly Examples.signed_request)
     = Http.json (Received true).
Proof.
  split; [do 3 eexists; split; reflexivity|].
  apply (database_errors_are_not_reported Scenarios.webhook_readonly
           Examples.signed_request "{}"
           (customer_subscription_deleted (mkSubscription "sub_1" "canceled" None)));
    try reflexivity.
  - intros id. eexists. reflexivity.
  - intros op. eexists. reflexivity.
Defined.

(** X15: events that need no write never touch the database.  For a failed
    invoice, a new subscription, an event type the handler does not list,
    or a paid invoice without subscription, the handler answers 200 with
    [received: true] and sends nothing, even when no database client can
    be made. *)
Theorem events_without_write_need_no_database w request payload event :
  text request = Returned payload ->
  constructEvent w payload (stripe_signature request) = Returned event ->
  needs_no_write event = true ->
  POST w request = (Http.json (Received true), []).
Proof.
  intros Htext Hsig Hno.
  open_handlers. rewrite Htext. simpl. rewrite Hsig. simpl.
  destruct event as [o|o|o|o|o|o|o|ty]; simpl in *; try discriminate;
    try reflexivity.
  destruct (or_null (subscription o)); [discriminate | reflexivity].
Qed.

Lemma events_without_write_need_no_database_witness :
  needs_no_write (unhandled "charge.refunded") = true
  /\ StripeWebhook.createServerSupabaseClient Scenarios.webhook_offline
     = Thrown (Error_ "Missing Supabase environment variables")
  /\ POST Scenarios.webhook_offline Examples.signed_request
     = (Http.json (Received true), []).
Proof.
  split; [reflexivity|]. split; [reflexivity|].
  exact (events_without_write_need_no_database Scenarios.webhook_offline
           Examples.signed_request "{}" (unhandled "charge.refunded")
           eq_refl eq_refl eq_refl).
Defined.

End WebhookMore.

(** ** More on the contact form *)

Module ContactMore.

Import Contact.
Import ContactTrace.

Lemma subscribe_exact w f em nm ts log :
  subscribe w f em nm ts log
  = (Returned
       (if is_yes (newsletter f)
        then match answer w (Insert "newsletter_subscribers"
                               [newsletterPayload em nm ts]) with
             | Returned (PgData (Some (first :: _))) => Some first
             | _ => None
             end
        else None),
     log ++ (if is_yes (newsletter f)
             then [Insert "newsletter_subscribers" [newsletterPayload em nm ts]]
             else [])).
Proof.
  unfold subscribe, Effect.catch, Effect.bind, db, Effect.send, Effect.ret.
  destruct (is_yes (newsletter f)); [|now rewrite app_nil_r].
  destruct (answer w _) as [[[[|first rest]|]|err]|e]; reflexivity.
Qed.

Lemma add_prayer_request_exact w f sid subj msg ts log :
  add_prayer_request w f sid subj msg ts log
  = (Returned tt,
     log ++ (if isPrayerRequest_of f
             then [Insert "prayer_requests" [prayerPayload w sid subj msg ts]]
             else [])).
Proof.
  unfold add_prayer_request, Effect.catch, Effect.bind, db, Effect.send, Effect.ret.
  destruct (isPrayerRequest_of f); [|now rewrite app_nil_r].
  destruct (answer w _) as [res|e]; reflexivity.
Qed.

(** The response and the operations of a submission with all the required
    fields. *)
Lemma POST_exact w request f :
  json request = Returned f ->
  required_present f = true ->
  POST w request
  = (if stored w f
     then success_response f (randomUUID w 0) (newsletterResult_of w f)
     else Http.json_with
            (Error (if returned_error (answer w (website_insert w f))
                       && returned_error (answer w (fallback_insert w f))
                    then "Failed to submit contact form"
                    else "Internal server error"))
            500,
     (if is_yes (newsletter f) then [newsletter_insert w f] else [])
     ++ [website_insert w f]
     ++ (if returned_error (answer w (website_insert w f))
         then [fallback_insert w f] else [])
     ++ (if stored w f && isPrayerRequest_of f then [prayer_insert w f] else [])).
Proof.
  intros Hjson Hreq.
  destruct (ContactFacts.required_values f Hreq)
    as (nm & em & subj & msg & Hn & He & Hs & Hm & Hguard & Vn & Ve & Vs & Vm).
  unfold stored, newsletterResult_of, newsletter_insert, prayer_insert,
    website_insert, fallback_insert.
  rewrite Vn, Ve, Vs, Vm.
  unfold POST, POST_try, Effect.handle. rewrite Hjson.
  cbn [Effect.bind Effect.lift]. rewrite Hn, He, Hs, Hm, Hguard.
  unfold Effect.bind, db, Effect.send, finish, Effect.bind.
  rewrite subscribe_exact. simpl app.
  destruct (answer w (Insert "website_messages" _)) as [[d|err]|e];
    cbn [Supabase.error returned_error failed negb andb].
  - rewrite add_prayer_request_exact. cbn [Effect.ret].
    now rewrite <- !app_assoc.
  - destruct (answer w (Insert "contact_submissions" _)) as [[d|err']|e];
      cbn [Supabase.error returned_error failed negb andb Effect.ret].
    + rewrite add_prayer_request_exact. cbn [Effect.ret].
      now rewrite <- !app_assoc.
    + now rewrite <- !app_assoc, app_nil_r.
    + now rewrite <- !app_assoc, app_nil_r.
  - now rewrite app_nil_r.
Qed.

(** X16: a submission that is not accepted writes nothing.  When a required
    field (name, email, subject, message) is missing or empty the handler
    answers status 400, and when the body cannot be parsed it answers 500;
    in both cases no operation is sent to the database, whatever the
    newsletter and prayer boxes say. *)
Theorem rejected_submission_writes_nothing w request :
  (forall f, json request = Returned f -> required_present f = false ->
     POST w request
     = (Http.json_with (Error "Missing required fields") 400, []))
  /\ (forall e, json request = Thrown e ->
        POST w request
        = (Http.json_with (Error "Internal server error") 500, [])).
Proof.
  split.
  - intros f Hjson Hreq.
    unfold POST, POST_try, Effect.handle. rewrite Hjson.
    cbn [Effect.bind Effect.lift]. unfold required_present in Hreq.
    destruct (name f) as [nm|]; [|reflexivity].
    destruct (email f) as [em|]; [|reflexivity].
    destruct (subject f) as [subj|]; [|reflexivity].
    destruct (message f) as [msg|]; [|reflexivity].
    simpl in Hreq.
    destruct (truthy nm), (truthy em), (truthy subj), (truthy msg);
      try discriminate; reflexivity.
  - intros e Hjson. unfold POST, POST_try, Effect.handle. rewrite Hjson.
    reflexivity.
Qed.

Lemma rejected_submission_writes_nothing_witness :
  required_present Scenarios.incomplete = false
  /\ POST Scenarios.contact_world {| json := Returned Scenarios.incomplete |}
     = (Http.json_with (Error "Missing required fields") 400, []).
Proof.
  split; [reflexivity|].
  exact (proj1 (rejected_submission_writes_nothing Scenarios.contact_world
                  {| json := Returned Scenarios.incomplete |})
           Scenarios.incomplete eq_refl eq_refl).
Defined.



(** X18: the response tells what was done.  With all the required fields
    present, the handler answers 200 exactly when the submission was stored
    by one of the two main inserts, and 500 otherwise.  On 200 the body
    carries the generated id as [submission_id], [newsletter_subscribed] is
    true exactly when the newsletter insert came back with a row, and
    [type] is [prayer_request] exactly when the submission is a prayer
    request, whose row in [prayer_requests] points back to the submission
    through [source_submission_id]. *)
Theorem contact_response_tells_what_was_done w request f :
  json request = Returned f ->
  required_present f = true ->
  let response := fst (POST w request) in
  (if stored w f
   then Http.status response = 200%Z
        /\ exists msg dbg,
             Http.body response
             = Success true msg (randomUUID w 0)
                 (if isPrayerRequest_of f then "prayer_request"
                  else "website_message")
                 (subscribed w f) dbg
   else Http.status response = 500%Z)
  /\ id_of_rows (website_insert w f) = Some (JStr (randomUUID w 0))
  /\ match prayer_insert w f with
     | Insert _ [row] =>
         obj_lookup row "source_submission_id" = Some (JStr (randomUUID w 0))
     | _ => False
     end.
Proof.
  intros Hjson Hreq. cbv zeta.
  rewrite (POST_exact w request f Hjson Hreq). cbn [fst].
  split; [|split; reflexivity].
  destruct (stored w f); [|reflexivity].
  split; [reflexivity|].
  unfold success_response, subscribed, newsletterResult_of. simpl Http.body.
  destruct (is_yes (newsletter f)); simpl.
  - destruct (answer w (newsletter_insert w f)) as [[[[|first rest]|]|err]|e];
      now do 2 eexists.
  - now do 2 eexists.
Qed.

Lemma contact_response_tells_what_was_done_witness :
  required_present Scenarios.prayer = true
  /\ exists msg dbg,
       Http.body (fst (POST Scenarios.contact_world Scenarios.prayer_request))
       = Success true msg "11111111-1111-4111-8111-111111111111"
           "prayer_request" true dbg.
Proof.
  split; [reflexivity|].
  destruct (contact_response_tells_what_was_done Scenarios.contact_world
              Scenarios.prayer_request Scenarios.prayer eq_refl eq_refl)
    as ((_ & msg & dbg & H) & _).
  now exists msg, dbg.
Defined.

Lemma first_word_no_space n : has_space n = false -> first_word n = n.
Proof.
  induction n as [|c n IH]; [reflexivity|]. simpl.
  destruct (Ascii.eqb c " "%char); [discriminate|].
  intros H. now rewrite IH.
Qed.

Lemma after_first_space_no_space n :
  has_space n = false -> after_first_space n = "".
Proof.
  induction n as [|c n IH]; [reflexivity|]. simpl.
  destruct (Ascii.eqb c " "%char); [discriminate | exact IH].
Qed.

Lemma split_at_first_space n :
  has_space n = true ->
  n = (first_word n ++ " " ++ after_first_space n)%string.
Proof.
  induction n as [|c n IH]; [discriminate|]. simpl.
  destruct (Ascii.eqb c " "%char) eqn:E.
  - apply Ascii.eqb_eq in E. now subst c.
  - simpl. intros H. f_equal. exact (IH H).
Qed.

(** X19: how a name is split for the newsletter.  A name without a space
    is the first name, with an empty last name.  A name with a space is cut
    at the first one: first name, space and last name give the name back.
    Only when nothing stands before the first space is the whole name used
    as the first name; so the first name of a subscriber is never empty. *)
Theorem newsletter_name_split email name timestamp :
  name <> "" ->
  let row := newsletterPayload email name timestamp in
  exists first last,
    obj_lookup row "first_name" = Some (JStr first)
    /\ obj_lookup row "last_name" = Some (JStr last)
    /\ first <> ""
    /\ (has_space name = false -> first = name /\ last = "")
    /\ (has_space name = true ->
        last = after_first_space name
        /\ (first_word name <> "" ->
            name = (first ++ " " ++ last)%string)
        /\ (first_word name = "" -> first = name)).
Proof.
  intros Hne. cbv zeta.
  exists (or_str (first_word name) name), (or_str (after_first_space name) "").
  split; [reflexivity|]. split; [reflexivity|].
  assert (Hlast : or_str (after_first_space name) "" = after_first_space name).
  { unfold or_str, truthy.
    destruct (String.eqb (after_first_space name) "") eqn:E; [|reflexivity].
    apply String.eqb_eq in E. now rewrite E. }
  assert (Hfirst : first_word name <> "" ->
                   or_str (first_word name) name = first_word name).
  { intros H. unfold or_str, truthy.
    destruct (String.eqb (first_word name) "") eqn:E; [|reflexivity].
    apply String.eqb_eq in E. contradiction. }
  assert (Hempty : first_word name = "" -> or_str (first_word name) name = name).
  { intros H. rewrite H. reflexivity. }
  rewrite Hlast. split; [|split].
  - destruct (String.eqb (first_word name) "") eqn:E.
    + apply String.eqb_eq in E. now rewrite (Hempty E).
    + apply String.eqb_neq in E. now rewrite (Hfirst E).
  - intros Hs. rewrite (after_first_space_no_space name Hs).
    split; [|reflexivity].
    rewrite (first_word_no_space name Hs) in *.
    unfold or_str. now destruct (truthy name).
  - intros Hs. split; [reflexivity|]. split.
    + intros H. rewrite (Hfirst H). now apply split_at_first_space.
    + exact Hempty.
Qed.

Lemma newsletter_name_split_witness :
  obj_lookup (newsletterPayload "a@example.org" "Ada King Lovelace" "t")
    "last_name"
  = Some (JStr "King Lovelace")
  /\ "Ada King Lovelace" <> "".
Proof.
  assert (Hne : "Ada King Lovelace" <> "") by discriminate.
  destruct (newsletter_name_split "a@example.org" "Ada King Lovelace" "t" Hne)
    as (first & last & _ & Hl & _ & _ & Hs).
  destruct (Hs eq_refl) as (-> & _).
  split; [exact Hl | exact Hne].
Defined.

End ContactMore.

(** ** More on planned visits *)

Module PlannedVisitsMore.

Import PlannedVisits.
Import VisitTrace.

Lemma visit_required_values f :
  required_present f = true ->
  exists fn ln em et pd,
    firstName f = Some fn /\ lastName f = Some ln /\ email f = Some em
    /\ eventType f = Some et /\ preferredDate f = Some pd
    /\ negb (truthy fn) || negb (truthy ln) || negb (truthy em)
       || negb (truthy et) || negb (truthy pd) = false
    /\ value (firstName f) = fn /\ value (lastName f) = ln
    /\ value (email f) = em /\ value (preferredDate f) = pd
    /\ truthy et = true.
Proof.
  unfold required_present, value, or_default, truthy_opt.
  destruct (firstName f) as [fn|]; [|discriminate].
  destruct (lastName f) as [ln|]; [|now rewrite andb_false_r].
  destruct (email f) as [em|]; [|now rewrite ?andb_false_r].
  destruct (eventType f) as [et|]; [|now rewrite ?andb_false_r].
  destruct (preferredDate f) as [pd|]; [|now rewrite ?andb_false_r].
  intros H. exists fn, ln, em, et, pd.
  destruct (truthy fn), (truthy ln), (truthy em), (truthy et), (truthy pd);
    try discriminate; repeat split; reflexivity.
Qed.

Lemma POST_guarded w request f :
  json request = Returned f ->
  required_present f = true ->
  POST w request
  = Effect.handle
      (_ <~ Effect.lift (createServerSupabaseClient w) ;;
       contact <~ find_or_create_contact w f (value (firstName f))
                    (value (lastName f)) (value (email f)) ;;
       create_visit w f (value (eventType f)) (value (preferredDate f)) contact)
      (fun error =>
         Http.json_with
           (Error "Failed to submit planned visit. Please try again."
              (if instanceof_Error error then exn_message error
               else "Unknown error")
              (match exn_code error with
               | Some c => or_null (Some c)
               | None => None
               end))
           500).
Proof.
  intros Hjson Hreq.
  destruct (visit_required_values f Hreq)
    as (fn & ln & em & et & pd & Hfn & Hln & Hem & Het & Hpd & Hguard
        & Vfn & Vln & Vem & Vpd & Tet).
  assert (Vet : value (eventType f) = et).
  { unfold value, or_default. now rewrite Het, Tet. }
  rewrite Vfn, Vln, Vem, Vpd, Vet.
  unfold POST, POST_try, Effect.handle. rewrite Hjson.
  cbn [Effect.bind Effect.lift]. now rewrite Hfn, Hln, Hem, Het, Hpd, Hguard.
Qed.

(** Step 1, when it returns: the contact found, or the one created. *)
Lemma find_or_create_contact_returns w f fn ln em log c log' :
  find_or_create_contact w f fn ln em log = (Returned c, log') ->
  exists found,
    select_contact w em = Returned found
    /\ match Supabase.data found with
       | Some existingId =>
           c = (existingId, 0) /\ log' = log ++ [Select "contacts" "email" em]
       | None =>
           answer_insert w (Insert "contacts" [contactRow f w fn ln em])
           = Returned (PgData (Some (fst c)))
           /\ snd c = 2
           /\ log' = log ++ [Select "contacts" "email" em;
                             Insert "contacts" [contactRow f w fn ln em]]
       end.
Proof.
  unfold find_or_create_contact, Effect.bind, Effect.send, Effect.throw, Effect.ret.
  destruct (select_contact w em) as [found|e]; [|discriminate].
  intros H. exists found. split; [reflexivity|].
  destruct found as [[existingId|]|searchError]; cbn [Supabase.data Supabase.error] in *.
  - injection H as <- <-. now split.
  - destruct (answer_insert w _) as [[[newId|]|err]|e];
      cbn [Supabase.data Supabase.error] in H; try discriminate H.
    injection H as <- <-. rewrite <- app_assoc. now repeat split.
  - destruct (negb (String.eqb (Supabase.code searchError) "PGRST116"));
      [discriminate H|].
    destruct (answer_insert w _) as [[[newId|]|err]|e];
      cbn [Supabase.data Supabase.error] in H; try discriminate H.
    injection H as <- <-. rewrite <- app_assoc. now repeat split.
Qed.

(** Steps 2 to 4, when they return: the date was read and the row was
    stored. *)
Lemma create_visit_returns w f et pd c log r log' :
  create_visit w f et pd c log = (Returned r, log') ->
  exists eventDate plannedVisitId,
    toISOString w (pd ++ "T" ++ or_default (preferredTime f) "10:00")
    = Returned eventDate
    /\ answer_insert w
         (Insert "planned_visits"
            [plannedVisitRow f w (snd c) (fst c) (eventName_of et) eventDate])
       = Returned (PgData (Some plannedVisitId))
    /\ r = Http.json
             (Success true
                "Your visit has been planned successfully! We'll be in touch soon."
                plannedVisitId)
    /\ log' = log ++ [Insert "planned_visits"
                        [plannedVisitRow f w (snd c) (fst c) (eventName_of et)
                           eventDate]].
Proof.
  unfold create_visit, Effect.bind, Effect.lift, Effect.send, Effect.throw, Effect.ret.
  destruct (toISOString w _) as [eventDate|e]; [|discriminate].
  destruct (answer_insert w _) as [[[plannedVisitId|]|err]|e] eqn:Hins;
    simpl; try discriminate.
  intros H. injection H as <- <-. exists eventDate, plannedVisitId.
  now repeat split.
Qed.

(** A submission with its required fields is answered with 200 when all
    the steps return, and with 500 as soon as one throws. *)
Lemma POST_steps w request f :
  json request = Returned f ->
  required_present f = true ->
  (exists c log r log',
     createServerSupabaseClient w = Returned tt
     /\ find_or_create_contact w f (value (firstName f)) (value (lastName f))
          (value (email f)) [] = (Returned c, log)
     /\ create_visit w f (value (eventType f)) (value (preferredDate f)) c log
        = (Returned r, log')
     /\ POST w request = (r, log'))
  \/ Http.status (fst (POST w request)) = 500%Z.
Proof.
  intros Hjson Hreq. rewrite (POST_guarded w request f Hjson Hreq).
  unfold Effect.handle, Effect.bind at 1, Effect.lift.
  destruct (createServerSupabaseClient w) as [[]|e]; [|now right].
  unfold Effect.bind.
  destruct (find_or_create_contact w f _ _ _ []) as [[c|e] log] eqn:Hc;
    [|now right].
  destruct (create_visit w f _ _ c log) as [[r|e] log'] eqn:Hv; [|now right].
  left. exists c, log, r, log'. now repeat split.
Qed.

(** X20: the guard on the required fields.  A submission is answered with
    status 400 exactly when one of first name, last name, email, event type
    and preferred date is missing or empty; then nothing at all is sent to
    the database.  Every other submission is answered with 200 or 500. *)
Theorem incomplete_visit_is_refused w request f :
  json request = Returned f ->
  (required_present f = false ->
   POST w request = (Http.json_with (Invalid "Missing required fields") 400, []))
  /\ (required_present f = true ->
      Http.status (fst (POST w request)) = 200%Z
      \/ Http.status (fst (POST w request)) = 500%Z).
Proof.
  intros Hjson. split.
  - intros Hreq. unfold POST, POST_try, Effect.handle. rewrite Hjson.
    cbn [Effect.bind Effect.lift].
    unfold required_present, truthy_opt in Hreq.
    destruct (firstName f) as [fn|]; [|reflexivity].
    destruct (lastName f) as [ln|]; [|reflexivity].
    destruct (email f) as [em|]; [|reflexivity].
    destruct (eventType f) as [et|]; [|reflexivity].
    destruct (preferredDate f) as [pd|]; [|reflexivity].
    destruct (truthy fn), (truthy ln), (truthy em), (truthy et), (truthy pd);
      try discriminate; reflexivity.
  - intros Hreq.
    destruct (POST_steps w request f Hjson Hreq)
      as [(c & log & r & log' & _ & _ & Hv & ->) | H500]; [left | now right].
    destruct (create_visit_returns _ _ _ _ _ _ _ _ Hv) as (d & v & _ & _ & -> & _).
    reflexivity.
Qed.

Lemma incomplete_visit_is_refused_witness :
  required_present (VisitForm.payload VisitForm.emptyForm) = false
  /\ POST Examples.visits_world
       {| json := Returned (VisitForm.payload VisitForm.emptyForm) |}
     = (Http.json_with (Invalid "Missing required fields") 400, []).
Proof.
  split; [reflexivity|].
  exact (proj1 (incomplete_visit_is_refused Examples.visits_world
                  {| json := Returned (VisitForm.payload VisitForm.emptyForm) |}
                  (VisitForm.payload VisitForm.emptyForm) eq_refl)
           eq_refl).
Defined.

Lemma status_200_required w request f :
  json request = Returned f ->
  Http.status (fst (POST w request)) = 200%Z ->
  required_present f = true.
Proof.
  intros Hjson H200. destruct (required_present f) eqn:Hreq; [reflexivity|].
  unfold POST, POST_try, Effect.handle in H200. rewrite Hjson in H200.
  cbn [Effect.bind Effect.lift] in H200.
  unfold required_present, truthy_opt in Hreq.
  destruct (firstName f) as [fn|]; [|discriminate H200].
  destruct (lastName f) as [ln|]; [|discriminate H200].
  destruct (email f) as [em|]; [|discriminate H200].
  destruct (eventType f) as [et|]; [|discriminate H200].
  destruct (preferredDate f) as [pd|]; [|discriminate H200].
  destruct (truthy fn), (truthy ln), (truthy em), (truthy et), (truthy pd);
    try discriminate Hreq; discriminate H200.
Qed.

(** X21: an accepted visit is linked to its contact.  When the handler
    answers 200 it has sent the search for the contact by email, then, only
    if the search found no one, the insert of a new contact, and last the
    insert of one row into [planned_visits]; nothing else.  The
    [contact_id] of that row is the id of the contact found, or else the id
    the insert of the contact answered with, and the [plannedVisitId] of
    the response is the id the insert of the visit answered with. *)
Theorem accepted_visit_is_linked_to_its_contact w request f :
  json request = Returned f ->
  Http.status (fst (POST w request)) = 200%Z ->
  exists found contactId creation row plannedVisitId,
    snd (POST w request)
    = contact_search f :: creation ++ [Insert "planned_visits" [row]]
    /\ obj_lookup row "contact_id" = Some (JStr contactId)
    /\ answer_insert w (Insert "planned_visits" [row])
       = Returned (PgData (Some plannedVisitId))
    /\ Http.body (fst (POST w request))
       = Success true
           "Your visit has been planned successfully! We'll be in touch soon."
           plannedVisitId
    /\ select_contact w (value (email f)) = Returned found
    /\ match Supabase.data found with
       | Some existingId => contactId = existingId /\ creation = []
       | None =>
           creation = [contact_insert w f]
           /\ answer_insert w (contact_insert w f)
              = Returned (PgData (Some contactId))
       end.
Proof.
  intros Hjson H200.
  pose proof (status_200_required w request f Hjson H200) as Hreq.
  destruct (POST_steps w request f Hjson Hreq)
    as [(c & log & r & log' & _ & Hc & Hv & HP) | H500];
    [|rewrite H500 in H200; discriminate H200].
  rewrite HP. cbn [fst snd].
  destruct (find_or_create_contact_returns _ _ _ _ _ _ _ _ Hc)
    as (found & Hsel & Hfound).
  destruct (create_visit_returns _ _ _ _ _ _ _ _ Hv)
    as (eventDate & plannedVisitId & _ & Hins & -> & ->).
  exists found, (fst c).
  exists (match Supabase.data found with
          | Some _ => []
          | None => [contact_insert w f]
          end).
  eexists. exists plannedVisitId.
  split; [|split; [|split; [exact Hins | split; [reflexivity | split; [exact Hsel|]]]]].
  - unfold contact_search, contact_insert.
    destruct (Supabase.data found) as [existingId|].
    + destruct Hfound as [_ ->]. reflexivity.
    + destruct Hfound as (_ & _ & ->). reflexivity.
  - destruct (eventName_of (value (eventType f))); reflexivity.
  - destruct (Supabase.data found) as [existingId|].
    + destruct Hfound as [-> _]. now split.
    + destruct Hfound as (Hnew & _ & _). now split.
Qed.

Lemma accepted_visit_is_linked_to_its_contact_witness :
  Http.status
    (fst (POST Scenarios.returning_visitor Examples.visit_request)) = 200%Z
  /\ map table_of (snd (POST Scenarios.returning_visitor Examples.visit_request))
     = [ "contacts"; "planned_visits" ]
  /\ exists row,
       In (Insert "planned_visits" [row])
         (snd (POST Scenarios.returning_visitor Examples.visit_request))
       /\ obj_lookup row "contact_id" = Some (JStr "c7").
Proof.
  split; [reflexivity|]. split; [reflexivity|].
  destruct (accepted_visit_is_linked_to_its_contact Scenarios.returning_visitor
              Examples.visit_request Examples.family_visit eq_refl eq_refl)
    as (found & contactId & creation & row & v & Hlog & Hrow & _ & _ & Hsel & Hc).
  injection Hsel as <-. simpl in Hc. destruct Hc as [-> ->].
  exists row. split; [|exact Hrow].
  rewrite Hlog. right. now left.
Defined.

(** X22: a failed search for the contact stops the handler before any
    write.  When the search by email throws, or answers with an error whose
    code is not [PGRST116] (no row), the handler answers 500 and the search
    is the only operation it has sent: no contact and no visit is written.
    The code of the database error is passed on in the body. *)
Theorem failed_contact_search_writes_nothing w request f :
  json request = Returned f ->
  required_present f = true ->
  createServerSupabaseClient w = Returned tt ->
  match select_contact w (value (email f)) with
  | Returned found =>
      exists searchError,
        Supabase.error found = Some searchError
        /\ Supabase.code searchError <> "PGRST116"
  | Thrown _ => True
  end ->
  Http.status (fst (POST w request)) = 500%Z
  /\ snd (POST w request) = [contact_search f]
  /\ forall found searchError,
       select_contact w (value (email f)) = Returned found ->
       Supabase.error found = Some searchError ->
       Http.body (fst (POST w request))
       = Error "Failed to submit planned visit. Please try again."
           (if PostgrestError_is_Error w then Supabase.message searchError
            else "Unknown error")
           (or_null (Some (Supabase.code searchError))).
Proof.
  intros Hjson Hreq Hclient Hsearch.
  assert (Hc : exists exn,
            find_or_create_contact w f (value (firstName f)) (value (lastName f))
              (value (email f)) []
            = (Thrown exn, [contact_search f])
            /\ forall found searchError,
                 select_contact w (value (email f)) = Returned found ->
                 Supabase.error found = Some searchError ->
                 exn = thrown_error w searchError).
  { unfold find_or_create_contact, Effect.bind, Effect.send, contact_search.
    simpl app.
    destruct (select_contact w (value (email f))) as [found|e].
    - destruct Hsearch as (searchError & Herr & Hcode). rewrite Herr.
      apply String.eqb_neq in Hcode. rewrite Hcode. cbn [negb Effect.throw].
      eexists. split; [reflexivity|].
      intros found' searchError' Hf He.
      injection Hf as <-. rewrite Herr in He. now injection He as <-.
    - eexists. split; [reflexivity|]. intros found searchError Hf.
      discriminate Hf. }
  destruct Hc as (exn & Hc & Hexn).
  rewrite (POST_guarded w request f Hjson Hreq).
  unfold Effect.handle, Effect.bind at 1, Effect.lift. rewrite Hclient.
  unfold Effect.bind. rewrite Hc.
  split; [reflexivity | split; [reflexivity|]].
  intros found searchError Hf He. now rewrite (Hexn found searchError Hf He).
Qed.

Lemma failed_contact_search_writes_nothing_witness :
  Http.status (fst (POST Scenarios.contacts_unreadable Examples.visit_request))
  = 500%Z
  /\ snd (POST Scenarios.contacts_unreadable Examples.visit_request)
     = [ Select "contacts" "email" "ada@example.org" ]
  /\ Http.body (fst (POST Scenarios.contacts_unreadable Examples.visit_request))
     = Error "Failed to submit planned visit. Please try again."
         "Unknown error" (Some "42501").
Proof.
  assert (Hsearch : exists searchError,
            Supabase.error (PgError (A := string) Examples.rls_denied)
            = Some searchError
            /\ Supabase.code searchError <> "PGRST116").
  { exists Examples.rls_denied. split; [reflexivity | discriminate]. }
  destruct (failed_contact_search_writes_nothing Scenarios.contacts_unreadable
              Examples.visit_request Examples.family_visit eq_refl eq_refl
              eq_refl Hsearch)
    as (Hstatus & Hlog & Hbody).
  split; [exact Hstatus | split; [exact Hlog|]].
  exact (Hbody (PgError Examples.rls_denied) Examples.rls_denied eq_refl eq_refl).
Defined.

(** X23: the date is read after the contact step.  When the preferred date
    and time do not make a date ([toISOString] throws), the handler answers
    500 and sends no row to [planned_visits]; but the contact step has run
    before, so for a visitor without contact whose insert succeeds the
    handler has written a new contact and nothing else. *)
Theorem unreadable_date_leaves_contact_without_visit w request f e :
  json request = Returned f ->
  required_present f = true ->
  toISOString w (date_text f) = Thrown e ->
  Http.status (fst (POST w request)) = 500%Z
  /\ planned_visit_rows (snd (POST w request)) = []
  /\ forall found newId,
       createServerSupabaseClient w = Returned tt ->
       select_contact w (value (email f)) = Returned found ->
       Supabase.data found = None ->
       (forall searchError, Supabase.error found = Some searchError ->
          Supabase.code searchError = "PGRST116") ->
       answer_insert w (contact_insert w f) = Returned (PgData (Some newId)) ->
       snd (POST w request) = [contact_search f; contact_insert w f].
Proof.
  intros Hjson Hreq Hdate.
  rewrite (POST_guarded w request f Hjson Hreq).
  unfold Effect.handle, Effect.bind at 1, Effect.lift.
  assert (Hvisit : forall c log,
            create_visit w f (value (eventType f)) (value (preferredDate f)) c log
            = (Thrown e, log)).
  { intros c log. unfold create_visit, Effect.bind, Effect.lift.
    unfold date_text in Hdate. now rewrite Hdate. }
  destruct (createServerSupabaseClient w) as [[]|e'].
  - unfold Effect.bind.
    destruct (PlannedVisitsFacts.find_or_create_contact_log w f
                (value (firstName f)) (value (lastName f)) (value (email f)) [])
      as (o & ops & Hc & Hops).
    rewrite Hc. simpl app.
    split; [|split].
    + destruct o as [c|e']; [now rewrite Hvisit | reflexivity].
    + destruct o as [c|e']; [now rewrite Hvisit | exact Hops].
    + intros found newId _ Hsel Hdata Hcode Hins.
      assert (Hlog : o = Returned (newId, 2)
                     /\ ops = [contact_search f; contact_insert w f]).
      { revert Hc.
        unfold find_or_create_contact, Effect.bind, Effect.send, Effect.throw,
          Effect.ret, contact_search, contact_insert in *.
        rewrite Hsel, Hdata. simpl app. rewrite Hins.
        cbn [Supabase.data Supabase.error].
        destruct (Supabase.error found) as [searchError|].
        - rewrite (Hcode searchError eq_refl). simpl.
          intros H. injection H as <- <-. now split.
        - intros H. injection H as <- <-. now split. }
      destruct Hlog as [-> ->]. now rewrite Hvisit.
  - split; [reflexivity|]. split; [reflexivity|].
    intros found newId Hclient. discriminate Hclient.
Qed.

Lemma unreadable_date_leaves_contact_without_visit_witness :
  Http.status (fst (POST Scenarios.bad_date Examples.visit_request)) = 500%Z
  /\ map table_of (snd (POST Scenarios.bad_date Examples.visit_request))
     = [ "contacts"; "contacts" ].
Proof.
  destruct (unreadable_date_leaves_contact_without_visit Scenarios.bad_date
              Examples.visit_request Examples.family_visit
              (Error_ "Invalid time value") eq_refl eq_refl eq_refl)
    as (Hstatus & _ & Hlog).
  split; [exact Hstatus|].
  rewrite (Hlog (PgError Examples.no_rows) "c1" eq_refl eq_refl eq_refl).
  - reflexivity.
  - intros searchError H. injection H as <-. reflexivity.
  - reflexivity.
Defined.

End PlannedVisitsMore.

(** ** The form of the planned visits and its route *)

Module VisitFormFacts.

Import VisitForm.
Import VisitSession.

Lemma initial_well_formed : well_formed initial.
Proof.
  unfold well_formed, initial. simpl.
  repeat split; try lia; try discriminate. now left.
Qed.

Lemma nth_error_eventTypes card value :
  nth_error eventTypes card = Some value -> In value eventTypes /\ value <> "".
Proof.
  intros H. split.
  - exact (nth_error_In _ _ H).
  - do 5 (destruct card as [|card]; [injection H as <-; discriminate|]).
    destruct card; discriminate H.
Qed.

Lemma nth_error_groupSizeOptions option n :
  nth_error groupSizeOptions option = Some n -> (1 <= int_value n <= 11)%Z.
Proof.
  intros H.
  do 11 (destruct option as [|option]; [injection H as <-; simpl; lia|]).
  destruct option; discriminate H.
Qed.

Lemma act_well_formed s a : well_formed s -> well_formed (act s a).
Proof.
  intros (Hstep & H1 & H2 & Hsize & Hevent).
  destruct s as [n submitting d]. simpl in *.
  destruct a as [field value|card|option|checked| |]; simpl.
  - destruct field; simpl;
      try (destruct (Nat.eqb n _) eqn:E; [apply Nat.eqb_eq in E; subst n|];
           unfold well_formed; simpl;
           repeat split; try lia; try assumption;
           try (intros; lia); try (intros; discriminate); auto).
    unfold well_formed; simpl. repeat split; try lia; assumption.
  - destruct (Nat.eqb n 2) eqn:E; [apply Nat.eqb_eq in E; subst n|];
      [|unfold well_formed; simpl; repeat split; try lia; assumption].
    destruct (nth_error eventTypes card) as [value|] eqn:Hcard;
      [|unfold well_formed; simpl; repeat split; try lia; assumption].
    destruct (nth_error_eventTypes card value Hcard) as [Hin Hne].
    unfold well_formed; simpl. repeat split; try lia; auto.
  - destruct (Nat.eqb n 2) eqn:E; [apply Nat.eqb_eq in E; subst n|];
      [|unfold well_formed; simpl; repeat split; try lia; assumption].
    destruct (nth_error groupSizeOptions option) as [g|] eqn:Hopt;
      [|unfold well_formed; simpl; repeat split; try lia; assumption].
    pose proof (nth_error_groupSizeOptions option g Hopt).
    unfold well_formed; simpl. repeat split; try lia; auto.
  - destruct (Nat.eqb n 2) eqn:E; [apply Nat.eqb_eq in E; subst n|];
      unfold well_formed; simpl; repeat split; try lia; auto.
  - unfold totalSteps, nextStep, totalSteps. simpl.
    destruct (Nat.eqb n 3) eqn:E3;
      [unfold well_formed; simpl; repeat split; try lia; assumption|].
    apply Nat.eqb_neq in E3.
    destruct (Nat.eqb n 1) eqn:E1; simpl.
    + apply Nat.eqb_eq in E1; subst n. simpl.
      destruct (isStep1Valid d) eqn:V1; simpl;
        unfold well_formed; simpl; repeat split; try lia; auto;
        intros; discriminate.
    + apply Nat.eqb_neq in E1. assert (n = 2) by lia. subst n. simpl.
      destruct (isStep2Valid d) eqn:V2; simpl;
        unfold well_formed; simpl; repeat split; try lia; auto.
  - unfold prevStep. simpl.
    destruct (Nat.eqb n 1) eqn:E1;
      [unfold well_formed; simpl; repeat split; try lia; assumption|].
    apply Nat.eqb_neq in E1.
    assert (Hn : n = 2 \/ n = 3) by lia.
    destruct Hn as [-> | ->]; simpl;
      unfold well_formed; simpl; repeat split; try lia; auto;
      intros; try lia; try discriminate.
Qed.

Lemma handleSubmit_well_formed s response_ok :
  well_formed s -> well_formed (handleSubmit s response_ok).
Proof.
  intros H. destruct response_ok; [exact initial_well_formed | exact H].
Qed.

Lemma step_well_formed s ev : well_formed s -> well_formed (step s ev).
Proof.
  intros H. destruct ev as [a|response_ok]; simpl.
  - now apply act_well_formed.
  - destruct (can_submit s); [now apply handleSubmit_well_formed | exact H].
Qed.

Lemma session_well_formed events :
  forall s, well_formed s -> well_formed (session s events).
Proof.
  induction events as [|ev events IH]; intros s H; [exact H|].
  apply IH. now apply step_well_formed.
Qed.

(** What the route writes for a form with its required fields: no row in
    [planned_visits], or one row made from the form. *)
Lemma planned_visit_rows_of_complete_form w request f :
  PlannedVisits.json request = Returned f ->
  VisitTrace.required_present f = true ->
  PlannedVisits.planned_visit_rows (snd (PlannedVisits.POST w request)) = []
  \/ exists k contactId eventDate,
       PlannedVisits.planned_visit_rows (snd (PlannedVisits.POST w request))
       = [PlannedVisits.plannedVisitRow f w k contactId
            (PlannedVisits.eventName_of (value (PlannedVisits.eventType f)))
            eventDate].
Proof.
  intros Hjson Hreq.
  rewrite (PlannedVisitsMore.POST_guarded w request f Hjson Hreq).
  unfold Effect.handle, Effect.bind at 1, Effect.lift.
  destruct (PlannedVisits.createServerSupabaseClient w) as [[]|e];
    [|now left].
  unfold Effect.bind.
  destruct (PlannedVisitsFacts.find_or_create_contact_log w f
              (value (PlannedVisits.firstName f))
              (value (PlannedVisits.lastName f))
              (value (PlannedVisits.email f)) [])
    as (o & ops & -> & Hops).
  simpl app. destruct o as [c|e]; [|now left].
  destruct (PlannedVisitsFacts.create_visit_log w f
              (value (PlannedVisits.eventType f))
              (value (PlannedVisits.preferredDate f)) c ops)
    as [[e ->] | (o & eventDate & ->)]; [now left|].
  right. exists (snd c), (fst c), eventDate.
  assert (Hrows :
    PlannedVisits.planned_visit_rows
      (ops ++ [Insert "planned_visits"
                 [PlannedVisits.plannedVisitRow f w (snd c) (fst c)
                    (PlannedVisits.eventName_of
                       (value (PlannedVisits.eventType f))) eventDate]])
    = [PlannedVisits.plannedVisitRow f w (snd c) (fst c)
         (PlannedVisits.eventName_of (value (PlannedVisits.eventType f)))
         eventDate])
    by (rewrite PlannedVisitsFacts.planned_visit_rows_app, Hops; reflexivity).
  destruct o; exact Hrows.
Qed.

Lemma truthy_value s : truthy s = true -> value (Some s) = s.
Proof. intros H. unfold value, or_default. now rewrite H. Qed.

(** X24: the wizard keeps the form consistent.  Whatever the visitor does
    (typing into the inputs shown, picking an event card or a group size,
    ticking the box, pressing Continue or Back, submitting), the step stays
    between 1 and 3, the form is past step 1 only with first name, last
    name and email filled in, it is at step 3 only with an event type and a
    date chosen, the group size is between 1 and 11, and the event type is
    empty or the value of one of the five cards. *)
Theorem wizard_keeps_the_form_consistent events :
  well_formed (session initial events).
Proof. apply session_well_formed. exact initial_well_formed. Qed.

(** X25: what the wizard submits passes the guard of the route.  Whenever
    the submit button can be pressed, the body sent has the five fields the
    route requires, so the route never answers 400 to it; and a row it
    writes to [planned_visits] names one of the five events of
    [eventTypeMap] and counts between 0 and 10 companions. *)
Theorem wizard_submission_passes_the_route_guard events w :
  let s := session initial events in
  can_submit s = true ->
  Http.status (fst (PlannedVisits.POST w (request_of s))) <> 400%Z
  /\ forall row,
       In row (PlannedVisits.planned_visit_rows
                 (snd (PlannedVisits.POST w (request_of s)))) ->
       (exists label,
          In label VisitTrace.labels
          /\ obj_lookup row "event_name" = Some (JStr label))
       /\ exists n,
            (0 <= n <= 10)%Z
            /\ obj_lookup row "companions_count"
               = Some (JNum (QArith_base.inject_Z n)).
Proof.
  intros s Hsubmit.
  destruct (session_well_formed events initial initial_well_formed)
    as (Hstep & H1 & H2 & Hsize & Hevent).
  fold s in Hstep, H1, H2, Hsize, Hevent.
  unfold can_submit, totalSteps in Hsubmit.
  apply andb_prop in Hsubmit. destruct Hsubmit as [H3 _].
  apply Nat.eqb_eq in H3.
  assert (V1 : isStep1Valid (formData s) = true) by (apply H1; lia).
  assert (V2 : isStep2Valid (formData s) = true) by (apply H2; exact H3).
  unfold isStep1Valid in V1. unfold isStep2Valid in V2.
  apply andb_prop in V1. destruct V1 as [V1 Tem].
  apply andb_prop in V1. destruct V1 as [Tfn Tln].
  apply andb_prop in V2. destruct V2 as [Tet Tpd].
  assert (Hreq : VisitTrace.required_present (payload (formData s)) = true).
  { unfold VisitTrace.required_present. simpl.
    now rewrite Tfn, Tln, Tem, Tet, Tpd. }
  assert (Hjson : PlannedVisits.json (request_of s)
                  = Returned (payload (formData s))) by reflexivity.
  split.
  - destruct (PlannedVisitsMore.POST_steps w (request_of s) _ Hjson Hreq)
      as [(c & log & r & log' & _ & _ & Hv & ->) | ->]; [|discriminate].
    destruct (PlannedVisitsMore.create_visit_returns _ _ _ _ _ _ _ _ Hv)
      as (d & v & _ & _ & -> & _).
    discriminate.
  - intros row Hin.
    destruct (planned_visit_rows_of_complete_form w (request_of s) _ Hjson Hreq)
      as [Hnone | (k & contactId & eventDate & Hrows)];
      [rewrite Hnone in Hin; destruct Hin|].
    rewrite Hrows in Hin. destruct Hin as [<- | []].
    cbn [PlannedVisits.eventType payload].
    rewrite (truthy_value _ Tet).
    split.
    + destruct Hevent as [Hempty | Hin].
      * rewrite Hempty in Tet. discriminate Tet.
      * simpl in Hin.
        destruct Hin as [<- | [<- | [<- | [<- | [<- | []]]]]];
          eexists; (split; [|reflexivity]); simpl; tauto.
    + exists (Z.max 0 (int_value (groupSize (formData s)) - 1)). split; [lia|].
      exact (proj2 (PlannedVisitsFacts.row_companions _ w k contactId _ eventDate)).
Qed.

Lemma wizard_submission_passes_the_route_guard_witness :
  can_submit (session initial (map Does Scenarios.filling)) = true
  /\ Http.status
       (fst (PlannedVisits.POST Examples.visits_world
               (request_of (session initial (map Does Scenarios.filling)))))
     <> 400%Z.
Proof.
  split; [reflexivity|].
  exact (proj1 (wizard_submission_passes_the_route_guard
                  (map Does Scenarios.filling) Examples.visits_world eq_refl)).
Defined.

End VisitFormFacts.

(** ** The donation route *)

Module DonationFacts.

Import Donations.

Lemma transaction_rows_app a b :
  transaction_rows (a ++ b) = transaction_rows a ++ transaction_rows b.
Proof.
  induction a as [|op a IH]; [reflexivity|]. simpl.
  destruct op as [[t rows| |]|api params]; auto.
  destruct (String.eqb t "transactions"); auto.
  now rewrite IH, app_assoc.
Qed.

(** [createTransactionRecord] sends nothing, or one insert into
    [transactions]; it returns only when the insert answered with a row. *)
Lemma createTransactionRecord_cases w cid q cur fund pm anon notes pi cust rec
  freq log :
  exists row,
    recorded row cid anon rec pi cust
    /\ ((exists e,
           createTransactionRecord w cid q cur fund pm anon notes pi cust rec
             freq log = (Thrown e, log))
        \/ (exists e,
              createTransactionRecord w cid q cur fund pm anon notes pi cust rec
                freq log
              = (Thrown e, log ++ [Db (Insert "transactions" [row])]))
        \/ (exists id,
              createTransactionRecord w cid q cur fund pm anon notes pi cust rec
                freq log
              = (Returned id, log ++ [Db (Insert "transactions" [row])])
              /\ answer_insert w (Insert "transactions" [row])
                 = Returned (PgData (Some id)))).
Proof.
  unfold createTransactionRecord, Effect.bind, Effect.lift, Effect.send,
    Effect.throw, Effect.ret.
  exists (transactionData w cid q cur fund pm anon notes pi cust rec freq).
  split; [repeat split|].
  destruct (createServerSupabaseClient w) as [[]|e]; [|left; now eexists].
  right.
  destruct (answer_insert w _) as [[[id|]|err]|e] eqn:Hins; simpl.
  - right. exists id. now split.
  - left. now eexists.
  - left. now eexists.
  - left. now eexists.
Qed.

(** The one-time branch always answers; it sends the creation of the
    payment intent and then, when that returned, the record. *)
Lemma one_time_outcome w d q cid cust log :
  exists r params tail,
    one_time w d q cid cust log
    = (Returned r, log ++ Stripe "paymentIntents.create" params :: tail)
    /\ (tail = [] /\ Http.status r = 500%Z
        \/ exists intent row,
             paymentIntents_create w params = Returned intent
             /\ tail = [Db (Insert "transactions" [row])]
             /\ recorded row cid (default_to (isAnonymous d) false) false
                  (Some (intent_id intent)) cust
             /\ (Http.status r = 500%Z
                 \/ exists id,
                      answer_insert w (Insert "transactions" [row])
                      = Returned (PgData (Some id))
                      /\ r = Http.json (PaymentCreated (client_secret intent)
                                          (intent_id intent)))).
Proof.
  unfold one_time, Effect.catch, Effect.bind at 1, Effect.send.
  match goal with
  | |- context [paymentIntents_create w ?p] => set (params := p)
  end.
  destruct (paymentIntents_create w params) as [intent|e] eqn:Hintent.
  - unfold Effect.bind.
    destruct (createTransactionRecord_cases w cid q (default_to (currency d) "usd")
                (default_to (fundDesignation d) "General") "Stripe"
                (default_to (isAnonymous d) false) (notes d)
                (Some (intent_id intent)) cust false
                (default_to (frequency d) "one-time")
                (log ++ [Stripe "paymentIntents.create" params]))
      as (row & Hrow & [[e ->] | [[e ->] | (id & -> & Hid)]]).
    + do 3 eexists. split; [reflexivity|]. left. now split.
    + rewrite <- app_assoc. do 3 eexists. split; [reflexivity|].
      right. exists intent, row.
      split; [exact Hintent | split; [reflexivity | split; [exact Hrow | now left]]].
    + rewrite <- app_assoc. do 3 eexists. split; [reflexivity|].
      right. exists intent, row.
      split; [exact Hintent | split; [reflexivity | split; [exact Hrow|]]].
      right. exists id. now split.
  - do 3 eexists. split; [reflexivity|]. left. now split.
Qed.

(** The recurring branch always answers; it sends the creation of the
    price, then of the setup intent, then the record. *)
Lemma recurring_outcome w d q cid customerId log :
  exists r price_params tail,
    recurring w d q cid customerId log
    = (Returned r, log ++ Stripe "prices.create" price_params :: tail)
    /\ (tail = [] /\ Http.status r = 500%Z
        \/ exists setup_params,
             (tail = [Stripe "setupIntents.create" setup_params]
              /\ Http.status r = 500%Z)
             \/ exists priceId intent row,
                  setupIntents_create w setup_params = Returned intent
                  /\ tail = [Stripe "setupIntents.create" setup_params;
                             Db (Insert "transactions" [row])]
                  /\ recorded row cid (default_to (isAnonymous d) false) true
                       None (Some customerId)
                  /\ (Http.status r = 500%Z
                      \/ exists id,
                           answer_insert w (Insert "transactions" [row])
                           = Returned (PgData (Some id))
                           /\ r = Http.json
                                    (RecurringSetup (intent_id intent)
                                       (client_secret intent) priceId
                                       "recurring"))).
Proof.
  unfold recurring, Effect.catch, Effect.bind at 1, Effect.send.
  match goal with
  | |- context [prices_create w ?p] => set (price_params := p)
  end.
  destruct (prices_create w price_params) as [priceId|e].
  - unfold Effect.bind at 1.
    match goal with
    | |- context [setupIntents_create w ?p] => set (setup_params := p)
    end.
    destruct (setupIntents_create w setup_params) as [intent|e] eqn:Hintent.
    + unfold Effect.bind.
      destruct (createTransactionRecord_cases w cid q
                  (default_to (currency d) "usd")
                  (default_to (fundDesignation d) "General") "Stripe (Recurring)"
                  (default_to (isAnonymous d) false) (notes d)
                  None (Some customerId) true
                  (default_to (frequency d) "one-time")
                  ((log ++ [Stripe "prices.create" price_params])
                   ++ [Stripe "setupIntents.create" setup_params]))
        as (row & Hrow & [[e ->] | [[e ->] | (id & -> & Hid)]]).
      * rewrite <- app_assoc. do 3 eexists. split; [reflexivity|].
        right. exists setup_params. left. now split.
      * rewrite <- !app_assoc. do 3 eexists. split; [reflexivity|].
        right. exists setup_params. right. exists priceId, intent, row.
        split; [exact Hintent | split; [reflexivity | split; [exact Hrow | now left]]].
      * rewrite <- !app_assoc. do 3 eexists. split; [reflexivity|].
        right. exists setup_params. right. exists priceId, intent, row.
        split; [exact Hintent | split; [reflexivity | split; [exact Hrow|]]].
        right. exists id. now split.
    + rewrite <- app_assoc. do 3 eexists. split; [reflexivity|].
      right. exists setup_params. left. now split.
  - do 3 eexists. split; [reflexivity|]. left. now split.
Qed.

(** The donor step writes to [contacts] and to the customers of the
    payment processor only; an early response of it is a 500. *)
Lemma identify_outcome w d log :
  exists o ops,
    identify w d log = (o, log ++ ops)
    /\ transaction_rows ops = []
    /\ (forall api params, In (Stripe api params) ops ->
          api = "customers.list" \/ api = "customers.create")
    /\ (forall r, o = Returned (inl r) -> Http.status r = 500%Z).
Proof.
  unfold identify.
  destruct (negb (default_to (isAnonymous d) false) && truthy_opt (donorEmail d)).
  2:{ exists (Returned (inr (None, None))), []. rewrite app_nil_r.
      repeat split; [intros api params []|discriminate]. }
  assert (Hcustomer : forall cid log0 ops0,
            transaction_rows ops0 = [] ->
            (forall api params, In (Stripe api params) ops0 -> False) ->
            exists o ops,
              Effect.catch
                (customerId <~ find_customer w (value (donorEmail d)) (donorName d) cid ;;
                 Effect.ret (inr (cid, Some customerId)))
                (fun _ =>
                   Effect.ret
                     (inl (Http.json_with
                             (Failure "Failed to set up customer account" None)
                             500)))
                (log0 ++ ops0)
              = (o, log0 ++ ops)
              /\ transaction_rows ops = []
              /\ (forall api params, In (Stripe api params) ops ->
                    api = "customers.list" \/ api = "customers.create")
              /\ (forall r, o = Returned (inl r) -> Http.status r = 500%Z)).
  { intros cid log0 ops0 Hrows Hnone.
    unfold Effect.catch, Effect.bind, find_customer, Effect.bind, Effect.send,
      Effect.ret.
    destruct (customers_list w _) as [[|first rest]|e].
    - destruct (customers_create w _) as [customerId|e];
        rewrite <- !app_assoc; do 2 eexists;
        (split; [reflexivity|]); rewrite !transaction_rows_app, Hrows;
        (split; [reflexivity|]);
        (split; [|intros r H; try discriminate H; now injection H as <-]);
        intros api params Hin;
        (apply in_app_or in Hin; destruct Hin as [Hin | Hin];
         [destruct (Hnone _ _ Hin)|]);
        simpl in Hin; destruct Hin as [H | [H | []]]; injection H as <- _; auto.
    - rewrite <- !app_assoc; do 2 eexists;
        (split; [reflexivity|]); rewrite !transaction_rows_app, Hrows;
        (split; [reflexivity|]);
        (split; [|intros r H; discriminate H]);
        intros api params Hin;
        (apply in_app_or in Hin; destruct Hin as [Hin | Hin];
         [destruct (Hnone _ _ Hin)|]);
        simpl in Hin; destruct Hin as [H | []]; injection H as <- _; auto.
    - rewrite <- !app_assoc; do 2 eexists;
        (split; [reflexivity|]); rewrite !transaction_rows_app, Hrows;
        (split; [reflexivity|]);
        (split; [|intros r H; try discriminate H; now injection H as <-]);
        intros api params Hin;
        (apply in_app_or in Hin; destruct Hin as [Hin | Hin];
         [destruct (Hnone _ _ Hin)|]);
        simpl in Hin; destruct Hin as [H | []]; injection H as <- _; auto. }
  unfold Effect.bind at 1, find_contact, Effect.bind at 1, Effect.lift.
  destruct (createServerSupabaseClient w) as [[]|e].
  2:{ exists (Thrown e), []. rewrite app_nil_r.
      repeat split; [intros api params []|discriminate]. }
  unfold Effect.bind at 1, Effect.send.
  destruct (select_contact w _) as [found|e].
  2:{ do 2 eexists. split; [reflexivity|].
      repeat split; [|discriminate].
      intros api params [H | []]. discriminate H. }
  destruct (Supabase.data found) as [existingId|].
  - cbn [Effect.ret].
    apply Hcustomer; [reflexivity|]. intros api params [H | []]. discriminate H.
  - destruct (truthy_opt (donorName d)).
    + unfold Effect.bind at 1, Effect.send.
      destruct (answer_insert w _) as [created|e].
      * rewrite <- app_assoc.
        destruct (Supabase.error created), (Supabase.data created);
          cbn [Effect.ret];
          (apply Hcustomer; [reflexivity|]);
          intros api params [H | [H | []]]; discriminate H.
      * rewrite <- app_assoc. do 2 eexists. split; [reflexivity|].
        repeat split; [|discriminate].
        intros api params [H | [H | []]]; discriminate H.
    + cbn [Effect.ret].
      apply Hcustomer; [reflexivity|]. intros api params [H | []]. discriminate H.
Qed.

(** What one request does: it is refused before anything is sent, or the
    donor step runs and then, unless it answered or threw, one of the two
    branches. *)
Lemma POST_outcome w request :
  (snd (POST w request) = [] /\ Http.status (fst (POST w request)) <> 200%Z)
  \/ exists d ops,
       json request = Returned d
       /\ transaction_rows ops = []
       /\ (forall api params, In (Stripe api params) ops ->
             api = "customers.list" \/ api = "customers.create")
       /\ ((snd (POST w request) = ops
            /\ Http.status (fst (POST w request)) <> 200%Z)
           \/ (exists cid cust,
                 default_to (frequency d) "one-time" = "one-time"
                 /\ POST w request
                    = (let (o, log) :=
                         one_time w d (default_to (amount d) (QArith_base.inject_Z 0))
                           cid cust ops in
                       (match o with
                        | Returned r => r
                        | Thrown _ =>
                            Http.json_with (Failure "Internal server error" None) 500
                        end, log)))
           \/ (exists cid customerId,
                 default_to (frequency d) "one-time" <> "one-time"
                 /\ POST w request
                    = (let (o, log) :=
                         recurring w d (default_to (amount d) (QArith_base.inject_Z 0))
                           cid customerId ops in
                       (match o with
                        | Returned r => r
                        | Thrown _ =>
                            Http.json_with (Failure "Internal server error" None) 500
                        end, log)))).
Proof.
  unfold POST, POST_try, Effect.handle.
  destruct (json request) as [d|e]; cbn [Effect.bind Effect.lift];
    [|left; split; [reflexivity | discriminate]].
  destruct (invalid_amount (amount d));
    [left; split; [reflexivity | discriminate]|].
  destruct (negb (truthy_opt (donorEmail d))
            && negb (default_to (isAnonymous d) false));
    [left; split; [reflexivity | discriminate]|].
  right. unfold Effect.bind.
  destruct (identify_outcome w d []) as (o & ops & -> & Hrows & Hapi & Hearly).
  simpl app. exists d, ops.
  split; [reflexivity | split; [exact Hrows | split; [exact Hapi|]]].
  destruct o as [[r|[cid cust]]|e].
  - left. split; [reflexivity|].
    change (Http.status r <> 200%Z). rewrite (Hearly r eq_refl). discriminate.
  - destruct (String.eqb (default_to (frequency d) "one-time") "one-time") eqn:Hf;
      cbn [negb].
    + apply String.eqb_eq in Hf. right. left. exists cid, cust.
      split; [exact Hf|].
      destruct (one_time w d _ cid cust ops) as [[r|e] log]; reflexivity.
    + apply String.eqb_neq in Hf.
      destruct (negb (truthy_opt cust)).
      * left. split; [reflexivity | discriminate].
      * right. right. exists cid, (value cust). split; [exact Hf|].
        destruct (recurring w d _ cid (value cust) ops) as [[r|e] log];
          reflexivity.
  - left. split; [reflexivity | discriminate].
Qed.

(** X26: a donation that cannot be processed is refused before anything
    is sent.  A missing, zero or negative amount is answered with status
    400, and so is a donation that is not anonymous and comes without
    email; in both cases neither the database nor the payment processor
    has been called. *)
Theorem unprocessable_donation_calls_no_service w request d :
  json request = Returned d ->
  (invalid_amount (amount d) = true ->
   POST w request
   = (Http.json_with (Failure "Valid amount is required" None) 400, []))
  /\ (invalid_amount (amount d) = false ->
      truthy_opt (donorEmail d) = false ->
      default_to (isAnonymous d) false = false ->
      POST w request
      = (Http.json_with
           (Failure "Email is required for non-anonymous donations" None) 400,
         [])).
Proof.
  intros Hjson. unfold POST, POST_try, Effect.handle. rewrite Hjson.
  cbn [Effect.bind Effect.lift]. split.
  - intros ->. reflexivity.
  - intros -> -> ->. reflexivity.
Qed.

Lemma unprocessable_donation_calls_no_service_witness :
  POST Scenarios.donation_world (Scenarios.gift_request Scenarios.no_gift)
  = (Http.json_with (Failure "Valid amount is required" None) 400, []).
Proof.
  exact (proj1 (unprocessable_donation_calls_no_service Scenarios.donation_world
                  (Scenarios.gift_request Scenarios.no_gift) Scenarios.no_gift
                  eq_refl)
           eq_refl).
Defined.

(** X27: a donation answered with 200 has been recorded once.  When the
    handler answers 200, the last thing it sent is the insert of one row
    into [transactions], the only one of the request, which the database
    answered with a row; the row is [pending].  For a one-time donation the
    payment intent was created before and the row carries the
    [paymentIntentId] of the response; for a recurring one the setup intent
    was created before and the row is marked recurring, without payment
    intent. *)
Theorem answered_donation_is_recorded_once w request :
  Http.status (fst (POST w request)) = 200%Z ->
  exists before row id,
    snd (POST w request) = before ++ [Db (Insert "transactions" [row])]
    /\ transaction_rows before = []
    /\ answer_insert w (Insert "transactions" [row]) = Returned (PgData (Some id))
    /\ obj_lookup row "payment_status" = Some (JStr "pending")
    /\ match Http.body (fst (POST w request)) with
       | PaymentCreated _ paymentIntentId =>
           obj_lookup row "stripe_payment_intent_id"
           = Some (opt_str (or_null (Some paymentIntentId)))
           /\ obj_lookup row "is_recurring" = Some (JBool false)
           /\ exists params, In (Stripe "paymentIntents.create" params) before
       | RecurringSetup _ _ _ _ =>
           obj_lookup row "stripe_payment_intent_id" = Some JNull
           /\ obj_lookup row "is_recurring" = Some (JBool true)
           /\ exists params, In (Stripe "setupIntents.create" params) before
       | Failure _ _ => False
       end.
Proof.
  destruct (POST_outcome w request)
    as [[_ Hno] | (d & ops & _ & Hrows & _
                   & [[_ Hno] | [(cid & cust & _ & ->) | (cid & cust & _ & ->)]])];
    try (intros H200; contradiction).
  - destruct (one_time_outcome w d (default_to (amount d) (QArith_base.inject_Z 0))
                cid cust ops)
      as (r & params & tail & -> & [[_ H500] | (intent & row & _ & -> & Hrow & [H500 | (id & Hid & ->)])]);
      cbn [fst snd]; try (rewrite H500; discriminate).
    intros _. destruct Hrow as (Hp & _ & _ & Hr & Hpi & _).
    exists (ops ++ [Stripe "paymentIntents.create" params]), row, id.
    split; [now rewrite <- app_assoc|].
    split; [now rewrite transaction_rows_app, Hrows|].
    split; [exact Hid | split; [exact Hp|]].
    cbn [Http.body Http.json]. split; [exact Hpi | split; [exact Hr|]].
    exists params. apply in_or_app. right. now left.
  - destruct (recurring_outcome w d (default_to (amount d) (QArith_base.inject_Z 0))
                cid cust ops)
      as (r & pp & tail & -> & [[_ H500] | (sp & [[_ H500] | (priceId & intent & row & _ & -> & Hrow & [H500 | (id & Hid & ->)])])]);
      cbn [fst snd]; try (rewrite H500; discriminate).
    intros _. destruct Hrow as (Hp & _ & _ & Hr & Hpi & _).
    exists (ops ++ [Stripe "prices.create" pp; Stripe "setupIntents.create" sp]),
      row, id.
    split; [now rewrite <- app_assoc|].
    split; [now rewrite transaction_rows_app, Hrows|].
    split; [exact Hid | split; [exact Hp|]].
    cbn [Http.body Http.json]. split; [exact Hpi | split; [exact Hr|]].
    exists sp. apply in_or_app. right. right. now left.
Qed.

Lemma answered_donation_is_recorded_once_witness :
  Http.status
    (fst (POST Scenarios.donation_world
            (Scenarios.gift_request (Scenarios.gift false "monthly")))) = 200%Z
  /\ exists row,
       transaction_rows
         (snd (POST Scenarios.donation_world
                 (Scenarios.gift_request (Scenarios.gift false "monthly"))))
       = [row]
       /\ obj_lookup row "is_recurring" = Some (JBool true).
Proof.
  split; [reflexivity|].
  destruct (answered_donation_is_recorded_once Scenarios.donation_world
              (Scenarios.gift_request (Scenarios.gift false "monthly")) eq_refl)
    as (before & row & id & Hlog & Hrows & _ & _ & Hbody).
  exists row. rewrite Hlog, transaction_rows_app, Hrows.
  split; [reflexivity|]. exact (proj1 (proj2 Hbody)).
Defined.

(** X28: no record without an intent, and never two.  Whatever the
    request and the answers of the services, the handler sends at most one
    row to [transactions].  It sends one only after the payment processor
    has created the payment intent (one-time, and the row carries its id)
    or the setup intent (recurring), and the row is [pending]. *)
Theorem record_follows_the_intent w request :
  length (transaction_rows (snd (POST w request))) <= 1
  /\ forall row,
       In row (transaction_rows (snd (POST w request))) ->
       obj_lookup row "payment_status" = Some (JStr "pending")
       /\ exists params intent,
            (In (Stripe "paymentIntents.create" params) (snd (POST w request))
             /\ paymentIntents_create w params = Returned intent
             /\ obj_lookup row "stripe_payment_intent_id"
                = Some (opt_str (or_null (Some (intent_id intent)))))
            \/ (In (Stripe "setupIntents.create" params) (snd (POST w request))
                /\ setupIntents_create w params = Returned intent
                /\ obj_lookup row "is_recurring" = Some (JBool true)).
Proof.
  destruct (POST_outcome w request)
    as [[-> _] | (d & ops & _ & Hrows & _
                  & [[-> _] | [(cid & cust & _ & ->) | (cid & cust & _ & ->)]])].
  - split; [simpl; lia | intros row []].
  - rewrite Hrows. split; [simpl; lia | intros row []].
  - destruct (one_time_outcome w d (default_to (amount d) (QArith_base.inject_Z 0))
                cid cust ops)
      as (r & params & tail & -> & [[-> _] | (intent & row & Hintent & -> & Hrow & _)]);
      cbn [fst snd]; rewrite transaction_rows_app, Hrows.
    + split; [simpl; lia | intros row []].
    + split; [simpl; lia|]. intros row' [<- | []].
      destruct Hrow as (Hp & _ & _ & _ & Hpi & _).
      split; [exact Hp|]. exists params, intent. left.
      split; [|split; [exact Hintent | exact Hpi]].
      apply in_or_app. right. now left.
  - destruct (recurring_outcome w d (default_to (amount d) (QArith_base.inject_Z 0))
                cid cust ops)
      as (r & pp & tail & -> & [[-> _] | (sp & [[-> _] | (priceId & intent & row & Hintent & -> & Hrow & _)])]);
      cbn [fst snd]; rewrite transaction_rows_app, Hrows.
    + split; [simpl; lia | intros row []].
    + split; [simpl; lia | intros row []].
    + split; [simpl; lia|]. intros row' [<- | []].
      destruct Hrow as (Hp & _ & _ & Hr & _ & _).
      split; [exact Hp|]. exists sp, intent. right.
      split; [|split; [exact Hintent | exact Hr]].
      apply in_or_app. right. right. now left.
Qed.

(** X29: an anonymous donation is not linked to the donor.  When the body
    says [isAnonymous: true], the handler reads and writes no contact and
    lists and creates no customer, even if an email and a name came with the
    request; the payment intent it creates has no customer and no receipt
    email; a row it sends to [transactions] has no contact, no customer and
    is marked anonymous.  A recurring donation, which needs a customer, is
    then refused with status 400 before anything is sent. *)
Theorem anonymous_donation_is_not_linked w request d :
  json request = Returned d ->
  isAnonymous d = Some true ->
  Forall (fun op => about_donor op = false) (snd (POST w request))
  /\ (forall api params,
        In (Stripe api params) (snd (POST w request)) ->
        api = "paymentIntents.create"
        /\ obj_lookup params "customer" = None
        /\ obj_lookup params "receipt_email" = None)
  /\ (forall row,
        In row (transaction_rows (snd (POST w request))) ->
        obj_lookup row "contact_id" = Some JNull
        /\ obj_lookup row "stripe_customer_id" = Some JNull
        /\ obj_lookup row "is_anonymous" = Some (JBool true))
  /\ (invalid_amount (amount d) = false ->
      default_to (frequency d) "one-time" <> "one-time" ->
      POST w request
      = (Http.json_with
           (Failure "Customer required for recurring donations" None) 400,
         [])).
Proof.
  intros Hjson Hanon.
  assert (Hnothing : forall r : Http.Response Body,
            Forall (fun op => about_donor op = false) (snd (r, @nil Op))
            /\ (forall api params,
                  In (Stripe api params) (snd (r, @nil Op)) ->
                  api = "paymentIntents.create"
                  /\ obj_lookup params "customer" = None
                  /\ obj_lookup params "receipt_email" = None)
            /\ (forall row,
                  In row (transaction_rows (snd (r, @nil Op))) ->
                  obj_lookup row "contact_id" = Some JNull
                  /\ obj_lookup row "stripe_customer_id" = Some JNull
                  /\ obj_lookup row "is_anonymous" = Some (JBool true))).
  { intros r. split; [constructor|]. split; [intros api params [] | intros row []]. }
  unfold POST, POST_try, Effect.handle. rewrite Hjson.
  cbn [Effect.bind Effect.lift].
  destruct (invalid_amount (amount d)).
  { destruct (Hnothing (Http.json_with (Failure "Valid amount is required" None) 400))
      as (H1 & H2 & H3).
    split; [exact H1 | split; [exact H2 | split; [exact H3 | discriminate]]]. }
  rewrite Hanon. cbn [default_to negb]. rewrite andb_false_r.
  unfold Effect.bind, identify. rewrite Hanon. cbn [default_to negb andb Effect.ret].
  destruct (String.eqb (default_to (frequency d) "one-time") "one-time") eqn:Hf;
    cbn [negb truthy_opt].
  2:{ destruct (Hnothing (Http.json_with
                            (Failure "Customer required for recurring donations"
                               None) 400))
        as (H1 & H2 & H3).
      split; [exact H1 | split; [exact H2 | split; [exact H3 | reflexivity]]]. }
  apply String.eqb_eq in Hf.
  unfold one_time, Effect.catch, Effect.bind, Effect.send, createTransactionRecord,
    Effect.bind, Effect.lift, Effect.send, Effect.throw, Effect.ret.
  rewrite Hanon. cbn [default_to optional app].
  destruct (paymentIntents_create w _) as [intent|e].
  - destruct (createServerSupabaseClient w) as [[]|e].
    + destruct (answer_insert w _) as [[[id|]|err]|e];
        cbn [Supabase.error Supabase.data snd];
        (split; [repeat constructor|]);
        (split; [intros api params [H | [H | []]];
                 [injection H as <- <-; repeat split | discriminate H]|]);
        (split; [intros row [<- | []]; repeat split
                | intros _ Hne; contradiction]).
    + cbn [snd]. split; [repeat constructor|].
      split; [intros api params [H | []]; injection H as <- <-; repeat split|].
      split; [intros row [] | intros _ Hne; contradiction].
  - cbn [snd]. split; [repeat constructor|].
    split; [intros api params [H | []]; injection H as <- <-; repeat split|].
    split; [intros row [] | intros _ Hne; contradiction].
Qed.

Lemma anonymous_donation_is_not_linked_witness :
  Forall (fun op => about_donor op = false)
    (snd (POST Scenarios.donation_world
            (Scenarios.gift_request (Scenarios.gift true "one-time"))))
  /\ POST Scenarios.donation_world
       (Scenarios.gift_request (Scenarios.gift true "weekly"))
     = (Http.json_with
          (Failure "Customer required for recurring donations" None) 400,
        []).
Proof.
  split.
  - exact (proj1 (anonymous_donation_is_not_linked Scenarios.donation_world
                    (Scenarios.gift_request (Scenarios.gift true "one-time"))
                    (Scenarios.gift true "one-time") eq_refl eq_refl)).
  - apply (proj2 (proj2 (proj2
             (anonymous_donation_is_not_linked Scenarios.donation_world
                (Scenarios.gift_request (Scenarios.gift true "weekly"))
                (Scenarios.gift true "weekly") eq_refl eq_refl)))).
    + reflexivity.
    + discriminate.
Defined.

End DonationFacts.
